(** * client-workerpool: the inter-unit messaging layer, embedded in Rocq

    The development follows the source files:
    - [Js]: the fragment of JavaScript values and plain objects the
      library manipulates (message payloads, property tables);
    - [Ids]: [getUniqueId] of lib/RemoteWorker.js;
    - [ListenerAware]: lib/ListenerAwareMixin.js;
    - [RemoteAware]: lib/RemoteAwareMixin.js;
    - [ThreadPool]: lib/ThreadPool.js;
    - [RemoteWorker]: the class RemoteWorker of lib/RemoteWorker.js;
    - [WorkerCluster]: lib/WorkerPool.js.

    Methods are state transformers over the fields of the object they
    belong to; a JavaScript exception is an explicit outcome, and the
    state reached when it is raised is kept. *)

From Stdlib Require Import String Ascii List ZArith NArith Lia Bool.
From Stdlib Require Import Permutation FinFun DecimalString DecimalN.
From Equations Require Import Equations.
Import ListNotations.

Set Warnings "-register-all".

Open Scope list_scope.
Open Scope string_scope.

(** ** JavaScript values and plain objects *)
Module Js.

(** An [Error] object: the three properties the library reads. *)
Record JsError := mkJsError {
  err_name : string;
  err_message : string;
  err_stack : string
}.

(** Values that travel in messages.  Numbers are the integers. *)
Inductive JsVal :=
| VUndef
| VNull
| VBool (b : bool)
| VNum (z : Z)
| VStr (s : string)
| VArr (items : list JsVal)
| VObj (fields : list (string * JsVal))
| VError (e : JsError).

(** [new Error(msg)], and the errors the engine itself raises.  The text
    of [stack] depends on the host; the model keeps its header line. *)
Definition newError (name msg : string) : JsError :=
  mkJsError name msg (name ++ ": " ++ msg).

Definition Error (msg : string) : JsError := newError "Error" msg.
Definition TypeError (msg : string) : JsError := newError "TypeError" msg.

(** ToBoolean *)
Definition truthy (v : JsVal) : bool :=
  match v with
  | VUndef | VNull => false
  | VBool b => b
  | VNum z => negb (z =? 0)%Z
  | VStr s => negb (s =? "")
  | VArr _ | VObj _ | VError _ => true
  end.

(** The operator [===].  Two primitives are compared by value.  Arrays,
    objects and errors are compared by reference: a value read from a
    message is a fresh copy, never the object a unit already holds, so
    the comparison is false whenever one side is such a value. *)
Definition strict_eq (a b : JsVal) : bool :=
  match a, b with
  | VUndef, VUndef => true
  | VNull, VNull => true
  | VBool x, VBool y => Bool.eqb x y
  | VNum x, VNum y => (x =? y)%Z
  | VStr x, VStr y => (x =? y)
  | _, _ => false
  end.

(** [typeof v === 'object'] *)
Definition typeof_object (v : JsVal) : bool :=
  match v with
  | VNull | VArr _ | VObj _ | VError _ => true
  | _ => false
  end.

Definition dec_of_Z (z : Z) : string := NilZero.string_of_int (Z.to_int z).
Definition dec_of_N (n : N) : string := NilZero.string_of_uint (N.to_uint n).

Fixpoint join (sep : string) (l : list string) : string :=
  match l with
  | [] => ""
  | [x] => x
  | x :: rest => x ++ sep ++ join sep rest
  end.

(** ToString, which is also ToPropertyKey for the values above. *)
Fixpoint to_string (v : JsVal) : string :=
  match v with
  | VUndef => "undefined"
  | VNull => "null"
  | VBool true => "true"
  | VBool false => "false"
  | VNum z => dec_of_Z z
  | VStr s => s
  | VArr items =>
      join "," (map (fun x => match x with
                              | VUndef | VNull => ""
                              | _ => to_string x
                              end) items)
  | VObj _ => "[object Object]"
  | VError e =>
      if err_message e =? "" then err_name e
      else err_name e ++ ": " ++ err_message e
  end.

(** *** Plain objects used as tables

    Own enumerable properties in enumeration order.  Every key the
    library stores is an identifier of [getUniqueId], the word master,
    or a command name, none of which is an array index, so enumeration
    order is insertion order.

    The tables of the library are object literals, so the operator [in]
    and a property read also see what [Object.prototype] provides.
    [get] and [has] below read own properties; [inherited] tells the
    names on which the two differ from the code.  A name given by a
    caller or carried by a message is looked up with [get] and [has]
    only where [inherited] is false of it: the statements about such
    lookups carry that condition. *)
Definition Obj (A : Type) := list (string * A).

Section Tables.
Context {A : Type}.

(** [o[k]], for a name that is not [inherited] *)
Fixpoint get (k : string) (o : Obj A) : option A :=
  match o with
  | [] => None
  | (k', v) :: rest => if k =? k' then Some v else get k rest
  end.

(** [k in o], for a name that is not [inherited] *)
Definition has (k : string) (o : Obj A) : bool :=
  match get k o with Some _ => true | None => false end.

(** [o[k] = v]: an existing property keeps its place. *)
Fixpoint set (k : string) (v : A) (o : Obj A) : Obj A :=
  match o with
  | [] => [(k, v)]
  | (k', v') :: rest =>
      if k =? k' then (k, v) :: rest else (k', v') :: set k v rest
  end.

(** [delete o[k]] *)
Fixpoint del (k : string) (o : Obj A) : Obj A :=
  match o with
  | [] => []
  | (k', v') :: rest =>
      if k =? k' then del k rest else (k', v') :: del k rest
  end.

(** [Object.keys(o)], also the order of [for (k in o)]. *)
Definition keys (o : Obj A) : list string := map fst o.
End Tables.

(** The property names of [Object.prototype]: for these, [k in o] is
    true of an object literal that has no such property of its own, and
    [o[k]] is the inherited member (an assignment to [__proto__] changes
    the prototype instead of adding a property). *)
Definition prototype_names : list string :=
  ["constructor"; "hasOwnProperty"; "isPrototypeOf"; "propertyIsEnumerable";
   "toLocaleString"; "toString"; "valueOf"; "__proto__";
   "__defineGetter__"; "__defineSetter__";
   "__lookupGetter__"; "__lookupSetter__"].

Definition inherited (k : string) : bool :=
  existsb (String.eqb k) prototype_names.

(** [o.f] on a plain object: [undefined] when there is no such property. *)
Definition prop (o : Obj JsVal) (f : string) : JsVal :=
  match get f o with
  | Some x => x
  | None => VUndef
  end.

(** [v.f] on a message payload.  Reading a property of [null] or
    [undefined] raises; the fields the library reads exist on plain
    objects only. *)
Definition field (v : JsVal) (f : string) : JsError + JsVal :=
  match v with
  | VObj o => inr (prop o f)
  | VUndef | VNull =>
      inl (TypeError ("Cannot read properties of " ++ to_string v))
  | _ => inr VUndef
  end.

(** The elements an array pattern or a spread takes from [v]. *)
Definition iterate (v : JsVal) : JsError + list JsVal :=
  match v with
  | VArr items => inr items
  | VStr s => inr (map (fun c => VStr (String c "")) (list_ascii_of_string s))
  | _ => inl (TypeError (to_string v ++ " is not iterable"))
  end.

(** [for (const x of o)] on a plain object used as a table.  The
    statement asks [o] for its iterator; a plain object has none,
    whatever its properties, and the statement raises, as [iterate] does
    on an object value. *)
Definition iterate_object {A} (o : Obj A) : JsError + list A :=
  inl (TypeError "object is not iterable").

(** [JSON.parse(JSON.stringify(v))] on a value: [None] stands for a
    value JSON leaves out ([undefined]). *)
Fixpoint json_value (v : JsVal) : option JsVal :=
  match v with
  | VUndef => None
  | VNull => Some VNull
  | VBool b => Some (VBool b)
  | VNum z => Some (VNum z)
  | VStr s => Some (VStr s)
  | VArr items =>
      Some (VArr (map (fun x => match json_value x with
                                | Some y => y
                                | None => VNull
                                end) items))
  | VObj fields =>
      Some (VObj ((fix clone (l : list (string * JsVal)) :=
                     match l with
                     | [] => []
                     | (k, x) :: rest =>
                         match json_value x with
                         | Some y => (k, y) :: clone rest
                         | None => clone rest
                         end
                     end) fields))
  | VError _ => Some (VObj [])
  end.

(** [JSON.parse(JSON.stringify(data))] on a payload object. *)
Definition json_clone (data : Obj JsVal) : Obj JsVal :=
  match json_value (VObj data) with
  | Some (VObj o) => o
  | _ => []
  end.

End Js.
Import Js.

(** ** Outcomes of a method call *)
Module Eff.

(** A call returns, raises an [Error], or (in the model only) stops
    because the recursion budget of the caller is used up. *)
Inductive Outcome (A : Type) :=
| Ret (a : A)
| Exn (e : JsError)
| Exhausted.
Arguments Ret {A} a.
Arguments Exn {A} e.
Arguments Exhausted {A}.

(** A method of an object with fields [S]. *)
Definition M (S A : Type) : Type := S -> Outcome A * S.

Definition ret {S A} (a : A) : M S A := fun s => (Ret a, s).
Definition throw {S A} (e : JsError) : M S A := fun s => (Exn e, s).
Definition exhausted {S A} : M S A := fun s => (Exhausted, s).

Definition bind {S A B} (c : M S A) (k : A -> M S B) : M S B :=
  fun s =>
    match c s with
    | (Ret a, s') => k a s'
    | (Exn e, s') => (Exn e, s')
    | (Exhausted, s') => (Exhausted, s')
    end.

Definition gets {S A} (f : S -> A) : M S A := fun s => (Ret (f s), s).
Definition modify {S} (f : S -> S) : M S unit := fun s => (Ret tt, f s).

(** A value that may fail to evaluate, inside a method. *)
Definition lift {S A} (r : JsError + A) : M S A :=
  match r with
  | inl e => throw e
  | inr a => ret a
  end.

(** [try { c } catch (err) { h(err) }] *)
Definition try_catch {S A} (c : M S A) (h : JsError -> M S A) : M S A :=
  fun s =>
    match c s with
    | (Exn e, s') => h e s'
    | r => r
    end.

Declare Scope eff_scope.
Delimit Scope eff_scope with eff.
Notation "x <- c ;; k" := (bind c (fun x => k))
  (at level 61, c at next level, right associativity) : eff_scope.
Notation "c ;; k" := (bind c (fun _ => k))
  (at level 61, right associativity) : eff_scope.

End Eff.
Import Eff.
Open Scope eff_scope.

(** ** The host: channel endpoints and message events *)
Module Host.

Inductive PortEnd := Port1 | Port2.

(** One end of a [MessageChannel]. *)
Record Port := mkPort { channel : nat; port_end : PortEnd }.

(** A [MessageEvent]: the payload and the transferred ports.
    [isTrusted] is false for the events [createMessageEvent] builds. *)
Record Event := mkEvent {
  data : JsVal;
  ports : list Port;
  isTrusted : bool
}.

(** What [JSON.stringify] keeps of an event object. *)
Definition event_value (evt : Event) : JsVal :=
  VObj [("isTrusted", VBool (isTrusted evt))].

End Host.
Import Host.

(** ** lib/RemoteWorker.js: [getUniqueId] *)
Module Ids.

(** The module-level counter, and the text the host contributes to the
    n-th identifier: time, timer and random parts, joined by dots. *)
Record IdSource := mkIdSource {
  uniqueId : N;
  clock : N -> string
}.

Definition getUniqueId (g : IdSource) : string * IdSource :=
  let n := (uniqueId g + 1)%N in
  (dec_of_N n ++ "." ++ clock g n, mkIdSource n (clock g)).

End Ids.
Import Ids.

(** ** lib/ListenerAwareMixin.js *)
Module ListenerAware.

(** A listener is a function of the event: it returns ([None]) or raises
    ([Some e]).  The type leaves out the non-callable values that
    [addMessageListener] refuses. *)
Definition Listener := Event -> option JsError.

(** One invocation [listener.call(listener, evt)]. *)
Record Call := mkCall { call_idx : string; call_evt : Event }.

Definition addMessageListener (fn : Listener) (g : IdSource)
  (listeners : Obj Listener) : string * IdSource * Obj Listener :=
  let (idx, g') := getUniqueId g in
  (idx, g', set idx fn listeners).

Definition removeMessageListener (idx : string) (listeners : Obj Listener)
  : bool * Obj Listener :=
  if has idx listeners then (true, del idx listeners)
  else (false, listeners).

(** [executeMessageListeners]: the loop body has no handler around the
    call, so the first exception leaves the loop.  The result is the
    calls made, in order, and the exception if there was one. *)
Fixpoint executeMessageListeners (evt : Event) (listeners : Obj Listener)
  : list Call * option JsError :=
  match listeners with
  | [] => ([], None)
  | (idx, listener) :: rest =>
      match listener evt with
      | Some e => ([mkCall idx evt], Some e)
      | None =>
          let (calls, r) := executeMessageListeners evt rest in
          (mkCall idx evt :: calls, r)
      end
  end.

End ListenerAware.

(** ** lib/RemoteAwareMixin.js *)
Module RemoteAware.

Definition MASTER_THREAD : string := "master".

Inductive PromiseState :=
| Pending
| Resolved (v : JsVal)
| Rejected (v : JsVal).

(** The fields of the mixin.  [R] is what a sibling entry holds: a channel
    endpoint in a worker, a RemoteWorker in the controller.  [promises]
    is the heap of promise objects [registerCallbackId] has created; a
    callback entry refers to its promise by position. *)
Record t (R : Type) := mk {
  id : JsVal;
  remotes : Obj R;
  callbacks : Obj nat;
  remoteKey : nat;
  promises : list PromiseState
}.
Arguments mk {R}.
Arguments id {R}.
Arguments remotes {R}.
Arguments callbacks {R}.
Arguments remoteKey {R}.
Arguments promises {R}.

Section Mixin.
Context {R : Type}.

Definition init : t R := mk VNull [] [] 0 [].

Definition with_id (v : JsVal) (s : t R) : t R :=
  mk v (remotes s) (callbacks s) (remoteKey s) (promises s).
Definition with_remotes (r : Obj R) (s : t R) : t R :=
  mk (id s) r (callbacks s) (remoteKey s) (promises s).
Definition with_callbacks (c : Obj nat) (s : t R) : t R :=
  mk (id s) (remotes s) c (remoteKey s) (promises s).
Definition with_remoteKey (k : nat) (s : t R) : t R :=
  mk (id s) (remotes s) (callbacks s) k (promises s).
Definition with_promises (p : list PromiseState) (s : t R) : t R :=
  mk (id s) (remotes s) (callbacks s) (remoteKey s) p.

Definition isMasterThread (threadKey : JsVal) : bool :=
  strict_eq threadKey (VStr MASTER_THREAD).

Definition isThisThread (threadKey : JsVal) (s : t R) : bool :=
  strict_eq threadKey (id s).

(** [keys[i]] *)
Definition key_at (ks : list string) (i : nat) : JsVal :=
  match nth_error ks i with
  | Some k => VStr k
  | None => VUndef
  end.

(** The cursor after a selection: [this.remoteKey >= keys.length - 1]
    is an integer comparison, true for every cursor when there is no key. *)
Definition next_cursor (ks : list string) (i : nat) : nat :=
  if (Z.of_nat i >=? Z.of_nat (length ks) - 1)%Z then 0 else i + 1.

Definition getNextRemoteKey (s : t R) : JsVal * t R :=
  let ks := keys (remotes s) in
  let key := key_at ks (remoteKey s) in
  (key, with_remoteKey (next_cursor ks (remoteKey s)) s).

(** [this.remotes.length !== 0].  [remotes] is a plain object: the
    property read gives a sibling entry when a sibling is called length,
    and [undefined] otherwise; neither is the number 0. *)
Definition hasRemotes (s : t R) : bool :=
  match get "length" (remotes s) with
  | Some _ => true
  | None => true
  end.

(** [registerCallbackId]: a new pending promise, stored under the id. *)
Definition registerCallbackId (callbackId : string) (s : t R) : nat * t R :=
  let promise := length (promises s) in
  (promise,
   with_callbacks (set callbackId promise (callbacks s))
     (with_promises ((promises s ++ [Pending])%list) s)).

(** Settling a promise has an effect only while it is pending. *)
Fixpoint settle_at (p : nat) (o : PromiseState) (l : list PromiseState)
  : list PromiseState :=
  match l, p with
  | [], _ => []
  | Pending :: rest, 0 => o :: rest
  | x :: rest, 0 => x :: rest
  | x :: rest, S p' => x :: settle_at p' o rest
  end.

(** [promise.resolve(v)] and [promise.reject(v)] *)
Definition resolve (promise : nat) (v : JsVal) (s : t R) : t R :=
  with_promises (settle_at promise (Resolved v) (promises s)) s.
Definition reject (promise : nat) (v : JsVal) (s : t R) : t R :=
  with_promises (settle_at promise (Rejected v) (promises s)) s.

(** The two methods of the promise as one action: [settle p (Rejected v)]
    is [p.reject(v)], [settle p (Resolved v)] is [p.resolve(v)]. *)
Definition settle (promise : nat) (o : PromiseState) : M (t R) unit :=
  modify (fun s => with_promises (settle_at promise o (promises s)) s).

(** [receiveCommandResult], with what the methods of the promise do left
    to [act]: the entry is looked up and removed, and only then is the
    method called. *)
Definition receiveCommandResult_with
  (act : nat -> PromiseState -> M (t R) unit) (evt : Event) : M (t R) unit :=
  returnId <- lift (field (data evt) "returnId") ;;
  cbs <- gets callbacks ;;
  match get (to_string returnId) cbs with
  | Some callback =>
      modify (with_callbacks (del (to_string returnId) cbs)) ;;
      error <- lift (field (data evt) "error") ;;
      if truthy error then act callback (Rejected error)
      else
        result <- lift (field (data evt) "data") ;;
        act callback (Resolved result)
  | None => ret tt
  end.

(** [receiveCommandResult] *)
Definition receiveCommandResult (evt : Event) : M (t R) unit :=
  receiveCommandResult_with settle evt.

(** [createMessageEvent(data)] *)
Definition createMessageEvent (payload : JsVal) : Event :=
  mkEvent payload [] false.

End Mixin.
End RemoteAware.

(** ** lib/ThreadPool.js: the class ThreadPool *)
Module ThreadPool.
Import ListenerAware.

(** What calling a registered command yields: a value that is not a
    promise, a promise with its eventual fate, or an exception.  Handlers
    are taken to be functions of their arguments, and a promise they
    reject is taken to be rejected with an Error object, the case the
    reaction [err.stack || err.message || JSON.stringify(err)] is
    written for. *)
Inductive HandlerResult :=
| HReturn (v : JsVal)
| HFulfilled (v : JsVal)
| HRejected (e : JsError)
| HPending
| HThrow (e : JsError).

Definition Handler := JsVal -> list JsVal -> HandlerResult.

(** What a worker does to the world outside its own fields. *)
Inductive Effect :=
| PostToMaster (payload : JsVal) (transferable : JsVal)
| PostToPort (p : Port) (payload : JsVal) (transferable : JsVal)
| PortStart (p : Port)
| PortListen (p : Port) (threadId : JsVal)
| Invoke (cmd : string) (thread : JsVal) (args : list JsVal)
| Dispatch (c : Call).

(** The fields of a ThreadPool: those of the two mixins, its own, the
    identifier source of its context and the effects so far. *)
Record t := mk {
  ra : RemoteAware.t (option Port);
  listeners : Obj Listener;
  httpAuth : JsVal;
  httpAccessToken : JsVal;
  ports : Obj (option Port);
  commands : Obj Handler;
  ids : IdSource;
  effects : list Effect
}.

(** [new ThreadPool(context)] *)
Definition init (g : IdSource) : t :=
  mk RemoteAware.init [] VNull VNull [] [] g [].

Definition with_ra (x : RemoteAware.t (option Port)) (s : t) : t :=
  mk x (listeners s) (httpAuth s) (httpAccessToken s) (ports s)
     (commands s) (ids s) (effects s).
Definition with_httpAuth (x : JsVal) (s : t) : t :=
  mk (ra s) (listeners s) x (httpAccessToken s) (ports s)
     (commands s) (ids s) (effects s).
Definition with_httpAccessToken (x : JsVal) (s : t) : t :=
  mk (ra s) (listeners s) (httpAuth s) x (ports s)
     (commands s) (ids s) (effects s).
Definition with_ports (x : Obj (option Port)) (s : t) : t :=
  mk (ra s) (listeners s) (httpAuth s) (httpAccessToken s) x
     (commands s) (ids s) (effects s).
Definition with_commands (x : Obj Handler) (s : t) : t :=
  mk (ra s) (listeners s) (httpAuth s) (httpAccessToken s) (ports s)
     x (ids s) (effects s).
Definition with_ids (x : IdSource) (s : t) : t :=
  mk (ra s) (listeners s) (httpAuth s) (httpAccessToken s) (ports s)
     (commands s) x (effects s).
Definition with_effects (x : list Effect) (s : t) : t :=
  mk (ra s) (listeners s) (httpAuth s) (httpAccessToken s) (ports s)
     (commands s) (ids s) x.

Definition emit (e : Effect) : M t unit :=
  modify (fun s => with_effects ((effects s ++ [e])%list) s).

(** A method of the RemoteAware mixin, called on a ThreadPool. *)
Definition mixin {A} (c : M (RemoteAware.t (option Port)) A) : M t A :=
  fun s => let (r, x) := c (ra s) in (r, with_ra x s).

Definition mixin_pure {A}
  (c : RemoteAware.t (option Port) -> A * RemoteAware.t (option Port))
  : M t A :=
  fun s => let (a, x) := c (ra s) in (Ret a, with_ra x s).

Definition getUniqueId : M t string :=
  fun s => let (i, g) := Ids.getUniqueId (ids s) in (Ret i, with_ids g s).

(** [executeMessageListeners] of the listener mixin *)
Definition executeMessageListeners (evt : Event) : M t unit :=
  fun s =>
    let (calls, r) := ListenerAware.executeMessageListeners evt (listeners s) in
    let s' := with_effects ((effects s ++ map Dispatch calls)%list) s in
    match r with
    | None => (Ret tt, s')
    | Some e => (Exn e, s')
    end.

(** [port.postMessage(data, transferable)] on a sibling entry; the entry
    is [undefined] when the announcement carried no port. *)
Definition port_postMessage (entry : option Port) (payload transferable : JsVal)
  : M t unit :=
  match entry with
  | Some p => emit (PostToPort p payload transferable)
  | None => throw (TypeError "Cannot read properties of undefined")
  end.

(** [sendMessageToRemote] of the RemoteAware mixin (the super call) *)
Definition super_sendMessageToRemote (threadId : JsVal) (payload : Obj JsVal)
  (transferable : JsVal) : M t bool :=
  this <- gets ra ;;
  match get (to_string threadId) (RemoteAware.remotes this) with
  | Some entry =>
      let stamped := set "thread" (RemoteAware.id this) payload in
      port_postMessage entry (VObj (json_clone stamped)) transferable ;;
      ret true
  | None => ret false
  end.

(** [sendMessageToMaster]: the payload is copied unless a non-empty
    transfer list is given. *)
Definition sendMessageToMaster (payload : Obj JsVal) (transferable : JsVal)
  : M t bool :=
  let copy :=
    negb (truthy transferable)
    || match transferable with VArr [] => true | _ => false end in
  emit (PostToMaster (VObj (if copy then json_clone payload else payload))
          transferable) ;;
  ret true.

Section Reentrant.
(** [this.messageListener], for the methods that call back into it. *)
Variable messageListener : Event -> M t unit.

(** [sendMessageToRemote] as ThreadPool overrides it.  Every caller
    passes an object literal as [data]. *)
Definition sendMessageToRemote_with (threadId : JsVal) (payload : Obj JsVal)
  (transferable : JsVal) : M t bool :=
  this <- gets ra ;;
  let stamped := set "thread" (RemoteAware.id this) payload in
  if RemoteAware.isMasterThread threadId then
    sendMessageToMaster stamped transferable
  else if RemoteAware.isThisThread threadId this
          || negb (RemoteAware.hasRemotes this) then
    messageListener (RemoteAware.createMessageEvent (VObj stamped)) ;;
    ret true
  else super_sendMessageToRemote threadId stamped transferable.

(** [err.stack || err.message || JSON.stringify(err)] for an Error *)
Definition error_text (err : JsError) : string :=
  if negb (err_stack err =? "") then err_stack err
  else if negb (err_message err =? "") then err_message err
  else "{}".

(** [executeCommand].  The two reactions on the handler's promise run
    once the handler has returned; an exception of the first reaction is
    passed to the second, an exception of the second is nobody's. *)
Definition executeCommand_with (evt : Event) : M t unit :=
  d <- match data evt with
       | VUndef | VNull =>
           throw (TypeError "Cannot destructure property of undefined")
       | v => ret v
       end ;;
  cmd <- lift (field d "cmd") ;;
  args <- lift (field d "args") ;;
  thread <- lift (field d "thread") ;;
  callbackId <- lift (field d "callbackId") ;;
  cmds <- gets commands ;;
  match get (to_string cmd) cmds with
  | None =>
      sendMessageToRemote_with thread
        [("returnId", callbackId);
         ("error", VError (Error ("Command not found: " ++ to_string cmd)))]
        VUndef ;;
      ret tt
  | Some handler =>
      argv <- lift (iterate args) ;;
      emit (Invoke (to_string cmd) thread argv) ;;
      let on_fulfilled (v : JsVal) : M t unit :=
        pair <- lift (iterate v) ;;
        sendMessageToRemote_with thread
          [("data", nth 0 pair VUndef); ("returnId", callbackId)]
          (nth 1 pair VUndef) ;;
        ret tt in
      let on_rejected (err : JsError) : M t unit :=
        sendMessageToRemote_with thread
          [("error", VStr (error_text err)); ("returnId", callbackId);
           ("previousEvent", event_value evt)]
          VUndef ;;
        ret tt in
      let unhandled (_ : JsError) : M t unit := ret tt in
      match handler thread argv with
      | HThrow e => throw e
      | HPending => ret tt
      | HReturn v | HFulfilled v =>
          try_catch (try_catch (on_fulfilled v) on_rejected) unhandled
      | HRejected e => try_catch (on_rejected e) unhandled
      end
  end.

End Reentrant.

(** [ident] *)
Definition ident (evt : Event) : M t unit :=
  v <- lift (field (data evt) "ident") ;;
  modify (fun s => with_ra (RemoteAware.with_id v (ra s)) s).

(** [evt.ports[0].start()] *)
Definition start_first_port (evt : Event) : M t unit :=
  match nth_error (Host.ports evt) 0 with
  | Some p => emit (PortStart p)
  | None => throw (TypeError "Cannot read properties of undefined")
  end.

(** [remoteIdent] *)
Definition remoteIdent (evt : Event) : M t unit :=
  remote <- lift (field (data evt) "remote") ;;
  terminate <- lift (field (data evt) "terminate") ;;
  if truthy terminate then
    modify (fun s =>
      with_ra (RemoteAware.with_remotes
                 (del (to_string remote) (RemoteAware.remotes (ra s))) (ra s)) s)
  else
    modify (fun s =>
      with_ra (RemoteAware.with_remotes
                 (set (to_string remote) (nth_error (Host.ports evt) 0)
                    (RemoteAware.remotes (ra s))) (ra s)) s) ;;
    start_first_port evt.

(** [remotePortIdent] *)
Definition remotePortIdent (evt : Event) : M t unit :=
  threadId <- lift (field (data evt) "listen") ;;
  modify (fun s =>
    with_ports (set (to_string threadId) (nth_error (Host.ports evt) 0)
                  (ports s)) s) ;;
  start_first_port evt ;;
  match nth_error (Host.ports evt) 0 with
  | Some p => emit (PortListen p threadId)
  | None => ret tt
  end.

(** [setHttpAuthorization], [setHttpAccessToken] *)
Definition setHttpAuthorization (auth : JsVal) : M t unit :=
  modify (with_httpAuth auth).
Definition setHttpAccessToken (accessToken : JsVal) : M t unit :=
  modify (with_httpAccessToken accessToken).

(** [messageListener]: the first field that holds a truthy value picks
    the branch.  [fuel] bounds the nesting of local deliveries. *)
Fixpoint messageListener (fuel : nat) (evt : Event) : M t unit :=
  match fuel with
  | 0 => exhausted
  | S fuel' =>
      let d := data evt in
      if typeof_object d then
        v_ident <- lift (field d "ident") ;;
        if truthy v_ident then ident evt else
        v_remote <- lift (field d "remote") ;;
        if truthy v_remote then remoteIdent evt else
        v_listen <- lift (field d "listen") ;;
        if truthy v_listen then remotePortIdent evt else
        v_cmd <- lift (field d "cmd") ;;
        if truthy v_cmd then executeCommand_with (messageListener fuel') evt else
        v_returnId <- lift (field d "returnId") ;;
        if truthy v_returnId then mixin (RemoteAware.receiveCommandResult evt) else
        v_token <- lift (field d "setHttpAccessToken") ;;
        if truthy v_token then setHttpAccessToken v_token else
        v_auth <- lift (field d "setHttpAuth") ;;
        if truthy v_auth then setHttpAuthorization v_auth else
        executeMessageListeners evt
      else executeMessageListeners evt
  end.

Definition sendMessageToRemote (fuel : nat) :=
  sendMessageToRemote_with (messageListener fuel).
Definition executeCommand (fuel : nat) :=
  executeCommand_with (messageListener fuel).

(** [registerCommand]; the type leaves out the non-callable [fn]. *)
Definition registerCommand (name : string) (fn : Handler) : M t unit :=
  modify (fun s => with_commands (set name fn (commands s)) s).

Definition reject (promise : nat) (e : JsError) : M t unit :=
  modify (fun s => with_ra (RemoteAware.reject promise (VError e) (ra s)) s).

(** [sendCommand(name, args, thread)]; the result is the promise.  The
    object handed to [executeCommand] on the local path has the command
    fields at top level and no property called data. *)
Definition sendCommand (fuel : nat) (name : string) (args : list JsVal)
  (thread : JsVal) : M t nat :=
  callbackId <- getUniqueId ;;
  promise <- mixin_pure (RemoteAware.registerCallbackId callbackId) ;;
  cmds <- gets commands ;;
  if negb (has name cmds) then
    reject promise (Error "Invalid Command") ;; ret promise
  else
    this <- gets ra ;;
    if negb (RemoteAware.hasRemotes this) then
      executeCommand fuel (mkEvent VUndef [] false) ;;
      ret promise
    else
      target <- (if negb (truthy thread) then
                   key <- mixin_pure RemoteAware.getNextRemoteKey ;;
                   ret (Some key)
                 else if negb (has (to_string thread) (RemoteAware.remotes this))
                 then ret None
                 else ret (Some thread)) ;;
      match target with
      | None => reject promise (Error "Invalid Thread") ;; ret promise
      | Some thread' =>
          sent <- sendMessageToRemote fuel thread'
                    [("cmd", VStr name); ("args", VArr args);
                     ("thread", thread'); ("callbackId", VStr callbackId)]
                    VUndef ;;
          (if negb sent then
             reject promise
               (Error ("Unable to send to thread, " ++ to_string thread'))
           else ret tt) ;;
          ret promise
      end.

(** [portListener]: what arrives on a sibling's port goes through the
    same listener. *)
Definition portListener (fuel : nat) (threadId : JsVal) (evt : Event)
  : M t unit :=
  messageListener fuel evt.

(** [postRemoteMessage] of the RemoteAware mixin (the super call); its
    [this.sendMessageToRemote] is the method of ThreadPool.  The result
    is [false] or the key the message went to. *)
Definition super_postRemoteMessage (fuel : nat) (payload : Obj JsVal)
  (transferable : JsVal) : M t JsVal :=
  this <- gets ra ;;
  if negb (RemoteAware.hasRemotes this) then ret (VBool false)
  else
    key <- mixin_pure RemoteAware.getNextRemoteKey ;;
    sent <- sendMessageToRemote fuel key payload transferable ;;
    if negb sent then ret (VBool false) else ret key.

(** [postRemoteMessage] as ThreadPool overrides it.  On the local path
    the payload itself is handed to [messageListener], which reads it as
    an event: its data is the payload's property of that name, and it
    carries no ports.  That path returns [undefined]. *)
Definition postRemoteMessage (fuel : nat) (payload : Obj JsVal)
  (transferable : JsVal) : M t JsVal :=
  this <- gets ra ;;
  if negb (RemoteAware.hasRemotes this) then
    messageListener fuel (mkEvent (prop payload "data") [] false) ;;
    ret VUndef
  else super_postRemoteMessage fuel payload transferable.

(** [errorListener], for an error that is a plain object (a posted error
    payload, or an error event, which has no thread property).  The
    second statement names a variable [evt] that is declared nowhere. *)
Definition errorListener (fuel : nat) (error : Obj JsVal) : M t unit :=
  if truthy (prop error "thread") then
    sendMessageToRemote fuel (prop error "thread") error VUndef ;;
    ret tt
  else throw (newError "ReferenceError" "evt is not defined").

End ThreadPool.

(** ** lib/RemoteWorker.js: the class RemoteWorker *)
Module RemoteWorker.
Import ListenerAware.

(** The constructor argument [which]: a script URL, a worker class, or
    anything else. *)
Inductive Which :=
| ScriptUrl (url : string)
| WorkerClass
| NotAWorker.

(** A listener held by a RemoteWorker: the closure the cluster installs
    ([evt => this.messageListener(evt)]) or a function of the user. *)
Inductive WorkerListener :=
| ForwardToCluster
| UserListener (fn : Listener).

(** The fields of a RemoteWorker.  [worker] is the spawn handle, [null]
    once released; [threads] maps a sibling id to a MessageChannel. *)
Record t := mk {
  id : string;
  worker : option nat;
  threads : Obj nat;
  listeners : Obj WorkerListener
}.

Inductive Effect :=
| Spawn (handle : nat) (which : Which)
| WorkerPost (handle : nat) (payload : JsVal) (transferable : list Port)
| WorkerTerminate (handle : nat)
| ChannelOpen (c : nat)
| PortStart (p : Port).

(** The controller's context as unit handles act on it: the identifier
    source, the host's next worker handle and next channel, and the
    effects so far. *)
Record World := mkWorld {
  ids : IdSource;
  next_worker : nat;
  next_channel : nat;
  effects : list Effect
}.

Definition with_effects (l : list Effect) (x : World) : World :=
  mkWorld (ids x) (next_worker x) (next_channel x) l.

Definition emit (e : Effect) : M World unit :=
  modify (fun x => with_effects (effects x ++ [e])%list x).

Definition getUniqueId : M World string :=
  fun x =>
    let (i, g) := Ids.getUniqueId (ids x) in
    (Ret i, mkWorld g (next_worker x) (next_channel x) (effects x)).

(** [new Worker(which)] or [new which()] *)
Definition new_worker (which : Which) : M World nat :=
  h <- gets next_worker ;;
  modify (fun x => mkWorld (ids x) (S h) (next_channel x) (effects x)) ;;
  emit (Spawn h which) ;;
  ret h.

(** [new MessageChannel()], both ports started *)
Definition new_channel : M World nat :=
  c <- gets next_channel ;;
  modify (fun x => mkWorld (ids x) (next_worker x) (S c) (effects x)) ;;
  emit (ChannelOpen c) ;;
  emit (PortStart (mkPort c Port1)) ;;
  emit (PortStart (mkPort c Port2)) ;;
  ret c.

(** A method takes the object [this] and, when it assigns to a field,
    returns the object as the call leaves it. *)

(** [postMessage] *)
Definition postMessage (this : t) (payload : JsVal)
  (transferable : list Port) : M World unit :=
  match worker this with
  | None => ret tt
  | Some h => emit (WorkerPost h payload transferable)
  end.

(** [new RemoteWorker(which)] *)
Definition create (which : Which) : M World t :=
  h <- match which with
       | ScriptUrl _ | WorkerClass => new_worker which
       | NotAWorker => throw (Error "Invalid Argument")
       end ;;
  i <- getUniqueId ;;
  let this := mk i (Some h) [] [] in
  postMessage this (VObj [("ident", VStr i)]) [] ;;
  ret this.

(** [addMessageListener] of the listener mixin *)
Definition addMessageListener (this : t) (fn : WorkerListener)
  : M World (string * t) :=
  idx <- getUniqueId ;;
  ret (idx, mk (id this) (worker this) (threads this)
              (set idx fn (listeners this))).

(** [this.registerRemoteThread(worker)] *)
Definition registerRemoteThread (this other : t) : M World t :=
  if has (id other) (threads this) then
    throw (Error ("Worker thread, " ++ id other ++ ", is already registered"))
  else
    c <- new_channel ;;
    let this' := mk (id this) (worker this)
                   (set (id other) c (threads this)) (listeners this) in
    postMessage other (VObj [("listen", VStr (id this))]) [mkPort c Port1] ;;
    postMessage this' (VObj [("remote", VStr (id other))]) [mkPort c Port2] ;;
    ret this'.

(** [port.stop()]: a MessagePort has [start] and [close], no [stop]. *)
Definition port_stop (p : Port) : M World unit :=
  throw (TypeError "thread.port1.stop is not a function").

Fixpoint stop_all (channels : list nat) : M World unit :=
  match channels with
  | [] => ret tt
  | c :: rest =>
      port_stop (mkPort c Port1) ;;
      port_stop (mkPort c Port2) ;;
      stop_all rest
  end.

(** [terminate]: the loop [for (const thread of this.threads)], the
    release of the spawn handle, and the three assignments. *)
Definition terminate (this : t) : M World t :=
  channels <- lift (iterate_object (threads this)) ;;
  stop_all channels ;;
  match worker this with
  | Some h => emit (WorkerTerminate h)
  | None => ret tt
  end ;;
  ret (mk (id this) None [] []).

End RemoteWorker.

(** ** lib/WorkerPool.js: the class WorkerCluster *)
Module WorkerCluster.
Import ListenerAware.

(** The fields of a WorkerCluster: those of the two mixins, its own, and
    the context it runs in. *)
Record t := mk {
  ra : RemoteAware.t RemoteWorker.t;
  listeners : Obj Listener;
  httpAuthorization : JsVal;
  httpAccessToken : JsVal;
  which : RemoteWorker.Which;
  world : RemoteWorker.World
}.

Definition with_ra (x : RemoteAware.t RemoteWorker.t) (s : t) : t :=
  mk x (listeners s) (httpAuthorization s) (httpAccessToken s) (which s)
     (world s).
Definition with_httpAuthorization (x : JsVal) (s : t) : t :=
  mk (ra s) (listeners s) x (httpAccessToken s) (which s) (world s).
Definition with_httpAccessToken (x : JsVal) (s : t) : t :=
  mk (ra s) (listeners s) (httpAuthorization s) x (which s) (world s).
Definition with_world (x : RemoteWorker.World) (s : t) : t :=
  mk (ra s) (listeners s) (httpAuthorization s) (httpAccessToken s) (which s)
     x.

Definition remotes (s : t) : Obj RemoteWorker.t := RemoteAware.remotes (ra s).
Definition with_remotes (r : Obj RemoteWorker.t) (s : t) : t :=
  with_ra (RemoteAware.with_remotes r (ra s)) s.

(** A call of a RemoteWorker method from a method of the cluster. *)
Definition call {A} (c : M RemoteWorker.World A) : M t A :=
  fun s => let (r, x) := c (world s) in (r, with_world x s).

(** [new WorkerCluster(which, numWorkers)] before its call of [spawn] *)
Definition create (w : RemoteWorker.Which) (g : IdSource) : t :=
  mk (RemoteAware.with_id (VStr RemoteAware.MASTER_THREAD) RemoteAware.init)
     [] VNull VNull w (RemoteWorker.mkWorld g 0 0 []).

(** [initializeWorker] *)
Definition initializeWorker (worker : RemoteWorker.t) : M t RemoteWorker.t :=
  r <- call (RemoteWorker.addMessageListener worker
               RemoteWorker.ForwardToCluster) ;;
  let worker := snd r in
  auth <- gets httpAuthorization ;;
  (if truthy auth then
     call (RemoteWorker.postMessage worker
             (VObj [("setHttpAuthorization", auth)]) [])
   else ret tt) ;;
  token <- gets httpAccessToken ;;
  (if truthy token then
     call (RemoteWorker.postMessage worker
             (VObj [("setHttpAccessToken", token)]) [])
   else ret tt) ;;
  ret worker.

(** The loop of [registerRemoteThread]: [ks] are the keys still to
    visit, [worker] is the new unit as the rounds so far have left it. *)
Fixpoint cross_wire (ks : list string) (worker : RemoteWorker.t)
  : M t RemoteWorker.t :=
  match ks with
  | [] => ret worker
  | k :: rest =>
      rs <- gets remotes ;;
      match get k rs with
      | None => throw (TypeError "Cannot read properties of undefined")
      | Some remote =>
          remote' <- call (RemoteWorker.registerRemoteThread remote worker) ;;
          modify (fun s => with_remotes (set k remote' (remotes s)) s) ;;
          worker' <- call (RemoteWorker.registerRemoteThread worker remote') ;;
          cross_wire rest worker'
      end
  end.

(** [registerRemoteThread] *)
Definition registerRemoteThread (worker : RemoteWorker.t) : M t unit :=
  ks <- gets (fun s => keys (remotes s)) ;;
  worker' <- cross_wire ks worker ;;
  modify (fun s =>
    with_remotes (set (RemoteWorker.id worker') worker' (remotes s)) s).

(** One round of [spawn]: the statement before the countdown. *)
Definition spawn_one : M t unit :=
  wh <- gets which ;;
  worker <- call (RemoteWorker.create wh) ;;
  worker <- initializeWorker worker ;;
  registerRemoteThread worker.

(** [spawn(numWorkers)] *)
Equations? spawn (numWorkers : Z) (s : t) : Outcome unit * t
  by wf (Z.to_nat numWorkers) lt :=
  spawn numWorkers s with spawn_one s => {
    | (Ret _, s1) with Z_lt_dec 0 (numWorkers - 1) => {
        | left _ := spawn (numWorkers - 1) s1;
        | right _ := (Ret tt, s1) };
    | (Exn e, s1) := (Exn e, s1);
    | (Exhausted, s1) := (Exhausted, s1) }.
Proof. lia. Qed.

(** [new WorkerCluster(which, numWorkers)] *)
Definition constructor (w : RemoteWorker.Which) (numWorkers : Z)
  (g : IdSource) : Outcome unit * t :=
  spawn numWorkers (create w g).

(** [sendMessageToRemote] of the RemoteAware mixin, which the cluster
    inherits unchanged: the sibling entry is a RemoteWorker. *)
Definition sendMessageToRemote (threadId : JsVal) (payload : Obj JsVal)
  (transferable : list Port) : M t bool :=
  this <- gets ra ;;
  match get (to_string threadId) (RemoteAware.remotes this) with
  | Some remote =>
      let stamped := set "thread" (RemoteAware.id this) payload in
      call (RemoteWorker.postMessage remote (VObj (json_clone stamped))
              transferable) ;;
      ret true
  | None => ret false
  end.

(** The caller's [data] object once [sendMessageToRemote] has returned:
    it carries the sender's id when the target was known. *)
Definition payload_after (threadId : JsVal) (payload : Obj JsVal)
  (this : RemoteAware.t RemoteWorker.t) : Obj JsVal :=
  if has (to_string threadId) (RemoteAware.remotes this)
  then set "thread" (RemoteAware.id this) payload
  else payload.

(** [broadcast] of the mixin: the loop over the keys of [remotes]; every
    round is handed the same object. *)
Fixpoint broadcast_to (ks : list string) (payload : Obj JsVal)
  (transferable : list Port) : M t unit :=
  match ks with
  | [] => ret tt
  | k :: rest =>
      this <- gets ra ;;
      sendMessageToRemote (VStr k) payload transferable ;;
      broadcast_to rest (payload_after (VStr k) payload this) transferable
  end.

Definition broadcast (payload : Obj JsVal) (transferable : list Port)
  : M t unit :=
  ks <- gets (fun s => keys (remotes s)) ;;
  broadcast_to ks payload transferable.

(** [setHttpAuthorization], [setHttpAccessToken] *)
Definition setHttpAuthorization (auth : JsVal) : M t unit :=
  modify (with_httpAuthorization auth) ;;
  broadcast [("setHttpAuthorization", auth)] [].

Definition setHttpAccessToken (accessToken : JsVal) : M t unit :=
  modify (with_httpAccessToken accessToken) ;;
  broadcast [("setHttpAccessToken", accessToken)] [].

(** [terminate(id)] for an [id] that is not falsy *)
Definition terminate_one (id : string) : M t unit :=
  rs <- gets remotes ;;
  match get id rs with
  | Some remote =>
      call (RemoteWorker.terminate remote) ;;
      modify (fun s => with_remotes (del id (remotes s)) s) ;;
      broadcast [("remote", VStr id); ("terminate", VBool true)] []
  | None => ret tt
  end.

(** The loop of [terminate()] over the keys.  The empty string is falsy:
    on that key the call [this.terminate(id)] starts the loop again and
    ends when the call stack is full. *)
Fixpoint terminate_each (ks : list string) : M t unit :=
  match ks with
  | [] => ret tt
  | k :: rest =>
      (if k =? "" then
         throw (newError "RangeError" "Maximum call stack size exceeded")
       else terminate_one k) ;;
      terminate_each rest
  end.

(** [terminate(id = null)] *)
Definition terminate (id : JsVal) : M t unit :=
  if negb (truthy id) then
    ks <- gets (fun s => keys (remotes s)) ;;
    terminate_each ks
  else terminate_one (to_string id).

(** A method of the RemoteAware mixin, called on the cluster. *)
Definition mixin {A} (c : M (RemoteAware.t RemoteWorker.t) A) : M t A :=
  fun s => let (r, x) := c (ra s) in (r, with_ra x s).

Definition mixin_pure {A}
  (c : RemoteAware.t RemoteWorker.t -> A * RemoteAware.t RemoteWorker.t)
  : M t A :=
  fun s => let (a, x) := c (ra s) in (Ret a, with_ra x s).

(** [executeMessageListeners] of the listener mixin, on the cluster's
    own listeners; the result is the calls made. *)
Definition executeMessageListeners (evt : Event) : M t (list Call) :=
  fun s =>
    let (calls, r) := ListenerAware.executeMessageListeners evt (listeners s) in
    match r with
    | None => (Ret calls, s)
    | Some e => (Exn e, s)
    end.

(** [messageListener]: a command result settles its callback, anything
    else goes to the listeners.  The result is the listener calls made. *)
Definition messageListener (evt : Event) : M t (list Call) :=
  returnId <- lift (field (data evt) "returnId") ;;
  if truthy returnId then
    mixin (RemoteAware.receiveCommandResult evt) ;; ret []
  else executeMessageListeners evt.

(** [postRemoteMessage] of the RemoteAware mixin.  The result is [false]
    or the key the message went to. *)
Definition postRemoteMessage (payload : Obj JsVal) (transferable : list Port)
  : M t JsVal :=
  this <- gets ra ;;
  if negb (RemoteAware.hasRemotes this) then ret (VBool false)
  else
    key <- mixin_pure RemoteAware.getNextRemoteKey ;;
    sent <- sendMessageToRemote key payload transferable ;;
    if negb sent then ret (VBool false) else ret key.

(** [postMessage] *)
Definition postMessage (payload : Obj JsVal) (transferable : list Port)
  : M t JsVal :=
  postRemoteMessage payload transferable.

(** [sendCommand(name, args)]; the result is the promise.  The statement
    that should reject an unsent command names a variable [command] that
    is declared nowhere: evaluating the argument of [new Error] raises
    before [reject] is called. *)
Definition sendCommand (name : string) (args : list JsVal) : M t nat :=
  callbackId <- call RemoteWorker.getUniqueId ;;
  promise <- mixin_pure (RemoteAware.registerCallbackId callbackId) ;;
  sent <- postMessage [("cmd", VStr name); ("args", VArr args);
                       ("callbackId", VStr callbackId)] [] ;;
  if negb (truthy sent) then
    throw (newError "ReferenceError" "command is not defined")
  else ret promise.

(** [executeMessageListeners] of the listener mixin on a RemoteWorker:
    the closure installed by [initializeWorker] calls the cluster's
    [messageListener].  The result is the calls made, a forwarded event
    followed by the calls the cluster made for it. *)
Fixpoint worker_executeMessageListeners (evt : Event)
  (ls : Obj RemoteWorker.WorkerListener) : M t (list Call) :=
  match ls with
  | [] => ret []
  | (idx, listener) :: rest =>
      inner <- match listener with
               | RemoteWorker.ForwardToCluster => messageListener evt
               | RemoteWorker.UserListener fn =>
                   match fn evt with
                   | Some e => throw e
                   | None => ret []
                   end
               end ;;
      calls <- worker_executeMessageListeners evt rest ;;
      ret (mkCall idx evt :: inner ++ calls)%list
  end.

(** [messageListener] of a RemoteWorker: [worker.onmessage] *)
Definition worker_messageListener (this : RemoteWorker.t) (evt : Event)
  : M t (list Call) :=
  worker_executeMessageListeners evt (RemoteWorker.listeners this).

(** [errorListener] of a RemoteWorker: [worker.onerror] and
    [worker.onmessageerror] *)
Definition worker_errorListener (this : RemoteWorker.t) (error : JsVal)
  : M t (list Call) :=
  worker_executeMessageListeners
    (mkEvent (VObj [("error", error)]) [] false)
    (RemoteWorker.listeners this).

End WorkerCluster.

(** ** Runs and states the properties speak about *)
Module Runs.

(** [n] consecutive calls of [getNextRemoteKey]: the keys returned, in
    order, and the state after the last call. *)
Fixpoint selections {R} (n : nat) (s : RemoteAware.t R)
  : list JsVal * RemoteAware.t R :=
  match n with
  | 0 => ([], s)
  | S n' =>
      let (key, s1) := RemoteAware.getNextRemoteKey s in
      let (rest, s2) := selections n' s1 in
      (key :: rest, s2)
  end.

(** The spawn handles that a loop over the keys of [rs] posts to: a
    handle that was released gets nothing. *)
Definition posted_handles (rs : Obj RemoteWorker.t) : list nat :=
  flat_map (fun k => match get k rs with
                     | Some remote =>
                         match RemoteWorker.worker remote with
                         | Some h => [h]
                         | None => []
                         end
                     | None => []
                     end) (keys rs).

(** The controller state [s] once the effects [es] have happened. *)
Definition after_effects (es : list RemoteWorker.Effect) (s : WorkerCluster.t)
  : WorkerCluster.t :=
  WorkerCluster.with_world
    (RemoteWorker.with_effects
       (RemoteWorker.effects (WorkerCluster.world s) ++ es)%list
       (WorkerCluster.world s)) s.

(** The message of a broadcast as a worker's context receives it. *)
Definition broadcast_payload (sender : JsVal) (payload : Obj JsVal) : JsVal :=
  VObj (json_clone (set "thread" sender payload)).

(** The handler [(thread, x) => x]. *)
Definition echo : ThreadPool.Handler :=
  fun _thread args => ThreadPool.HReturn (nth 0 args VUndef).

(** The handler [(thread, x) => [x]]: the result wrapped in an array. *)
Definition echo_pair : ThreadPool.Handler :=
  fun _thread args => ThreadPool.HReturn (VArr [nth 0 args VUndef]).

(** A host whose clock, timer and random source give the same text at
    every call; the counter alone tells identifiers apart. *)
Definition still_clock : N -> string := fun _ => "1700000000000.12.5.0.25".

(** A worker that has received the identity [id], holds the sibling
    entries [siblings] and has registered [handler] as echo. *)
Definition worker_with (id : string) (siblings : Obj (option Port))
  (handler : ThreadPool.Handler) : ThreadPool.t :=
  ThreadPool.mk (RemoteAware.mk (VStr id) siblings [] 0 [])
    [] VNull VNull [] [("echo", handler)] (mkIdSource 0 still_clock) [].

(** The event a unit receives when [payload] is posted to it. *)
Definition delivered (payload : JsVal) : Event := mkEvent payload [] true.

(** [n] consecutive calls of the controller's [postMessage] with the
    same data: the results, in order. *)
Fixpoint posts (n : nat) (payload : Obj JsVal) : M WorkerCluster.t (list JsVal) :=
  match n with
  | 0 => ret []
  | S n' =>
      r <- WorkerCluster.postMessage payload [] ;;
      rest <- posts n' payload ;;
      ret (r :: rest)
  end.

(** What posting [payload] to the units under the keys [ks] does: one
    message to the worker of every key whose spawn handle is live. *)
Definition post_effects (s : WorkerCluster.t) (payload : Obj JsVal)
  (ks : list string) : list RemoteWorker.Effect :=
  flat_map
    (fun k => match get k (WorkerCluster.remotes s) with
              | Some remote =>
                  match RemoteWorker.worker remote with
                  | Some h =>
                      [RemoteWorker.WorkerPost h
                         (broadcast_payload
                            (RemoteAware.id (WorkerCluster.ra s)) payload) []]
                  | None => []
                  end
              | None => []
              end) ks.

(** The controller with its round-robin cursor at [c]. *)
Definition at_cursor (c : nat) (s : WorkerCluster.t) : WorkerCluster.t :=
  WorkerCluster.with_ra (RemoteAware.with_remoteKey c (WorkerCluster.ra s)) s.

(** A spawned unit as [initializeWorker] leaves it: a live handle, no
    channel yet, and the forwarding listener under [idx]. *)
Definition unit_with (id : string) (handle : nat) (idx : string)
  : RemoteWorker.t :=
  RemoteWorker.mk id (Some handle) [] [(idx, RemoteWorker.ForwardToCluster)].

(** A controller that holds the units [units], with its cursor at
    [cursor] and the listeners [ls]. *)
Definition cluster_with (units : Obj RemoteWorker.t) (cursor : nat)
  (ls : Obj ListenerAware.Listener) : WorkerCluster.t :=
  WorkerCluster.mk
    (RemoteAware.mk (VStr RemoteAware.MASTER_THREAD) units [] cursor [])
    ls VNull VNull RemoteWorker.WorkerClass
    (RemoteWorker.mkWorld (mkIdSource 0 still_clock) (length units) 0 []).

(** The request [sendCommand] builds. *)
Definition request (name : string) (args : list JsVal) (callbackId : string)
  : Obj JsVal :=
  [("cmd", VStr name); ("args", VArr args); ("callbackId", VStr callbackId)].

End Runs.

(** ** Well-formed controller states *)
Module Inv.

(** No character of [s] is a dot. *)
Fixpoint dotless (s : string) : Prop :=
  match s with
  | EmptyString => True
  | String c rest => c <> "."%char /\ dotless rest
  end.

(** The identifier with counter value [n]. *)
Definition mint (n : N) (suffix : string) : string :=
  dec_of_N n ++ "." ++ suffix.

(** [k] was produced by [getUniqueId] while the counter was at most [u]. *)
Definition minted_upto (u : N) (k : string) : Prop :=
  exists n suffix, (n <= u)%N /\ k = mint n suffix.

(** A sibling entry of the controller: stored under the unit's own id,
    an identifier already produced, as are the ids its channel map knows. *)
Definition worker_ok (u : N) (k : string) (r : RemoteWorker.t) : Prop :=
  RemoteWorker.id r = k
  /\ minted_upto u k
  /\ forall k', In k' (keys (RemoteWorker.threads r)) -> minted_upto u k'.

(** The counter of the controller's identifier source. *)
Definition counter (s : WorkerCluster.t) : N :=
  uniqueId (RemoteWorker.ids (WorkerCluster.world s)).

(** The number of spawn handles the controller has taken from the host. *)
Definition spawned (s : WorkerCluster.t) : nat :=
  RemoteWorker.next_worker (WorkerCluster.world s).

(** The states a controller is in between two calls: it was built with
    something to spawn workers from, its sibling map has one entry per
    key, and every entry is as above. *)
Definition well_formed (s : WorkerCluster.t) : Prop :=
  WorkerCluster.which s <> RemoteWorker.NotAWorker
  /\ NoDup (keys (WorkerCluster.remotes s))
  /\ forall k r, In (k, r) (WorkerCluster.remotes s) ->
       worker_ok (counter s) k r.

(** What a channel hand-over leaves alone in the controller's context. *)
Definition same_core (x x' : RemoteWorker.World) : Prop :=
  RemoteWorker.ids x' = RemoteWorker.ids x
  /\ RemoteWorker.next_worker x' = RemoteWorker.next_worker x.

(** Every unit holds a channel to every other unit and none to itself:
    its channel map has the keys of the controller's sibling map, its
    own left out, in the same order. *)
Definition meshed (s : WorkerCluster.t) : Prop :=
  forall k r, In (k, r) (WorkerCluster.remotes s) ->
    keys (RemoteWorker.threads r) =
    filter (fun k' => negb (k' =? k)) (keys (WorkerCluster.remotes s)).

End Inv.
Import Inv.

(** ** Proof steps *)

(** Runs [sendCommand] up to the test of the command name: the fields of
    the worker are named, the new identifier is [callbackId], and the
    pending promise is in place. *)
Ltac enter_sendCommand w callbackId :=
  destruct w as [[?id ?remotes ?callbacks ?cursor ?promises]
                   ?listeners ?auth ?token ?ports ?commands ?ids ?effects];
  cbn [ThreadPool.ra ThreadPool.commands ThreadPool.ids ThreadPool.effects
       RemoteAware.id RemoteAware.remotes RemoteAware.promises] in *;
  unfold ThreadPool.sendCommand;
  unfold bind at 1; unfold ThreadPool.getUniqueId at 1; cbn [ThreadPool.ids];
  match goal with
  | |- context [Ids.getUniqueId ?g] =>
      destruct (Ids.getUniqueId g) as [callbackId ?ids]
  end;
  unfold bind at 1;
  unfold ThreadPool.mixin_pure, RemoteAware.registerCallbackId;
  cbn.

(** * Properties *)

(** ** Tables *)
Section TableFacts.
Context {A : Type}.

Lemma get_del_same (k : string) (o : Obj A) : get k (del k o) = None.
Proof.
  induction o as [|[k' v] o IH]; simpl; [reflexivity|].
  destruct (k =? k') eqn:E; simpl; [exact IH|].
  rewrite E. exact IH.
Qed.

Lemma get_del_other (k k' : string) (o : Obj A) :
  k <> k' -> get k (del k' o) = get k o.
Proof.
  intros Hne. induction o as [|[k0 v] o IH]; simpl; [reflexivity|].
  destruct (k' =? k0) eqn:E.
  - apply String.eqb_eq in E. subst k0.
    destruct (k =? k') eqn:E'; [apply String.eqb_eq in E'; contradiction|].
    exact IH.
  - simpl. destruct (k =? k0); [reflexivity | exact IH].
Qed.

Lemma get_set_same (k : string) (v : A) (o : Obj A) : get k (set k v o) = Some v.
Proof.
  induction o as [|[k' v'] o IH]; simpl.
  - rewrite String.eqb_refl. reflexivity.
  - destruct (k =? k') eqn:E; simpl.
    + rewrite String.eqb_refl. reflexivity.
    + rewrite E. exact IH.
Qed.

Lemma get_set_other (k k' : string) (v : A) (o : Obj A) :
  k <> k' -> get k (set k' v o) = get k o.
Proof.
  intros Hne. apply String.eqb_neq in Hne.
  induction o as [|[k0 v0] o IH]; simpl.
  - rewrite Hne. reflexivity.
  - destruct (k' =? k0) eqn:E; simpl.
    + apply String.eqb_eq in E. subst k0. rewrite Hne. reflexivity.
    + destruct (k =? k0); [reflexivity | exact IH].
Qed.

Lemma get_none_not_in (k : string) (o : Obj A) :
  get k o = None <-> ~ In k (keys o).
Proof.
  induction o as [|[k' v] o IH]; simpl.
  - split; [intros _ [] | reflexivity].
  - destruct (k =? k') eqn:E.
    + apply String.eqb_eq in E. subst. split; [discriminate | intros H; exfalso; auto].
    + apply String.eqb_neq in E. rewrite IH. split.
      * intros H [H'|H']; [congruence | auto].
      * intros H H'. apply H. right. exact H'.
Qed.

Lemma keys_set_fresh (k : string) (v : A) (o : Obj A) :
  get k o = None -> keys (set k v o) = (keys o ++ [k])%list.
Proof.
  induction o as [|[k' v'] o IH]; simpl; [reflexivity|].
  destruct (k =? k') eqn:E; [discriminate|].
  intros H. simpl. f_equal. apply IH. exact H.
Qed.

Lemma keys_set_present (k : string) (v : A) (o : Obj A) :
  get k o <> None -> keys (set k v o) = keys o.
Proof.
  induction o as [|[k' v'] o IH]; simpl; [congruence|].
  destruct (k =? k') eqn:E; simpl.
  - apply String.eqb_eq in E. subst. reflexivity.
  - intros H. f_equal. apply IH. exact H.
Qed.

End TableFacts.

(** ** Round-robin selection *)
Lemma skipn_nth_error {A} (l : list A) (c : nat) (k : A) :
  nth_error l c = Some k -> skipn c l = k :: skipn (S c) l.
Proof.
  revert c. induction l as [|x l IH]; intros [|c] Hk; simpl in *;
    try discriminate.
  - congruence.
  - apply IH. exact Hk.
Qed.

Section RoundRobin.
Context {R : Type}.
Import RemoteAware.

Lemma next_cursor_in_range (ks : list string) (i : nat) :
  i < length ks ->
  next_cursor ks i = if (i + 1 =? length ks)%nat then 0 else i + 1.
Proof.
  intros Hi. unfold next_cursor.
  destruct (Z.geb_spec (Z.of_nat i) (Z.of_nat (length ks) - 1));
    destruct (Nat.eqb_spec (i + 1) (length ks)); lia.
Qed.

(** Whatever the cursor was, a selection leaves it inside the key list
    (or at zero when there is no key). *)
Lemma next_cursor_bound (ks : list string) (i : nat) :
  next_cursor ks i < Nat.max 1 (length ks).
Proof.
  unfold next_cursor.
  destruct (Z.geb_spec (Z.of_nat i) (Z.of_nat (length ks) - 1)); lia.
Qed.

Lemma selections_remotes (n : nat) (s : t R) :
  remotes (snd (Runs.selections n s)) = remotes s.
Proof.
  revert s. induction n as [|n IH]; intros s; simpl; [reflexivity|].
  specialize (IH (with_remoteKey (next_cursor (keys (remotes s)) (remoteKey s)) s)).
  destruct (Runs.selections n _) as [rest s2]. simpl in *. exact IH.
Qed.

Lemma selections_app (n m : nat) (s : t R) :
  Runs.selections (n + m) s =
  let (a, s1) := Runs.selections n s in
  let (b, s2) := Runs.selections m s1 in
  ((a ++ b)%list, s2).
Proof.
  revert s. induction n as [|n IH]; intros s; simpl.
  - destruct (Runs.selections m s). reflexivity.
  - rewrite IH.
    destruct (Runs.selections n _) as [a s1].
    destruct (Runs.selections m s1) as [b s2]. reflexivity.
Qed.

(** [n] selections that do not pass the end of the key list. *)
Lemma selections_straight (n : nat) (s : t R) :
  remoteKey s + n <= length (keys (remotes s)) ->
  0 < n ->
  Runs.selections n s =
  (map VStr (firstn n (skipn (remoteKey s) (keys (remotes s)))),
   with_remoteKey
     (if (remoteKey s + n =? length (keys (remotes s)))%nat then 0
      else remoteKey s + n) s).
Proof.
  revert s. induction n as [|n IH]; intros s Hle Hpos; [lia|].
  cbn [Runs.selections getNextRemoteKey].
  destruct s as [i rs cbs c ps]. cbn [remotes remoteKey] in *.
  remember (keys rs) as ks eqn:Eks.
  assert (Hc : c < length ks) by lia.
  destruct (nth_error ks c) as [k|] eqn:Hk;
    [| apply nth_error_None in Hk; lia].
  unfold key_at. rewrite Hk, (skipn_nth_error _ _ _ Hk). cbn [firstn map].
  rewrite (next_cursor_in_range ks c Hc).
  destruct n as [|n].
  - simpl. replace (c + 1) with (S c) by lia. reflexivity.
  - destruct (Nat.eqb_spec (c + 1) (length ks)) as [E|E]; [lia|].
    unfold with_remoteKey at 1. cbn [id remotes callbacks remoteKey promises].
    rewrite IH; cbn [remotes remoteKey with_remoteKey id callbacks promises];
      rewrite <- ?Eks; try lia.
    replace (c + 1) with (S c) by lia.
    replace (S c + S n) with (c + S (S n)) by lia.
    reflexivity.
Qed.

End RoundRobin.

(** C7: over a sibling set that stays fixed, with [k] siblings, [k]
    consecutive round-robin selections return every sibling exactly once
    (the key list rotated to start at the cursor), the cursor moves one
    place per selection and goes back to zero after the last sibling.
    The cursor is inside the key list, as every selection leaves it
    ([next_cursor_bound]). *)
Theorem C7_round_robin_visits_each_sibling_once
  {R : Type} (s : RemoteAware.t R) :
  let ks := keys (RemoteAware.remotes s) in
  let k := length ks in
  let c := RemoteAware.remoteKey s in
  c < k ->
  NoDup ks ->
  fst (Runs.selections k s) = map VStr (skipn c ks ++ firstn c ks)%list
  /\ Permutation (fst (Runs.selections k s)) (map VStr ks)
  /\ NoDup (fst (Runs.selections k s))
  /\ snd (Runs.selections k s) = s
  /\ (forall i, i < k ->
        RemoteAware.getNextRemoteKey (RemoteAware.with_remoteKey i s) =
        (VStr (nth i ks ""),
         RemoteAware.with_remoteKey (if (i + 1 =? k)%nat then 0 else i + 1) s)).
Proof.
  destruct s as [i rs cbs c ps].
  cbn [RemoteAware.remotes RemoteAware.remoteKey].
  remember (keys rs) as ks eqn:Eks.
  intros Hc Hnd. set (k := length ks) in *.
  set (s := RemoteAware.mk i rs cbs c ps).
  assert (Hsel : Runs.selections k s =
                 (map VStr (skipn c ks ++ firstn c ks)%list, s)).
  { unfold s. replace k with ((k - c) + c) by lia.
    rewrite selections_app.
    rewrite selections_straight;
      cbn [RemoteAware.remotes RemoteAware.remoteKey]; rewrite <- ?Eks;
      fold k; try lia.
    replace (c + (k - c)) with k by lia. rewrite Nat.eqb_refl.
    rewrite (firstn_all2 (n := k - c)) by (rewrite length_skipn; fold k; lia).
    unfold RemoteAware.with_remoteKey.
    cbn [RemoteAware.id RemoteAware.remotes RemoteAware.callbacks
         RemoteAware.promises].
    destruct c as [|c'].
    - simpl. rewrite !app_nil_r. reflexivity.
    - rewrite selections_straight;
        cbn [RemoteAware.remotes RemoteAware.remoteKey];
        rewrite <- ?Eks; fold k; try lia.
      simpl (0 + S c').
      destruct (Nat.eqb_spec (S c') k) as [E|E]; [lia|].
      rewrite map_app. simpl (skipn 0 ks). reflexivity. }
  assert (Hperm : Permutation (skipn c ks ++ firstn c ks)%list ks).
  { rewrite Permutation_app_comm. rewrite firstn_skipn. reflexivity. }
  rewrite Hsel. cbn [fst snd].
  split; [reflexivity|]. split; [apply Permutation_map; exact Hperm|].
  split.
  { apply Injective_map_NoDup; [intros x y E; congruence|].
    eapply Permutation_NoDup; [symmetry; exact Hperm | exact Hnd]. }
  split; [reflexivity|].
  intros j Hj. unfold RemoteAware.getNextRemoteKey, s.
  cbn [RemoteAware.remotes RemoteAware.remoteKey RemoteAware.with_remoteKey
       RemoteAware.id RemoteAware.callbacks RemoteAware.promises].
  rewrite <- Eks. rewrite next_cursor_in_range by (fold k; lia). fold k.
  unfold RemoteAware.key_at.
  destruct (nth_error ks j) as [x|] eqn:Hx;
    [| apply nth_error_None in Hx; fold k in Hx; lia].
  rewrite (nth_error_nth _ _ _ Hx). reflexivity.
Qed.

Lemma C7_witness :
  let s : RemoteAware.t (option Port) :=
    RemoteAware.mk (VStr "1.t") [("2.t", None); ("3.t", None); ("4.t", None)]
      [] 1 [] in
  fst (Runs.selections 3 s) = [VStr "3.t"; VStr "4.t"; VStr "2.t"]
  /\ snd (Runs.selections 3 s) = s.
Proof.
  intros s.
  assert (Hc : RemoteAware.remoteKey s < length (keys (RemoteAware.remotes s)))
    by (simpl; lia).
  assert (Hnd : NoDup (keys (RemoteAware.remotes s))).
  { simpl. repeat constructor; simpl; intuition discriminate. }
  destruct (C7_round_robin_visits_each_sibling_once s Hc Hnd)
    as (H1 & _ & _ & H4 & _).
  split; [exact H1 | exact H4].
Defined.

(** ** Pending callbacks *)
Section Callbacks.
Context {R : Type}.
Import RemoteAware.

Lemma receiveCommandResult_unknown (s : t R) (payload : Obj JsVal)
  (ps : list Port) (tr : bool) :
  get (to_string (prop payload "returnId")) (callbacks s) = None ->
  receiveCommandResult (mkEvent (VObj payload) ps tr) s = (Ret tt, s).
Proof.
  intros H.
  unfold receiveCommandResult, receiveCommandResult_with, bind, lift, gets, ret.
  simpl. rewrite H. reflexivity.
Qed.

Lemma receiveCommandResult_known (s : t R) (payload : Obj JsVal)
  (ps : list Port) (tr : bool) (callback : nat) :
  get (to_string (prop payload "returnId")) (callbacks s) = Some callback ->
  receiveCommandResult (mkEvent (VObj payload) ps tr) s =
  (Ret tt,
   let s1 := with_callbacks
               (del (to_string (prop payload "returnId")) (callbacks s)) s in
   if truthy (prop payload "error")
   then reject callback (prop payload "error") s1
   else resolve callback (prop payload "data") s1).
Proof.
  intros H.
  unfold receiveCommandResult, receiveCommandResult_with, settle, bind, lift,
    gets, ret, modify.
  simpl. rewrite H. simpl.
  destruct (truthy (prop payload "error")); reflexivity.
Qed.

End Callbacks.

(** What settling does to the heap of promises. *)
Lemma settle_at_length (p : nat) (o : RemoteAware.PromiseState)
  (l : list RemoteAware.PromiseState) :
  length (RemoteAware.settle_at p o l) = length l.
Proof.
  revert p. induction l as [|x l IH]; intros p; [destruct p; reflexivity|].
  destruct p as [|p]; [destruct x; reflexivity|].
  specialize (IH p). destruct x; cbn; rewrite IH; reflexivity.
Qed.

Lemma settle_at_pending (p : nat) (o : RemoteAware.PromiseState)
  (l : list RemoteAware.PromiseState) :
  nth_error l p = Some RemoteAware.Pending ->
  nth_error (RemoteAware.settle_at p o l) p = Some o.
Proof.
  revert p. induction l as [|x l IH]; intros p H.
  - destruct p; discriminate H.
  - destruct p as [|p].
    + cbn in H. injection H as ->. reflexivity.
    + cbn in H. specialize (IH p H). destruct x; exact IH.
Qed.

Lemma settle_at_other (p q : nat) (o : RemoteAware.PromiseState)
  (l : list RemoteAware.PromiseState) :
  q <> p ->
  nth_error (RemoteAware.settle_at p o l) q = nth_error l q.
Proof.
  revert p q. induction l as [|x l IH]; intros p q Hne;
    [destruct p; reflexivity|].
  destruct p as [|p], q as [|q]; try contradiction.
  - destruct x; reflexivity.
  - destruct x; reflexivity.
  - assert (Hne' : q <> p) by (intros ->; apply Hne; reflexivity).
    specialize (IH p q Hne'). destruct x; exact IH.
Qed.

(** C8, as the code has it: the command-result handler, for a
    correlation id that is not a name every object inherits.  With an
    entry for the id, the entry is removed first and the method of the
    promise is called in the state that no longer has it, whatever that
    method does: [reject] with the error field when that field holds a
    truthy value (the test is [if (evt.data.error)]), [resolve] with the
    data field otherwise.  A promise that was pending then holds that
    outcome, the other promises and the other fields are as before, and
    the same response delivered again is dropped.  Without an entry the
    call returns and changes nothing. *)
Theorem C8_command_result_handler
  {R : Type} (s : RemoteAware.t R) (payload : Obj JsVal)
  (ps : list Port) (tr : bool) :
  let evt := mkEvent (VObj payload) ps tr in
  let key := to_string (prop payload "returnId") in
  let outcome :=
    if truthy (prop payload "error")
    then RemoteAware.Rejected (prop payload "error")
    else RemoteAware.Resolved (prop payload "data") in
  inherited key = false ->
  (forall callback,
      get key (RemoteAware.callbacks s) = Some callback ->
      let s1 := RemoteAware.with_callbacks
                  (del key (RemoteAware.callbacks s)) s in
      has key (RemoteAware.callbacks s1) = false
      /\ (forall act : nat -> RemoteAware.PromiseState -> M (RemoteAware.t R) unit,
            RemoteAware.receiveCommandResult_with act evt s =
            act callback outcome s1)
      /\ exists s2 : RemoteAware.t R,
           RemoteAware.receiveCommandResult evt s = (Ret tt, s2)
           /\ RemoteAware.callbacks s2 = del key (RemoteAware.callbacks s)
           /\ (nth_error (RemoteAware.promises s) callback =
               Some RemoteAware.Pending ->
               nth_error (RemoteAware.promises s2) callback = Some outcome)
           /\ (forall q, q <> callback ->
                 nth_error (RemoteAware.promises s2) q =
                 nth_error (RemoteAware.promises s) q)
           /\ length (RemoteAware.promises s2) =
              length (RemoteAware.promises s)
           /\ RemoteAware.id s2 = RemoteAware.id s
           /\ RemoteAware.remotes s2 = RemoteAware.remotes s
           /\ RemoteAware.remoteKey s2 = RemoteAware.remoteKey s
           /\ RemoteAware.receiveCommandResult evt s2 = (Ret tt, s2))
  /\ (get key (RemoteAware.callbacks s) = None ->
      RemoteAware.receiveCommandResult evt s = (Ret tt, s)).
Proof.
  intros evt key outcome _. split.
  - intros callback H s1.
    assert (H1 : get key (RemoteAware.callbacks s1) = None)
      by (apply get_del_same).
    split; [unfold has; rewrite H1; reflexivity|].
    split.
    { intros act. unfold evt, outcome.
      unfold RemoteAware.receiveCommandResult_with, bind, lift, gets, ret, modify.
      cbn [data field]. fold key. rewrite H.
      destruct (truthy (prop payload "error")); reflexivity. }
    exists (RemoteAware.with_promises
              (RemoteAware.settle_at callback outcome (RemoteAware.promises s))
              s1).
    split.
    { unfold evt.
      rewrite (receiveCommandResult_known s payload ps tr callback H).
      unfold outcome, RemoteAware.reject, RemoteAware.resolve.
      destruct (truthy (prop payload "error")); reflexivity. }
    destruct s as [i rs cbs rk pr].
    cbn [RemoteAware.callbacks RemoteAware.promises RemoteAware.id
         RemoteAware.remotes RemoteAware.remoteKey RemoteAware.with_promises
         RemoteAware.with_callbacks s1] in *.
    split; [reflexivity|].
    split; [apply settle_at_pending|].
    split; [intros q Hq; apply settle_at_other; exact Hq|].
    split; [apply settle_at_length|].
    do 3 (split; [reflexivity|]).
    apply receiveCommandResult_unknown. exact H1.
  - apply receiveCommandResult_unknown.
Qed.

Lemma C8_witness :
  let s : RemoteAware.t (option Port) :=
    RemoteAware.mk (VStr "1.t") [] [("7.t", 0)] 0 [RemoteAware.Pending] in
  let reply := [("error", VStr "boom"); ("returnId", VStr "7.t")] in
  let settled : RemoteAware.t (option Port) :=
    RemoteAware.mk (VStr "1.t") [] [] 0
      [RemoteAware.Rejected (VStr "boom")] in
  RemoteAware.receiveCommandResult (mkEvent (VObj reply) [] true) s
    = (Ret tt, settled)
  /\ RemoteAware.receiveCommandResult (mkEvent (VObj reply) [] true) settled
    = (Ret tt, settled).
Proof.
  intros s reply settled.
  destruct (C8_command_result_handler s reply [] true eq_refl)
    as [Hknown Hunknown].
  split.
  - destruct (Hknown 0 eq_refl) as (_ & Hact & _).
    exact (Hact RemoteAware.settle).
  - exact (proj2 (C8_command_result_handler settled reply [] true eq_refl)
             eq_refl).
Defined.

(** The claim as the specification words it has the promise rejected
    whenever the message has an error field.  A message whose error
    field is the empty string has one; the code tests the field for
    truth and resolves the promise, with the data field, which this
    message does not have. *)
Lemma C8_counterexample :
  let s : RemoteAware.t (option Port) :=
    RemoteAware.mk (VStr "1.t") [] [("7.t", 0)] 0 [RemoteAware.Pending] in
  let reply := [("error", VStr ""); ("returnId", VStr "7.t")] in
  let r := RemoteAware.receiveCommandResult (mkEvent (VObj reply) [] true) s in
  has "error" reply = true
  /\ fst r = Ret tt
  /\ nth_error (RemoteAware.promises (snd r)) 0 =
     Some (RemoteAware.Resolved VUndef)
  /\ nth_error (RemoteAware.promises (snd r)) 0 <>
     Some (RemoteAware.Rejected (VStr "")).
Proof.
  vm_compute. split; [reflexivity|]. split; [reflexivity|].
  split; [reflexivity|]. discriminate.
Qed.

(** ** Listeners *)
Section Dispatch.
Import ListenerAware.

Lemma dispatch_all_return (evt : Event) (ls : Obj Listener) :
  (forall idx fn, In (idx, fn) ls -> fn evt = None) ->
  executeMessageListeners evt ls =
  (map (fun idx => mkCall idx evt) (keys ls), None).
Proof.
  induction ls as [|[idx fn] ls IH]; intros Hall; simpl; [reflexivity|].
  rewrite (Hall idx fn) by (left; reflexivity).
  rewrite IH by (intros i f Hin; apply (Hall i f); right; exact Hin).
  reflexivity.
Qed.

Lemma dispatch_first_exception (evt : Event) (pre post : Obj Listener)
  (idx : string) (fn : Listener) (e : JsError) :
  (forall i f, In (i, f) pre -> f evt = None) ->
  fn evt = Some e ->
  executeMessageListeners evt (pre ++ (idx, fn) :: post)%list =
  (map (fun i => mkCall i evt) (keys pre ++ [idx])%list, Some e).
Proof.
  induction pre as [|[i f] pre IH]; intros Hall Hfn; simpl.
  - rewrite Hfn. reflexivity.
  - rewrite (Hall i f) by (left; reflexivity).
    rewrite IH; [reflexivity | | exact Hfn].
    intros i' f' Hin. apply (Hall i' f'). right. exact Hin.
Qed.

End Dispatch.

(** C3, as the code has it: [dispatch] calls the listeners in
    registration order, each with the same event, up to and including
    the first one that raises; that exception leaves [dispatch] and the
    listeners after it are not called.  When no listener raises, all of
    them are called and [dispatch] returns. *)
Theorem C3_dispatch_runs_until_first_exception
  (evt : Event) (pre post : Obj ListenerAware.Listener) :
  (forall i f, In (i, f) pre -> f evt = None) ->
  ListenerAware.executeMessageListeners evt pre =
    (map (fun i => ListenerAware.mkCall i evt) (keys pre), None)
  /\ (forall (idx : string) (fn : ListenerAware.Listener) (e : JsError),
        fn evt = Some e ->
        ListenerAware.executeMessageListeners evt (pre ++ (idx, fn) :: post)%list =
          (map (fun i => ListenerAware.mkCall i evt) (keys pre ++ [idx])%list,
           Some e)
        /\ forall w : ThreadPool.t,
             ThreadPool.listeners w = (pre ++ (idx, fn) :: post)%list ->
             fst (ThreadPool.executeMessageListeners evt w) = Exn e).
Proof.
  intros Hall. split; [apply dispatch_all_return; exact Hall|].
  intros idx fn e Hfn.
  pose proof (dispatch_first_exception evt pre post idx fn e Hall Hfn) as H.
  split; [exact H|].
  intros w Hw. unfold ThreadPool.executeMessageListeners.
  rewrite Hw, H. reflexivity.
Qed.

Lemma C3_witness :
  let evt := mkEvent (VStr "ping") [] true in
  let quiet : ListenerAware.Listener := fun _ => None in
  let faulty : ListenerAware.Listener := fun _ => Some (Error "boom") in
  ListenerAware.executeMessageListeners evt
    [("1.t", quiet); ("2.t", faulty); ("3.t", quiet)] =
  ([ListenerAware.mkCall "1.t" evt; ListenerAware.mkCall "2.t" evt],
   Some (Error "boom")).
Proof.
  intros evt quiet faulty.
  assert (Hpre : forall i f, In (i, f) [("1.t", quiet)] -> f evt = None).
  { intros i f [H|[]]. inversion H. reflexivity. }
  destruct (C3_dispatch_runs_until_first_exception evt
              [("1.t", quiet)] [("3.t", quiet)] Hpre) as [_ H].
  destruct (H "2.t" faulty (Error "boom") eq_refl) as [H1 _].
  exact H1.
Defined.

(** C3 as stated fails: with a first listener that raises, the second
    one is not called and the exception leaves [dispatch]. *)
Lemma C3_counterexample :
  let evt := mkEvent (VStr "ping") [] true in
  let faulty : ListenerAware.Listener := fun _ => Some (Error "boom") in
  let quiet : ListenerAware.Listener := fun _ => None in
  let ls := [("1.t", faulty); ("2.t", quiet)] in
  ListenerAware.executeMessageListeners evt ls =
    ([ListenerAware.mkCall "1.t" evt], Some (Error "boom"))
  /\ ~ (In (ListenerAware.mkCall "2.t" evt)
          (fst (ListenerAware.executeMessageListeners evt ls))
        /\ snd (ListenerAware.executeMessageListeners evt ls) = None).
Proof.
  simpl. split; [reflexivity|].
  intros [_ H]. discriminate H.
Qed.

(** ** Promises *)
Lemma settle_at_last (ps : list RemoteAware.PromiseState)
  (o : RemoteAware.PromiseState) :
  RemoteAware.settle_at (length ps) o (ps ++ [RemoteAware.Pending])%list
  = (ps ++ [o])%list.
Proof.
  induction ps as [|p ps IH]; simpl; [reflexivity|].
  rewrite IH. destruct p; reflexivity.
Qed.

Lemma nth_error_last {A} (l : list A) (x : A) :
  nth_error (l ++ [x])%list (length l) = Some x.
Proof.
  induction l as [|y l IH]; simpl; [reflexivity | exact IH].
Qed.

(** ** The emptiness test *)
Lemma hasRemotes_always {R} (s : RemoteAware.t R) :
  RemoteAware.hasRemotes s = true.
Proof.
  unfold RemoteAware.hasRemotes.
  destruct (get "length" (RemoteAware.remotes s)); reflexivity.
Qed.

(** ** Unit handles *)

(** C4, on the code: [terminate()] of a unit handle raises at its first
    statement, for every handle and in every state; no channel is
    closed, the spawn handle is not released and nothing is cleared. *)
Theorem C4_terminate_raises (this : RemoteWorker.t) (x : RemoteWorker.World) :
  RemoteWorker.terminate this x =
  (Exn (TypeError "object is not iterable"), x).
Proof. reflexivity. Qed.

(** The controller's [terminate(id)] stops at the same exception: the
    entry stays in its sibling map and no removal notice is sent. *)
Lemma cluster_terminate_raises (id : string) (remote : RemoteWorker.t)
  (s : WorkerCluster.t) :
  get id (WorkerCluster.remotes s) = Some remote ->
  WorkerCluster.terminate_one id s =
  (Exn (TypeError "object is not iterable"), s).
Proof.
  intros H. unfold WorkerCluster.terminate_one, bind, gets. simpl.
  rewrite H. destruct s; reflexivity.
Qed.

(** ** Configuration pushes *)
Lemma set_set_same {A} (k : string) (v : A) (o : Obj A) :
  set k v (set k v o) = set k v o.
Proof.
  induction o as [|[k' v'] o IH]; simpl.
  - rewrite String.eqb_refl. reflexivity.
  - destruct (k =? k') eqn:E; simpl.
    + rewrite String.eqb_refl. reflexivity.
    + rewrite E, IH. reflexivity.
Qed.

Lemma after_effects_nil (s : WorkerCluster.t) : Runs.after_effects [] s = s.
Proof.
  destruct s as [r l a k w [g nw nc es]]. unfold Runs.after_effects. cbn.
  unfold RemoteWorker.with_effects. cbn. rewrite app_nil_r. reflexivity.
Qed.

Lemma after_effects_app (a b : list RemoteWorker.Effect) (s : WorkerCluster.t) :
  Runs.after_effects b (Runs.after_effects a s) = Runs.after_effects (a ++ b) s.
Proof.
  destruct s as [r l au k w [g nw nc es]]. unfold Runs.after_effects. cbn.
  unfold RemoteWorker.with_effects. cbn. rewrite app_assoc. reflexivity.
Qed.

Section Broadcast.
Import WorkerCluster.

Lemma broadcast_to_posts (payload payload' : Obj JsVal) (ks : list string)
  (s : t) :
  set "thread" (RemoteAware.id (ra s)) payload'
    = set "thread" (RemoteAware.id (ra s)) payload ->
  broadcast_to ks payload' [] s =
  (Ret tt,
   Runs.after_effects
     (map (fun h => RemoteWorker.WorkerPost h
                      (Runs.broadcast_payload (RemoteAware.id (ra s)) payload) [])
        (flat_map (fun k => match get k (remotes s) with
                            | Some remote =>
                                match RemoteWorker.worker remote with
                                | Some h => [h]
                                | None => []
                                end
                            | None => []
                            end) ks)) s).
Proof.
  revert s payload'. induction ks as [|k ks IH]; intros s payload' Hp.
  - simpl. rewrite after_effects_nil. reflexivity.
  - cbn [broadcast_to flat_map].
    unfold bind at 1. unfold gets at 1.
    unfold bind at 1. unfold sendMessageToRemote.
    unfold bind at 1. unfold gets at 1.
    unfold payload_after, has. cbn [to_string].
    fold (remotes s).
    destruct (get k (remotes s)) as [remote|] eqn:Hk.
    + unfold call, RemoteWorker.postMessage.
      destruct (RemoteWorker.worker remote) as [h|].
      * unfold bind, RemoteWorker.emit, modify, ret.
        fold (Runs.after_effects
                [RemoteWorker.WorkerPost h
                   (VObj (json_clone (set "thread" (RemoteAware.id (ra s)) payload')))
                   []] s).
        rewrite IH by
          (destruct s; cbn in *; rewrite set_set_same; exact Hp).
        rewrite after_effects_app. rewrite map_app.
        unfold Runs.broadcast_payload. rewrite Hp.
        destruct s; reflexivity.
      * unfold bind, ret. cbn.
        replace (with_world (world s) s) with s by (destruct s; reflexivity).
        rewrite IH by (rewrite set_set_same; exact Hp). reflexivity.
    + unfold ret. rewrite IH by exact Hp. reflexivity.
Qed.

End Broadcast.

(** What the controller sends for [setHttpAuthorization(auth)]. *)
Lemma setHttpAuthorization_posts (s : WorkerCluster.t) (auth : JsVal) :
  WorkerCluster.setHttpAuthorization auth s =
  (Ret tt,
   Runs.after_effects
     (map (fun h => RemoteWorker.WorkerPost h
                      (Runs.broadcast_payload
                         (RemoteAware.id (WorkerCluster.ra s))
                         [("setHttpAuthorization", auth)]) [])
        (Runs.posted_handles (WorkerCluster.remotes s)))
     (WorkerCluster.with_httpAuthorization auth s)).
Proof.
  unfold WorkerCluster.setHttpAuthorization, WorkerCluster.broadcast.
  unfold bind, modify, gets.
  rewrite (broadcast_to_posts [("setHttpAuthorization", auth)]) by reflexivity.
  destruct s; reflexivity.
Qed.

(** The access-token push, for comparison: the worker reads the field
    the controller writes, and stores the token. *)
Lemma access_token_push_is_recognized (fuel : nat) (w : ThreadPool.t)
  (token : string) :
  token <> "" ->
  ThreadPool.messageListener (S fuel)
    (mkEvent (Runs.broadcast_payload (VStr RemoteAware.MASTER_THREAD)
                [("setHttpAccessToken", VStr token)]) [] true) w
  = (Ret tt, ThreadPool.with_httpAccessToken (VStr token) w).
Proof.
  intros Hne. apply String.eqb_neq in Hne.
  unfold Runs.broadcast_payload. cbn.
  unfold bind, lift, ret. cbn. rewrite Hne. reflexivity.
Qed.

(** C5, on the code: [setHttpAuthorization(auth)] of the controller posts
    to every worker a message whose field is called
    setHttpAuthorization; the worker's message listener tests the field
    setHttpAuth, finds none of its fields in the message, and hands it to
    the generic listeners.  The worker's credential is never updated. *)
Theorem C5_authorization_push_is_not_recognized
  (s : WorkerCluster.t) (auth : string) :
  let push := Runs.broadcast_payload (RemoteAware.id (WorkerCluster.ra s))
                [("setHttpAuthorization", VStr auth)] in
  WorkerCluster.setHttpAuthorization (VStr auth) s =
    (Ret tt,
     Runs.after_effects
       (map (fun h => RemoteWorker.WorkerPost h push [])
          (Runs.posted_handles (WorkerCluster.remotes s)))
       (WorkerCluster.with_httpAuthorization (VStr auth) s))
  /\ forall (fuel : nat) (w : ThreadPool.t),
       ThreadPool.messageListener (S fuel) (mkEvent push [] true) w =
       ThreadPool.executeMessageListeners (mkEvent push [] true) w
       /\ ThreadPool.httpAuth
            (snd (ThreadPool.messageListener (S fuel) (mkEvent push [] true) w))
          = ThreadPool.httpAuth w.
Proof.
  intros push. split; [apply setHttpAuthorization_posts|].
  intros fuel w.
  assert (H : ThreadPool.messageListener (S fuel) (mkEvent push [] true) w =
              ThreadPool.executeMessageListeners (mkEvent push [] true) w).
  { unfold push, Runs.broadcast_payload, json_clone.
    cbn [set String.eqb Ascii.eqb Bool.eqb json_value].
    destruct (json_value (RemoteAware.id (WorkerCluster.ra s))) as [v|];
      reflexivity. }
  split; [exact H|].
  rewrite H. unfold ThreadPool.executeMessageListeners.
  destruct (ListenerAware.executeMessageListeners _ _) as [calls [e|]];
    reflexivity.
Qed.

(** One worker, spawned by a new controller: the push is posted to it,
    and a worker that has received it still has no credential. *)
Example authorization_push_example :
  let s := snd (WorkerCluster.spawn_one
                  (WorkerCluster.create RemoteWorker.WorkerClass
                     (mkIdSource 0 Runs.still_clock))) in
  let push := VObj [("setHttpAuthorization", VStr "dXNlcjpwYXNz");
                    ("thread", VStr "master")] in
  RemoteWorker.effects
    (WorkerCluster.world
       (snd (WorkerCluster.setHttpAuthorization (VStr "dXNlcjpwYXNz") s)))
  = (RemoteWorker.effects (WorkerCluster.world s)
     ++ [RemoteWorker.WorkerPost 0 push []])%list
  /\ ThreadPool.httpAuth
       (snd (ThreadPool.messageListener 1 (Runs.delivered push)
               (ThreadPool.init (mkIdSource 0 Runs.still_clock))))
     = VNull.
Proof. split; reflexivity. Qed.

(** ** Commands issued by a worker *)



(** C6, on the code: a command that [sendCommand] refuses because its
    name is not registered (and is not a name every object inherits, so
    that the test [name in this.commands] fails) has its promise
    rejected at once, and its entry stays in the callback table.
    Nothing was posted, so no result will arrive to remove it. *)
Theorem C6_refused_command_keeps_its_entry
  (fuel : nat) (w : ThreadPool.t) (name : string) (args : list JsVal)
  (thread : JsVal) :
  inherited name = false ->
  has name (ThreadPool.commands w) = false ->
  let callbackId := fst (Ids.getUniqueId (ThreadPool.ids w)) in
  let promise := length (RemoteAware.promises (ThreadPool.ra w)) in
  exists w' : ThreadPool.t,
    ThreadPool.sendCommand fuel name args thread w = (Ret promise, w')
    /\ nth_error (RemoteAware.promises (ThreadPool.ra w')) promise =
       Some (RemoteAware.Rejected (VError (Error "Invalid Command")))
    /\ get callbackId (RemoteAware.callbacks (ThreadPool.ra w')) = Some promise
    /\ ThreadPool.effects w' = ThreadPool.effects w.
Proof.
  intros _ Hcmd.
  enter_sendCommand w callbackId.
  rewrite Hcmd. cbn.
  eexists. split; [reflexivity|]. cbn.
  rewrite settle_at_last, nth_error_last, get_set_same.
  repeat split; reflexivity.
Qed.

(** The other exits of [sendCommand] that reject the promise leave the
    entry in place as well: here, in a worker without siblings, for a
    target that is not a name every object inherits. *)
Lemma unsent_command_keeps_its_entry
  (fuel : nat) (w : ThreadPool.t) (name : string) (args : list JsVal)
  (thread : JsVal) :
  inherited (to_string thread) = false ->
  RemoteAware.remotes (ThreadPool.ra w) = [] ->
  RemoteAware.id (ThreadPool.ra w) <> VUndef ->
  has name (ThreadPool.commands w) = true ->
  exists (promise : nat) (w' : ThreadPool.t) (e : JsError),
    ThreadPool.sendCommand fuel name args thread w = (Ret promise, w')
    /\ nth_error (RemoteAware.promises (ThreadPool.ra w')) promise =
       Some (RemoteAware.Rejected (VError e))
    /\ get (fst (Ids.getUniqueId (ThreadPool.ids w)))
         (RemoteAware.callbacks (ThreadPool.ra w')) = Some promise.
Proof.
  intros _ Hrs Hid Hcmd.
  enter_sendCommand w callbackId. subst.
  rewrite Hcmd. cbn.
  destruct (truthy thread) eqn:Ht; cbn.
  - do 3 eexists. split; [reflexivity|]. cbn.
    rewrite settle_at_last, nth_error_last, get_set_same.
    split; reflexivity.
  - assert (Hk : RemoteAware.key_at [] cursor = VUndef)
      by (unfold RemoteAware.key_at; destruct cursor; reflexivity).
    rewrite Hk.
    unfold ThreadPool.sendMessageToRemote, ThreadPool.sendMessageToRemote_with.
    destruct id; try contradiction; unfold bind, gets; cbn;
      (do 3 eexists; split; [reflexivity|]; cbn;
       rewrite settle_at_last, nth_error_last, get_set_same;
       split; reflexivity).
Qed.

Lemma C6_witness :
  exists w' : ThreadPool.t,
    ThreadPool.sendCommand 3 "nope" [] VNull
      (Runs.worker_with "1.t" [("2.t", Some (mkPort 0 Port2))] Runs.echo)
    = (Ret 0, w')
    /\ nth_error (RemoteAware.promises (ThreadPool.ra w')) 0 =
       Some (RemoteAware.Rejected (VError (Error "Invalid Command")))
    /\ get "1.1700000000000.12.5.0.25"
         (RemoteAware.callbacks (ThreadPool.ra w')) = Some 0
    /\ ThreadPool.effects w' = [].
Proof.
  apply (C6_refused_command_keeps_its_entry 3
           (Runs.worker_with "1.t" [("2.t", Some (mkPort 0 Port2))] Runs.echo)
           "nope" [] VNull); reflexivity.
Defined.

(** C9, as the code has it: a message addressed to the controller id by
    [sendMessageToRemote] is posted straight to the spawning context,
    whatever the sibling map holds; this is the way results go back to
    the controller.  [sendCommand] with the controller id as explicit
    target is refused with Invalid Thread when, as in every mesh the
    controller wires, that id is not a key of the sibling map; nothing
    is sent. *)
Theorem C9_controller_is_reached_by_messages_not_by_commands
  (fuel : nat) (w : ThreadPool.t) :
  (forall (payload : Obj JsVal) (transferable : JsVal),
      ThreadPool.sendMessageToRemote fuel (VStr RemoteAware.MASTER_THREAD)
        payload transferable w =
      ThreadPool.sendMessageToMaster
        (set "thread" (RemoteAware.id (ThreadPool.ra w)) payload) transferable w
      /\ exists sent,
           snd (ThreadPool.sendMessageToRemote fuel (VStr RemoteAware.MASTER_THREAD)
                  payload transferable w)
           = ThreadPool.with_effects
               (ThreadPool.effects w ++ [ThreadPool.PostToMaster sent transferable])%list
               w)
  /\ (forall (name : string) (args : list JsVal),
        has RemoteAware.MASTER_THREAD (RemoteAware.remotes (ThreadPool.ra w)) = false ->
        has name (ThreadPool.commands w) = true ->
        exists (promise : nat) (w' : ThreadPool.t),
          ThreadPool.sendCommand fuel name args (VStr RemoteAware.MASTER_THREAD) w
            = (Ret promise, w')
          /\ nth_error (RemoteAware.promises (ThreadPool.ra w')) promise =
             Some (RemoteAware.Rejected (VError (Error "Invalid Thread")))
          /\ ThreadPool.effects w' = ThreadPool.effects w).
Proof.
  split.
  - intros payload transferable.
    split; [reflexivity|].
    unfold ThreadPool.sendMessageToRemote, ThreadPool.sendMessageToRemote_with.
    unfold bind, gets. cbn.
    eexists. reflexivity.
  - intros name args Hm Hcmd.
    enter_sendCommand w callbackId.
    rewrite Hcmd. cbn. rewrite hasRemotes_always. cbn.
    rewrite Hm. cbn.
    eexists. eexists. split; [reflexivity|]. cbn.
    rewrite settle_at_last, nth_error_last. split; reflexivity.
Qed.

Lemma C9_witness :
  let w := Runs.worker_with "1.t" [("2.t", Some (mkPort 0 Port2))] Runs.echo in
  exists (promise : nat) (w' : ThreadPool.t),
    ThreadPool.sendCommand 3 "echo" [VNum 42] (VStr RemoteAware.MASTER_THREAD) w
      = (Ret promise, w')
    /\ nth_error (RemoteAware.promises (ThreadPool.ra w')) promise =
       Some (RemoteAware.Rejected (VError (Error "Invalid Thread")))
    /\ ThreadPool.effects w' = ThreadPool.effects w.
Proof.
  intros w.
  destruct (C9_controller_is_reached_by_messages_not_by_commands 3 w)
    as [_ H].
  apply (H "echo" [VNum 42]); reflexivity.
Defined.

(** C9 as stated fails: a worker with one sibling that sends the echo
    command to the controller id gets its promise rejected, and nothing
    is posted to the spawning context. *)
Lemma C9_counterexample :
  let w := Runs.worker_with "1.t" [("2.t", Some (mkPort 0 Port2))] Runs.echo in
  let r := ThreadPool.sendCommand 3 "echo" [VNum 42]
             (VStr RemoteAware.MASTER_THREAD) w in
  fst r = Ret 0
  /\ nth_error (RemoteAware.promises (ThreadPool.ra (snd r))) 0 =
     Some (RemoteAware.Rejected (VError (Error "Invalid Thread")))
  /\ ~ (exists payload transferable,
          In (ThreadPool.PostToMaster payload transferable)
             (ThreadPool.effects (snd r))).
Proof.
  vm_compute. split; [reflexivity|]. split; [reflexivity|].
  intros (payload & transferable & []).
Qed.

(** ** The echo round trip *)

(** With the result wrapped in an array, as the first reaction of
    [executeCommand] expects it, the round trip to a sibling resolves. *)
Lemma round_trip_with_array_result :
  let a0 := Runs.worker_with "1.t" [("2.t", Some (mkPort 0 Port2))]
              Runs.echo_pair in
  let b0 := Runs.worker_with "2.t" [("1.t", Some (mkPort 1 Port2))]
              Runs.echo_pair in
  let request :=
    VObj [("cmd", VStr "echo"); ("args", VArr [VNum 42]);
          ("thread", VStr "1.t");
          ("callbackId", VStr "1.1700000000000.12.5.0.25")] in
  let reply :=
    VObj [("data", VNum 42); ("returnId", VStr "1.1700000000000.12.5.0.25");
          ("thread", VStr "2.t")] in
  exists a1 b1 a2,
    ThreadPool.sendCommand 3 "echo" [VNum 42] VNull a0 = (Ret 0, a1)
    /\ ThreadPool.effects a1 =
       [ThreadPool.PostToPort (mkPort 0 Port2) request VUndef]
    /\ RemoteAware.callbacks (ThreadPool.ra a1) =
       [("1.1700000000000.12.5.0.25", 0)]
    /\ ThreadPool.messageListener 3 (Runs.delivered request) b0 = (Ret tt, b1)
    /\ ThreadPool.effects b1 =
       [ThreadPool.Invoke "echo" (VStr "1.t") [VNum 42];
        ThreadPool.PostToPort (mkPort 1 Port2) reply VUndef]
    /\ ThreadPool.messageListener 3 (Runs.delivered reply) a1 = (Ret tt, a2)
    /\ RemoteAware.promises (ThreadPool.ra a2) = [RemoteAware.Resolved (VNum 42)]
    /\ RemoteAware.callbacks (ThreadPool.ra a2) = [].
Proof.
  do 3 eexists.
  split; [vm_compute; reflexivity|].
  split; [reflexivity|].
  split; [reflexivity|].
  split; [vm_compute; reflexivity|].
  split; [reflexivity|].
  split; [vm_compute; reflexivity|].
  split; reflexivity.
Qed.

(** C1, on the code: after [registerCommand('echo', (thread, x) => x)],
    the promise of [sendCommand('echo', [42])] is rejected.  In a worker
    without siblings no target is found.  In a worker with a sibling the
    request is posted and the sibling calls the handler, whose result 42
    is not the array the first reaction takes apart; the second reaction
    sends the error text back, and the promise is rejected with it. *)
Theorem C1_echo_round_trip_is_rejected :
  (exists w',
      ThreadPool.sendCommand 3 "echo" [VNum 42] VNull
        (Runs.worker_with "1.t" [] Runs.echo) = (Ret 0, w')
      /\ RemoteAware.promises (ThreadPool.ra w') =
         [RemoteAware.Rejected
            (VError (Error "Unable to send to thread, undefined"))]
      /\ ThreadPool.effects w' = [])
  /\ (let a0 := Runs.worker_with "1.t" [("2.t", Some (mkPort 0 Port2))]
                  Runs.echo in
      let b0 := Runs.worker_with "2.t" [("1.t", Some (mkPort 1 Port2))]
                  Runs.echo in
      let request :=
        VObj [("cmd", VStr "echo"); ("args", VArr [VNum 42]);
              ("thread", VStr "1.t");
              ("callbackId", VStr "1.1700000000000.12.5.0.25")] in
      let reply :=
        VObj [("error", VStr "TypeError: 42 is not iterable");
              ("returnId", VStr "1.1700000000000.12.5.0.25");
              ("previousEvent", VObj [("isTrusted", VBool true)]);
              ("thread", VStr "2.t")] in
      exists a1 b1 a2,
        ThreadPool.sendCommand 3 "echo" [VNum 42] VNull a0 = (Ret 0, a1)
        /\ ThreadPool.effects a1 =
           [ThreadPool.PostToPort (mkPort 0 Port2) request VUndef]
        /\ RemoteAware.promises (ThreadPool.ra a1) = [RemoteAware.Pending]
        /\ ThreadPool.messageListener 3 (Runs.delivered request) b0 = (Ret tt, b1)
        /\ ThreadPool.effects b1 =
           [ThreadPool.Invoke "echo" (VStr "1.t") [VNum 42];
            ThreadPool.PostToPort (mkPort 1 Port2) reply VUndef]
        /\ ThreadPool.messageListener 3 (Runs.delivered reply) a1 = (Ret tt, a2)
        /\ RemoteAware.promises (ThreadPool.ra a2) =
           [RemoteAware.Rejected (VStr "TypeError: 42 is not iterable")]).
Proof.
  split.
  - eexists. split; [vm_compute; reflexivity|]. split; reflexivity.
  - do 3 eexists.
    split; [vm_compute; reflexivity|].
    split; [reflexivity|].
    split; [reflexivity|].
    split; [vm_compute; reflexivity|].
    split; [reflexivity|].
    split; [vm_compute; reflexivity|].
    reflexivity.
Qed.

(** ** Identifiers *)
Section Identifiers.

Lemma dotless_digits (d : Decimal.uint) :
  dotless (NilEmpty.string_of_uint d).
Proof.
  induction d; simpl; try exact I; (split; [discriminate | assumption]).
Qed.

Lemma to_uint_nonnil (n : N) : N.to_uint n <> Decimal.Nil.
Proof.
  destruct n as [|p]; [discriminate|].
  apply DecimalPos.Unsigned.to_uint_nonnil.
Qed.

Lemma dotless_dec_of_N (n : N) : dotless (dec_of_N n).
Proof.
  unfold dec_of_N, NilZero.string_of_uint.
  pose proof (dotless_digits (N.to_uint n)) as H.
  destruct (N.to_uint n); simpl in *; try exact H.
  split; [discriminate | exact I].
Qed.

Lemma dec_of_N_inj (n m : N) : dec_of_N n = dec_of_N m -> n = m.
Proof.
  unfold dec_of_N. intros H.
  apply DecimalN.Unsigned.to_uint_inj.
  apply (f_equal NilZero.uint_of_string) in H.
  rewrite !NilZero.usu in H by apply to_uint_nonnil.
  congruence.
Qed.

Lemma dotless_prefix (a b x y : string) :
  dotless a -> dotless b ->
  (a ++ "." ++ x = b ++ "." ++ y)%string -> a = b.
Proof.
  revert b. induction a as [|c a IH]; intros [|c' b] Ha Hb H; simpl in *.
  - reflexivity.
  - injection H as Hc _. destruct Hb as [Hb _]. congruence.
  - injection H as Hc _. destruct Ha as [Ha _]. congruence.
  - injection H as Hc Hrest. destruct Ha as [_ Ha]. destruct Hb as [_ Hb].
    f_equal; [exact Hc | exact (IH b Ha Hb Hrest)].
Qed.

Lemma mint_serial (n m : N) (x y : string) : mint n x = mint m y -> n = m.
Proof.
  unfold mint. intros H. apply dec_of_N_inj.
  apply (dotless_prefix _ _ x y); auto using dotless_dec_of_N.
Qed.

Lemma minted_upto_mono (u u' : N) (k : string) :
  (u <= u')%N -> minted_upto u k -> minted_upto u' k.
Proof.
  intros Hle (n & x & Hn & Hk). exists n, x. split; [lia | exact Hk].
Qed.

Lemma getUniqueId_mint (g : IdSource) :
  Ids.getUniqueId g =
  (mint (uniqueId g + 1) (clock g (uniqueId g + 1)),
   mkIdSource (uniqueId g + 1) (clock g)).
Proof. reflexivity. Qed.

(** An identifier is never returned twice: the next one differs from
    every identifier produced so far. *)
Lemma getUniqueId_fresh (g : IdSource) (k : string) :
  minted_upto (uniqueId g) k -> fst (Ids.getUniqueId g) <> k.
Proof.
  intros (n & x & Hn & Hk) E. rewrite getUniqueId_mint in E. simpl in E.
  subst k. apply mint_serial in E. lia.
Qed.

(** Registration order is enumeration order: a new listener goes behind
    the listeners registered before it. *)
Lemma addMessageListener_appends (fn : ListenerAware.Listener) (g : IdSource)
  (ls : Obj ListenerAware.Listener) :
  (forall k, In k (keys ls) -> minted_upto (uniqueId g) k) ->
  keys (snd (ListenerAware.addMessageListener fn g ls)) =
  (keys ls ++ [fst (Ids.getUniqueId g)])%list.
Proof.
  intros Hold. unfold ListenerAware.addMessageListener.
  pose proof (getUniqueId_fresh g) as Hfresh.
  destruct (Ids.getUniqueId g) as [idx g']. cbn in *.
  apply keys_set_fresh. apply get_none_not_in.
  intros Hin. apply (Hfresh idx (Hold idx Hin)). reflexivity.
Qed.

End Identifiers.

(** ** Spawning *)
Section TableMembership.
Context {A : Type}.

Lemma get_in (k : string) (v : A) (o : Obj A) : get k o = Some v -> In (k, v) o.
Proof.
  induction o as [|[k' v'] o IH]; simpl; [discriminate|].
  destruct (k =? k') eqn:E.
  - apply String.eqb_eq in E. intros H. left. congruence.
  - intros H. right. apply IH. exact H.
Qed.

Lemma in_keys_get (k : string) (o : Obj A) :
  In k (keys o) -> exists v, get k o = Some v.
Proof.
  intros H. destruct (get k o) as [v|] eqn:E; [exists v; reflexivity|].
  apply get_none_not_in in E. contradiction.
Qed.

Lemma in_set (k k0 : string) (v v0 : A) (o : Obj A) :
  In (k0, v0) (set k v o) -> (k0 = k /\ v0 = v) \/ In (k0, v0) o.
Proof.
  induction o as [|[k' v'] o IH]; simpl.
  - intros [H|[]]. left. split; congruence.
  - destruct (k =? k') eqn:E; simpl.
    + intros [H|H]; [left; split; congruence | right; right; exact H].
    + intros [H|H]; [right; left; exact H|].
      destruct (IH H) as [H'|H']; [left; exact H' | right; right; exact H'].
Qed.

Lemma has_false_not_in (k : string) (o : Obj A) :
  has k o = false <-> ~ In k (keys o).
Proof.
  unfold has. rewrite <- get_none_not_in.
  destruct (get k o); split; congruence.
Qed.

End TableMembership.

Lemma same_core_refl (x : RemoteWorker.World) : same_core x x.
Proof. split; reflexivity. Qed.

Lemma bind_ret {S A B} (c : M S A) (k : A -> M S B) (s s' : S) (a : A) :
  c s = (Ret a, s') -> bind c k s = k a s'.
Proof. intros H. unfold bind. rewrite H. reflexivity. Qed.

Lemma call_ret {A} (c : M RemoteWorker.World A) (s : WorkerCluster.t)
  (a : A) (x' : RemoteWorker.World) :
  c (WorkerCluster.world s) = (Ret a, x') ->
  WorkerCluster.call c s = (Ret a, WorkerCluster.with_world x' s).
Proof. intros H. unfold WorkerCluster.call. rewrite H. reflexivity. Qed.

Lemma registerRemoteThread_ok (this other : RemoteWorker.t)
  (x : RemoteWorker.World) :
  has (RemoteWorker.id other) (RemoteWorker.threads this) = false ->
  exists c x',
    RemoteWorker.registerRemoteThread this other x =
    (Ret (RemoteWorker.mk (RemoteWorker.id this) (RemoteWorker.worker this)
            (set (RemoteWorker.id other) c (RemoteWorker.threads this))
            (RemoteWorker.listeners this)), x')
    /\ same_core x x'.
Proof.
  intros H. unfold RemoteWorker.registerRemoteThread. rewrite H.
  unfold RemoteWorker.new_channel, RemoteWorker.postMessage.
  unfold bind, gets, modify, RemoteWorker.emit, ret.
  cbn [RemoteWorker.worker].
  destruct (RemoteWorker.worker other), (RemoteWorker.worker this);
    (eexists; eexists; split; [reflexivity | split; reflexivity]).
Qed.

Section CrossWire.
Import WorkerCluster.

Lemma cross_wire_ok (u : N) (ks : list string) :
  forall (w : RemoteWorker.t) (s : t),
    NoDup ks ->
    (forall k, In k ks ->
       exists r, get k (remotes s) = Some r /\ RemoteWorker.id r = k
                 /\ has (RemoteWorker.id w) (RemoteWorker.threads r) = false) ->
    (forall k, In k ks -> has k (RemoteWorker.threads w) = false) ->
    (forall k r, In (k, r) (remotes s) -> worker_ok u k r) ->
    minted_upto u (RemoteWorker.id w) ->
    exists w' s',
      cross_wire ks w s = (Ret w', s')
      /\ RemoteWorker.id w' = RemoteWorker.id w
      /\ RemoteWorker.worker w' = RemoteWorker.worker w
      /\ keys (RemoteWorker.threads w') = (keys (RemoteWorker.threads w) ++ ks)%list
      /\ keys (remotes s') = keys (remotes s)
      /\ which s' = which s
      /\ same_core (world s) (world s')
      /\ (forall k r, In (k, r) (remotes s') -> worker_ok u k r).
Proof.
  induction ks as [|k rest IH]; intros w s Hnd Hrem Hw Hok Hmint.
  - exists w, s. simpl. rewrite app_nil_r.
    do 6 (split; [reflexivity|]). split; [apply same_core_refl | exact Hok].
  - inversion Hnd as [|? ? Hnotin Hnd']; subst.
    destruct (Hrem k (or_introl eq_refl)) as (r & Hget & Hid & Hfresh).
    destruct (registerRemoteThread_ok r w (world s) Hfresh)
      as (c & x1 & Hreg1 & (Hids1 & Hnw1)).
    set (r' := RemoteWorker.mk (RemoteWorker.id r) (RemoteWorker.worker r)
                 (set (RemoteWorker.id w) c (RemoteWorker.threads r))
                 (RemoteWorker.listeners r)) in *.
    set (s1 := with_world x1 s).
    set (s2 := with_remotes (set k r' (remotes s1)) s1).
    assert (Hrs1 : remotes s1 = remotes s) by reflexivity.
    assert (Hwk : has (RemoteWorker.id r') (RemoteWorker.threads w) = false).
    { cbn [r' RemoteWorker.id]. rewrite Hid. apply Hw. left. reflexivity. }
    destruct (registerRemoteThread_ok w r' (world s2) Hwk)
      as (c' & x3 & Hreg2 & (Hids3 & Hnw3)).
    set (w1 := RemoteWorker.mk (RemoteWorker.id w) (RemoteWorker.worker w)
                 (set (RemoteWorker.id r') c' (RemoteWorker.threads w))
                 (RemoteWorker.listeners w)) in *.
    set (s3 := with_world x3 s2).
    assert (Hrs3 : remotes s3 = set k r' (remotes s)) by reflexivity.
    assert (Hkeys3 : keys (remotes s3) = keys (remotes s)).
    { rewrite Hrs3. apply keys_set_present. rewrite Hget. discriminate. }
    destruct (IH w1 s3)
      as (w' & s' & Hrun & Hid' & Hwk' & Hth' & Hks' & Hwh' & (Hids' & Hnw') & Hok').
    + exact Hnd'.
    + intros k' Hin. assert (Hne : k' <> k) by (intros ->; contradiction).
      destruct (Hrem k' (or_intror Hin)) as (r0 & Hget0 & Hid0 & Hfresh0).
      exists r0. rewrite Hrs3, (get_set_other _ _ _ _ Hne). auto.
    + intros k' Hin. assert (Hne : k' <> k) by (intros ->; contradiction).
      cbn [w1 RemoteWorker.threads r' RemoteWorker.id]. rewrite Hid.
      unfold has. rewrite (get_set_other _ _ _ _ Hne).
      apply (Hw k'). right. exact Hin.
    + intros k0 r0 Hin. rewrite Hrs3 in Hin.
      destruct (in_set _ _ _ _ _ Hin) as [[-> ->]|Hin0]; [|apply Hok; exact Hin0].
      destruct (Hok k r (get_in _ _ _ Hget)) as (_ & Hmk & Hthr).
      split; [exact Hid|]. split; [exact Hmk|].
      intros k' Hin'. cbn [r' RemoteWorker.threads] in Hin'.
      rewrite keys_set_fresh in Hin'
        by (apply get_none_not_in, has_false_not_in; exact Hfresh).
      apply in_app_or in Hin'. destruct Hin' as [Hin'|[<-|[]]];
        [apply Hthr; exact Hin' | exact Hmint].
    + exact Hmint.
    + exists w', s'.
      split.
      { cbn [cross_wire].
        rewrite (bind_ret _ _ s s (remotes s)) by reflexivity.
        rewrite Hget.
        rewrite (bind_ret _ _ s s1 r') by (apply call_ret; exact Hreg1).
        rewrite (bind_ret _ _ s1 s2 tt) by reflexivity.
        rewrite (bind_ret _ _ s2 s3 w1) by (apply call_ret; exact Hreg2).
        exact Hrun. }
      split; [rewrite Hid'; reflexivity|].
      split; [rewrite Hwk'; reflexivity|].
      split.
      { rewrite Hth'. cbn [w1 RemoteWorker.threads r' RemoteWorker.id]. rewrite Hid.
        rewrite keys_set_fresh
          by (apply get_none_not_in, has_false_not_in, Hw; left; reflexivity).
        rewrite <- app_assoc. reflexivity. }
      split; [rewrite Hks'; exact Hkeys3|].
      split; [rewrite Hwh'; reflexivity|].
      split; [|exact Hok'].
      split; [rewrite Hids'; cbn; rewrite Hids3; cbn; exact Hids1
             | rewrite Hnw'; cbn; rewrite Hnw3; cbn; exact Hnw1].
Qed.

End CrossWire.

Section SpawnOne.
Import WorkerCluster.

Lemma create_ok (wh : RemoteWorker.Which) (x : RemoteWorker.World) :
  wh <> RemoteWorker.NotAWorker ->
  exists x',
    RemoteWorker.create wh x =
    (Ret (RemoteWorker.mk (fst (Ids.getUniqueId (RemoteWorker.ids x)))
            (Some (RemoteWorker.next_worker x)) [] []), x')
    /\ RemoteWorker.ids x' = snd (Ids.getUniqueId (RemoteWorker.ids x))
    /\ RemoteWorker.next_worker x' = S (RemoteWorker.next_worker x).
Proof.
  intros Hw. unfold RemoteWorker.create.
  destruct wh; try contradiction;
    (eexists; split; [reflexivity|]; cbn; split; reflexivity).
Qed.

Lemma initializeWorker_ok (w : RemoteWorker.t) (s : t) :
  exists s',
    initializeWorker w s =
    (Ret (RemoteWorker.mk (RemoteWorker.id w) (RemoteWorker.worker w)
            (RemoteWorker.threads w)
            (set (fst (Ids.getUniqueId (RemoteWorker.ids (world s))))
               RemoteWorker.ForwardToCluster (RemoteWorker.listeners w))), s')
    /\ ra s' = ra s
    /\ which s' = which s
    /\ RemoteWorker.ids (world s') =
       snd (Ids.getUniqueId (RemoteWorker.ids (world s)))
    /\ RemoteWorker.next_worker (world s') = RemoteWorker.next_worker (world s).
Proof.
  unfold initializeWorker, call, RemoteWorker.addMessageListener,
    RemoteWorker.postMessage.
  unfold bind, gets, RemoteWorker.getUniqueId, ret, RemoteWorker.emit, modify.
  cbn.
  destruct (RemoteWorker.worker w); destruct (truthy (httpAuthorization s)); cbn;
    destruct (truthy (httpAccessToken s)); cbn;
    (eexists; split; [reflexivity|]; repeat split).
Qed.

Lemma spawn_one_ok (s : t) :
  well_formed s ->
  exists s',
    spawn_one s = (Ret tt, s')
    /\ well_formed s'
    /\ keys (remotes s') =
       (keys (remotes s) ++
        [fst (Ids.getUniqueId (RemoteWorker.ids (world s)))])%list
    /\ spawned s' = S (spawned s).
Proof.
  intros (Hwh & Hnd & Hok).
  unfold counter in Hok.
  set (g := RemoteWorker.ids (world s)) in *.
  set (u := uniqueId g) in *.
  set (i := fst (Ids.getUniqueId g)).
  assert (Hi : i = mint (u + 1) (clock g (u + 1))) by reflexivity.
  destruct (create_ok (which s) (world s) Hwh) as (xA & HrunA & HidsA & HnwA).
  fold g i in HrunA, HidsA.
  set (w0 := RemoteWorker.mk i (Some (RemoteWorker.next_worker (world s))) [] [])
    in *.
  set (sA := with_world xA s).
  destruct (initializeWorker_ok w0 sA)
    as (sB & HrunB & HraB & HwhB & HidsB & HnwB).
  cbn [w0 RemoteWorker.id RemoteWorker.worker RemoteWorker.threads
       RemoteWorker.listeners] in HrunB.
  set (w1 := RemoteWorker.mk i (Some (RemoteWorker.next_worker (world s))) []
               (set (fst (Ids.getUniqueId (RemoteWorker.ids (world sA))))
                  RemoteWorker.ForwardToCluster [])) in *.
  assert (HrsB : remotes sB = remotes s)
    by (unfold remotes; rewrite HraB; reflexivity).
  assert (HuB : uniqueId (RemoteWorker.ids (world sB)) = (u + 2)%N).
  { rewrite HidsB. cbn [sA world with_world]. rewrite HidsA. cbn. fold u. lia. }
  assert (Hfresh : forall k, minted_upto u k -> i <> k).
  { intros k Hk. apply getUniqueId_fresh. exact Hk. }
  assert (Hmi : minted_upto (u + 2) i).
  { exists (u + 1)%N, (clock g (u + 1)). split; [lia | exact Hi]. }
  destruct (cross_wire_ok (u + 2) (keys (remotes sB)) w1 sB)
    as (w' & sC & HrunC & Hid' & Hwk' & Hth' & Hks' & Hwh' & (Hids' & Hnw') & Hok').
  - rewrite HrsB. exact Hnd.
  - intros k Hin. rewrite HrsB in *.
    destruct (in_keys_get _ _ Hin) as (r & Hget). exists r.
    destruct (Hok k r (get_in _ _ _ Hget)) as (Hrid & _ & Hthr).
    split; [exact Hget|]. split; [exact Hrid|].
    apply has_false_not_in. intros Hin'.
    apply (Hfresh i); [apply Hthr; exact Hin' | reflexivity].
  - intros k _. reflexivity.
  - intros k r Hin. rewrite HrsB in Hin.
    destruct (Hok k r Hin) as (Hrid & Hmk & Hthr).
    split; [exact Hrid|].
    split; [apply (minted_upto_mono u); [lia | exact Hmk]|].
    intros k' Hin'. apply (minted_upto_mono u); [lia | apply Hthr; exact Hin'].
  - exact Hmi.
  - cbn [w1 RemoteWorker.id RemoteWorker.worker RemoteWorker.threads]
      in Hid', Hwk', Hth'. cbn [app] in Hth'.
    rewrite HrsB in Hks', Hth'.
    assert (Hnone : get i (remotes sC) = None).
    { apply get_none_not_in. rewrite Hks'. intros Hin.
      destruct (in_keys_get _ _ Hin) as (r & Hget).
      destruct (Hok i r (get_in _ _ _ Hget)) as (_ & Hmk & _).
      apply (Hfresh i Hmk). reflexivity. }
    set (s' := with_remotes (set (RemoteWorker.id w') w' (remotes sC)) sC).
    exists s'.
    split.
    { unfold spawn_one.
      rewrite (bind_ret _ _ s s (which s)) by reflexivity.
      rewrite (bind_ret _ _ s sA w0) by (apply call_ret; exact HrunA).
      rewrite (bind_ret _ _ _ _ _ HrunB).
      unfold registerRemoteThread.
      rewrite (bind_ret _ _ sB sB (keys (remotes sB))) by reflexivity.
      rewrite (bind_ret _ _ _ _ _ HrunC).
      reflexivity. }
    assert (Hrs' : remotes s' = set i w' (remotes sC)).
    { unfold s'. rewrite Hid'. reflexivity. }
    assert (Hkeys' : keys (set i w' (remotes sC)) = (keys (remotes s) ++ [i])%list).
    { rewrite keys_set_fresh by exact Hnone. rewrite Hks'. reflexivity. }
    assert (Hworld' : world s' = world sC) by reflexivity.
    split; [|split].
    + split; [|split].
      * change (which s') with (which sC). rewrite Hwh', HwhB. exact Hwh.
      * rewrite Hrs', Hkeys'.
        apply NoDup_app; [exact Hnd | repeat constructor; intros [] |].
        intros k Hin [Hk|[]].
        destruct (in_keys_get _ _ Hin) as (r & Hget).
        destruct (Hok k r (get_in _ _ _ Hget)) as (_ & Hmk & _).
        apply (Hfresh k Hmk). exact Hk.
      * assert (Hu' : counter s' = (u + 2)%N).
        { unfold counter. rewrite Hworld', Hids'. exact HuB. }
        rewrite Hu', Hrs'. intros k r Hin.
        destruct (in_set _ _ _ _ _ Hin) as [[-> ->]|Hin0];
          [|apply Hok'; exact Hin0].
        split; [exact Hid'|]. split; [exact Hmi|].
        intros k' Hin'. rewrite Hth' in Hin'.
        destruct (in_keys_get _ _ Hin') as (r & Hget).
        destruct (Hok k' r (get_in _ _ _ Hget)) as (_ & Hmk & _).
        apply (minted_upto_mono u); [lia | exact Hmk].
    + rewrite Hrs'. exact Hkeys'.
    + unfold spawned. rewrite Hworld', Hnw', HnwB. cbn [sA world with_world].
      exact HnwA.
Qed.

End SpawnOne.

Lemma spawn_ok (n : Z) (s : WorkerCluster.t) :
  well_formed s ->
  exists s' fresh,
    WorkerCluster.spawn n s = (Ret tt, s')
    /\ well_formed s'
    /\ keys (WorkerCluster.remotes s') =
       (keys (WorkerCluster.remotes s) ++ fresh)%list
    /\ length fresh = Z.to_nat (Z.max 1 n)
    /\ spawned s' = spawned s + Z.to_nat (Z.max 1 n).
Proof.
  revert n s.
  apply (WorkerCluster.spawn_elim
           (fun n s res =>
              well_formed s ->
              exists s' fresh,
                res = (Ret tt, s')
                /\ well_formed s'
                /\ keys (WorkerCluster.remotes s') =
                   (keys (WorkerCluster.remotes s) ++ fresh)%list
                /\ length fresh = Z.to_nat (Z.max 1 n)
                /\ spawned s' = spawned s + Z.to_nat (Z.max 1 n))).
  - intros n s e s1 Hone Hwf.
    destruct (spawn_one_ok s Hwf) as (s' & Hrun & _). congruence.
  - intros n s s1 Hone Hwf.
    destruct (spawn_one_ok s Hwf) as (s' & Hrun & _). congruence.
  - intros n Hlt s a s1 IH _ Hone Hwf.
    destruct (spawn_one_ok s Hwf) as (s' & Hrun & Hwf' & Hkeys & Hnw).
    rewrite Hrun in Hone. injection Hone as _ <-.
    destruct (IH Hwf') as (s2 & fresh & Hrun2 & Hwf2 & Hkeys2 & Hlen2 & Hnw2).
    exists s2,
      (fst (Ids.getUniqueId (RemoteWorker.ids (WorkerCluster.world s))) :: fresh).
    split; [exact Hrun2|]. split; [exact Hwf2|].
    split; [rewrite Hkeys2, Hkeys, <- app_assoc; reflexivity|].
    split; [simpl; rewrite Hlen2; lia|].
    rewrite Hnw2, Hnw. lia.
  - intros n Hge s a s1 _ Hone Hwf.
    destruct (spawn_one_ok s Hwf) as (s' & Hrun & Hwf' & Hkeys & Hnw).
    rewrite Hrun in Hone. injection Hone as _ <-.
    exists s', [fst (Ids.getUniqueId (RemoteWorker.ids (WorkerCluster.world s)))].
    split; [reflexivity|]. split; [exact Hwf'|].
    split; [exact Hkeys|].
    replace (Z.to_nat (Z.max 1 n)) with 1 by lia.
    split; [reflexivity|]. rewrite Hnw. lia.
Qed.

Lemma create_well_formed (wh : RemoteWorker.Which) (g : IdSource) :
  wh <> RemoteWorker.NotAWorker -> well_formed (WorkerCluster.create wh g).
Proof.
  intros H. split; [exact H|]. split; [constructor|]. intros k r [].
Qed.

(** A pool built with a worker count of [n] has max(1, n) units. *)
Corollary constructor_spawns (wh : RemoteWorker.Which) (n : Z) (g : IdSource) :
  wh <> RemoteWorker.NotAWorker ->
  exists s',
    WorkerCluster.constructor wh n g = (Ret tt, s')
    /\ length (keys (WorkerCluster.remotes s')) = Z.to_nat (Z.max 1 n)
    /\ spawned s' = Z.to_nat (Z.max 1 n).
Proof.
  intros Hwh.
  destruct (spawn_ok n _ (create_well_formed wh g Hwh))
    as (s' & fresh & Hrun & _ & Hkeys & Hlen & Hnw).
  exists s'. split; [exact Hrun|].
  split; [rewrite Hkeys; simpl; exact Hlen | exact Hnw].
Qed.

(** C10: [spawn(n)] of the controller returns, and it has spawned and
    registered max(1, n) new units: that many spawn handles were taken
    from the host, and that many new keys, all different and different
    from the old ones, were added behind the old keys of the sibling
    map.  With [n = 0] this is one unit.  The constructor, given
    something to spawn workers from and a worker count of [n], returns
    a controller with exactly max(1, n) units: one when the count is 0. *)
Theorem C10_spawn_registers_max_1_n_units (n : Z) :
  (forall s : WorkerCluster.t,
     well_formed s ->
     exists s' fresh,
       WorkerCluster.spawn n s = (Ret tt, s')
       /\ keys (WorkerCluster.remotes s') =
          (keys (WorkerCluster.remotes s) ++ fresh)%list
       /\ NoDup (keys (WorkerCluster.remotes s'))
       /\ length fresh = Z.to_nat (Z.max 1 n)
       /\ length (keys (WorkerCluster.remotes s')) =
          length (keys (WorkerCluster.remotes s)) + Z.to_nat (Z.max 1 n)
       /\ spawned s' = spawned s + Z.to_nat (Z.max 1 n)
       /\ well_formed s')
  /\ (forall (wh : RemoteWorker.Which) (g : IdSource),
        wh <> RemoteWorker.NotAWorker ->
        exists s' : WorkerCluster.t,
          WorkerCluster.constructor wh n g = (Ret tt, s')
          /\ NoDup (keys (WorkerCluster.remotes s'))
          /\ length (keys (WorkerCluster.remotes s')) = Z.to_nat (Z.max 1 n)
          /\ spawned s' = Z.to_nat (Z.max 1 n)
          /\ well_formed s').
Proof.
  split.
  - intros s Hwf.
    destruct (spawn_ok n s Hwf)
      as (s' & fresh & Hrun & Hwf' & Hkeys & Hlen & Hnw).
    exists s', fresh.
    split; [exact Hrun|]. split; [exact Hkeys|].
    split; [apply Hwf'|]. split; [exact Hlen|].
    split; [rewrite Hkeys, length_app, Hlen; reflexivity|].
    split; [exact Hnw | exact Hwf'].
  - intros wh g Hwh. unfold WorkerCluster.constructor.
    destruct (spawn_ok n _ (create_well_formed wh g Hwh))
      as (s' & fresh & Hrun & Hwf' & Hkeys & Hlen & Hnw).
    exists s'. split; [exact Hrun|].
    split; [apply Hwf'|].
    split; [rewrite Hkeys; cbn [WorkerCluster.create WorkerCluster.remotes
                                 WorkerCluster.ra RemoteAware.remotes
                                 RemoteAware.with_id RemoteAware.init keys map
                                 app]; exact Hlen|].
    split; [exact Hnw | exact Hwf'].
Qed.

Lemma C10_witness :
  (exists s' fresh,
     WorkerCluster.spawn 0
       (WorkerCluster.create RemoteWorker.WorkerClass
          (mkIdSource 0 Runs.still_clock)) = (Ret tt, s')
     /\ keys (WorkerCluster.remotes s') = fresh
     /\ length fresh = 1
     /\ spawned s' = 1)
  /\ exists s' : WorkerCluster.t,
       WorkerCluster.constructor RemoteWorker.WorkerClass 0
         (mkIdSource 0 Runs.still_clock) = (Ret tt, s')
       /\ length (keys (WorkerCluster.remotes s')) = 1
       /\ spawned s' = 1.
Proof.
  assert (Hwh : RemoteWorker.WorkerClass <> RemoteWorker.NotAWorker)
    by discriminate.
  assert (Hwf : well_formed (WorkerCluster.create RemoteWorker.WorkerClass
                               (mkIdSource 0 Runs.still_clock))).
  { apply create_well_formed. exact Hwh. }
  split.
  - destruct (proj1 (C10_spawn_registers_max_1_n_units 0) _ Hwf)
      as (s' & fresh & Hrun & Hkeys & _ & Hlen & _ & Hnw & _).
    exists s', fresh. repeat split; assumption.
  - destruct (proj2 (C10_spawn_registers_max_1_n_units 0)
                RemoteWorker.WorkerClass (mkIdSource 0 Runs.still_clock) Hwh)
      as (s' & Hrun & _ & Hlen & Hnw & _).
    exists s'. repeat split; assumption.
Defined.

(** * Further properties *)

(** ** More on tables *)
Section MoreTableFacts.
Context {A : Type}.

Lemma del_absent (k : string) (o : Obj A) : get k o = None -> del k o = o.
Proof.
  induction o as [|[k' v] o IH]; simpl; [reflexivity|].
  destruct (k =? k'); [discriminate|].
  intros H. rewrite IH by exact H. reflexivity.
Qed.

Lemma del_set_fresh (k : string) (v : A) (o : Obj A) :
  get k o = None -> del k (set k v o) = o.
Proof.
  induction o as [|[k' v'] o IH]; simpl.
  - rewrite String.eqb_refl. reflexivity.
  - destruct (k =? k') eqn:E; [discriminate|].
    intros H. simpl. rewrite E, IH by exact H. reflexivity.
Qed.

Lemma del_set_other (k k' : string) (v : A) (o : Obj A) :
  k <> k' -> get k' o = None -> del k (set k' v o) = set k' v (del k o).
Proof.
  intros Hne. induction o as [|[k0 v0] o IH]; simpl; intros Hnone.
  - destruct (k =? k') eqn:E; [apply String.eqb_eq in E; contradiction|].
    reflexivity.
  - destruct (k' =? k0) eqn:E0; [discriminate|].
    simpl. destruct (k =? k0) eqn:E1.
    + apply IH. exact Hnone.
    + simpl. rewrite E0, IH by exact Hnone. reflexivity.
Qed.

Lemma keys_del (k : string) (o : Obj A) :
  keys (del k o) = filter (fun k' => negb (k' =? k)) (keys o).
Proof.
  induction o as [|[k' v] o IH]; simpl; [reflexivity|].
  rewrite (String.eqb_sym k' k).
  destruct (k =? k'); simpl; rewrite IH; reflexivity.
Qed.

Lemma in_del (k k0 : string) (v : A) (o : Obj A) :
  In (k0, v) (del k o) -> In (k0, v) o.
Proof.
  induction o as [|[k' v'] o IH]; simpl; [tauto|].
  destruct (k =? k'); simpl; intros H.
  - right. apply IH. exact H.
  - destruct H as [H|H]; [left; exact H | right; apply IH; exact H].
Qed.

End MoreTableFacts.

(** ** The listener registry *)

(** X1: [removeMessageListener], for an id that is not a name every
    object inherits.  An id that is not registered gives [false] and
    the table as it was.  A registered id gives [true]; the id is gone,
    every other listener is kept under its id and in its place, and a
    later dispatch calls exactly those others, in order. *)
Theorem X1_removeMessageListener
  (idx : string) (ls : Obj ListenerAware.Listener) :
  inherited idx = false ->
  let (found, ls') := ListenerAware.removeMessageListener idx ls in
  found = has idx ls
  /\ (found = false -> ls' = ls)
  /\ get idx ls' = None
  /\ (forall k, k <> idx -> get k ls' = get k ls)
  /\ keys ls' = filter (fun k => negb (k =? idx)) (keys ls)
  /\ forall evt,
       (forall i f, In (i, f) ls -> f evt = None) ->
       ListenerAware.executeMessageListeners evt ls' =
       (map (fun i => ListenerAware.mkCall i evt)
          (filter (fun k => negb (k =? idx)) (keys ls)), None).
Proof.
  intros _. unfold ListenerAware.removeMessageListener, has.
  destruct (get idx ls) as [fn|] eqn:Hget.
  - split; [reflexivity|]. split; [discriminate|].
    split; [apply get_del_same|].
    split; [intros k Hk; apply get_del_other; exact Hk|].
    split; [apply keys_del|].
    intros evt Hall. rewrite <- keys_del. apply dispatch_all_return.
    intros i f Hin. apply (Hall i f). eapply in_del. exact Hin.
  - split; [reflexivity|]. split; [reflexivity|].
    split; [exact Hget|]. split; [reflexivity|].
    assert (Hk : keys ls = filter (fun k => negb (k =? idx)) (keys ls)).
    { rewrite <- keys_del, del_absent by exact Hget. reflexivity. }
    split; [exact Hk|].
    intros evt Hall. rewrite <- Hk. apply dispatch_all_return. exact Hall.
Qed.

Lemma X1_witness :
  let quiet : ListenerAware.Listener := fun _ => None in
  let evt := mkEvent (VStr "ping") [] true in
  ListenerAware.executeMessageListeners evt
    (snd (ListenerAware.removeMessageListener "2.t"
            [("1.t", quiet); ("2.t", quiet); ("3.t", quiet)])) =
  ([ListenerAware.mkCall "1.t" evt; ListenerAware.mkCall "3.t" evt], None).
Proof.
  intros quiet evt.
  pose proof (X1_removeMessageListener "2.t"
                [("1.t", quiet); ("2.t", quiet); ("3.t", quiet)] eq_refl) as H.
  destruct (ListenerAware.removeMessageListener "2.t" _) as [found ls'].
  destruct H as (_ & _ & _ & _ & _ & H).
  apply (H evt). intros i f Hin. simpl in Hin.
  destruct Hin as [Hin|[Hin|[Hin|[]]]]; inversion Hin; reflexivity.
Defined.

(** X2: [addMessageListener] returns a new id; the listener is called
    last by a dispatch, after the listeners registered before it; and
    removing the returned id gives back the table as it was. *)
Theorem X2_addMessageListener
  (fn : ListenerAware.Listener) (g : IdSource)
  (ls : Obj ListenerAware.Listener) :
  (forall k, In k (keys ls) -> minted_upto (uniqueId g) k) ->
  let '(idx, g', ls') := ListenerAware.addMessageListener fn g ls in
  get idx ls = None
  /\ get idx ls' = Some fn
  /\ keys ls' = (keys ls ++ [idx])%list
  /\ uniqueId g' = (uniqueId g + 1)%N
  /\ ListenerAware.removeMessageListener idx ls' = (true, ls)
  /\ forall evt,
       (forall i f, In (i, f) ls -> f evt = None) ->
       ListenerAware.executeMessageListeners evt ls' =
       let (calls, r) := ListenerAware.executeMessageListeners evt [(idx, fn)] in
       ((map (fun i => ListenerAware.mkCall i evt) (keys ls) ++ calls)%list, r).
Proof.
  intros Hold. unfold ListenerAware.addMessageListener.
  pose proof (getUniqueId_fresh g) as Hfresh.
  destruct (Ids.getUniqueId g) as [idx g'] eqn:Hid.
  assert (Hg' : uniqueId g' = (uniqueId g + 1)%N).
  { rewrite getUniqueId_mint in Hid. injection Hid as _ <-. reflexivity. }
  cbn [fst] in Hfresh.
  assert (Hnone : get idx ls = None).
  { apply get_none_not_in. intros Hin.
    apply (Hfresh idx (Hold idx Hin)). reflexivity. }
  split; [exact Hnone|]. split; [apply get_set_same|].
  split; [apply keys_set_fresh; exact Hnone|]. split; [exact Hg'|].
  split.
  { unfold ListenerAware.removeMessageListener, has.
    rewrite get_set_same, del_set_fresh by exact Hnone. reflexivity. }
  intros evt Hall. clear - Hall Hnone.
  induction ls as [|[i f] ls IH]; simpl.
  - destruct (fn evt); reflexivity.
  - simpl in Hnone. destruct (idx =? i) eqn:E; [discriminate|].
    simpl. rewrite (Hall i f) by (left; reflexivity).
    rewrite IH; [| exact Hnone
                 | intros i' f' Hin; apply (Hall i' f'); right; exact Hin].
    simpl. destruct (fn evt); reflexivity.
Qed.

Lemma X2_witness :
  let quiet : ListenerAware.Listener := fun _ => None in
  ListenerAware.removeMessageListener "6.1700000000000.12.5.0.25"
    (snd (ListenerAware.addMessageListener quiet
            (mkIdSource 5 Runs.still_clock)
            [("2.1700000000000.12.5.0.25", quiet)]))
  = (true, [("2.1700000000000.12.5.0.25", quiet)]).
Proof.
  intros quiet.
  assert (Hold : forall k,
             In k (keys [("2.1700000000000.12.5.0.25", quiet)]) ->
             minted_upto (uniqueId (mkIdSource 5 Runs.still_clock)) k).
  { intros k [<-|[]]. exists 2%N, "1700000000000.12.5.0.25".
    split; [vm_compute; discriminate | reflexivity]. }
  pose proof (X2_addMessageListener quiet (mkIdSource 5 Runs.still_clock)
                [("2.1700000000000.12.5.0.25", quiet)] Hold) as H.
  cbv beta iota delta [ListenerAware.addMessageListener] in *.
  cbn in H |- *.
  destruct H as (_ & _ & _ & _ & H & _). exact H.
Defined.

(** ** Pending callbacks, from registration to result *)
Lemma settle_at_app (ps l : list RemoteAware.PromiseState) (n : nat)
  (o : RemoteAware.PromiseState) :
  RemoteAware.settle_at (length ps + n) o (ps ++ l)%list
  = (ps ++ RemoteAware.settle_at n o l)%list.
Proof.
  induction ps as [|p ps IH]; simpl; [reflexivity|].
  rewrite IH. destruct p; reflexivity.
Qed.

(** How a result message settles: by its error field when that is set,
    by its data field otherwise. *)
Lemma receive_registered {R : Type} (s : RemoteAware.t R)
  (payload : Obj JsVal) (ps : list Port) (tr : bool) (cid : string) (p : nat) :
  prop payload "returnId" = VStr cid ->
  get cid (RemoteAware.callbacks s) = Some p ->
  RemoteAware.receiveCommandResult (mkEvent (VObj payload) ps tr) s =
  (Ret tt,
   RemoteAware.with_promises
     (RemoteAware.settle_at p
        (if truthy (prop payload "error")
         then RemoteAware.Rejected (prop payload "error")
         else RemoteAware.Resolved (prop payload "data"))
        (RemoteAware.promises s))
     (RemoteAware.with_callbacks (del cid (RemoteAware.callbacks s)) s)).
Proof.
  intros Hid Hget.
  rewrite (receiveCommandResult_known s payload ps tr p)
    by (rewrite Hid; exact Hget).
  rewrite Hid. cbn [to_string].
  destruct (truthy (prop payload "error")); reflexivity.
Qed.

(** X3: a callback registered under a new correlation id and the result
    message that carries this id: the promise created by the
    registration, and no other, is settled (rejected with the error
    field when it is set, resolved with the data field otherwise), and
    the callback table is again what it was before the registration. *)
Theorem X3_callback_round_trip
  {R : Type} (s : RemoteAware.t R) (cid : string) (payload : Obj JsVal)
  (ps : list Port) (tr : bool) :
  get cid (RemoteAware.callbacks s) = None ->
  prop payload "returnId" = VStr cid ->
  let (promise, s1) := RemoteAware.registerCallbackId cid s in
  promise = length (RemoteAware.promises s)
  /\ get cid (RemoteAware.callbacks s1) = Some promise
  /\ RemoteAware.promises s1 =
     (RemoteAware.promises s ++ [RemoteAware.Pending])%list
  /\ RemoteAware.receiveCommandResult (mkEvent (VObj payload) ps tr) s1 =
     (Ret tt,
      RemoteAware.with_promises
        (RemoteAware.promises s ++
         [if truthy (prop payload "error")
          then RemoteAware.Rejected (prop payload "error")
          else RemoteAware.Resolved (prop payload "data")])%list s).
Proof.
  intros Hnone Hid. unfold RemoteAware.registerCallbackId.
  split; [reflexivity|].
  split; [destruct s; cbn; apply get_set_same|].
  split; [destruct s; reflexivity|].
  rewrite (receive_registered _ payload ps tr cid
             (length (RemoteAware.promises s)) Hid)
    by (destruct s; cbn; apply get_set_same).
  destruct s as [i rs cbs rk pr]. cbn in *.
  unfold RemoteAware.with_promises, RemoteAware.with_callbacks. cbn.
  rewrite settle_at_last, del_set_fresh by exact Hnone. reflexivity.
Qed.

Lemma X3_witness :
  let s : RemoteAware.t (option Port) :=
    RemoteAware.mk (VStr "1.t") [] [] 0 [] in
  RemoteAware.receiveCommandResult
    (mkEvent (VObj [("data", VNum 42); ("returnId", VStr "7.t")]) [] true)
    (snd (RemoteAware.registerCallbackId "7.t" s))
  = (Ret tt, RemoteAware.mk (VStr "1.t") [] [] 0 [RemoteAware.Resolved (VNum 42)]).
Proof.
  intros s.
  pose proof (X3_callback_round_trip s "7.t"
                [("data", VNum 42); ("returnId", VStr "7.t")] [] true
                eq_refl eq_refl) as H.
  destruct (RemoteAware.registerCallbackId "7.t" s) as [p s1].
  destruct H as (_ & _ & _ & H). exact H.
Defined.

(** X4: two commands outstanding at once.  Their results may arrive in
    either order: each settles the promise of its own correlation id,
    and the state after both is the same. *)
Theorem X4_results_in_either_order
  {R : Type} (s : RemoteAware.t R) (cid1 cid2 : string)
  (reply1 reply2 : Obj JsVal) :
  cid1 <> cid2 ->
  get cid1 (RemoteAware.callbacks s) = None ->
  get cid2 (RemoteAware.callbacks s) = None ->
  prop reply1 "returnId" = VStr cid1 ->
  prop reply2 "returnId" = VStr cid2 ->
  let s2 := snd (RemoteAware.registerCallbackId cid2
                   (snd (RemoteAware.registerCallbackId cid1 s))) in
  let outcome (reply : Obj JsVal) :=
    if truthy (prop reply "error")
    then RemoteAware.Rejected (prop reply "error")
    else RemoteAware.Resolved (prop reply "data") in
  let final :=
    RemoteAware.with_promises
      (RemoteAware.promises s ++ [outcome reply1; outcome reply2])%list s in
  bind (RemoteAware.receiveCommandResult (Runs.delivered (VObj reply1)))
       (fun _ => RemoteAware.receiveCommandResult (Runs.delivered (VObj reply2)))
       s2 = (Ret tt, final)
  /\ bind (RemoteAware.receiveCommandResult (Runs.delivered (VObj reply2)))
          (fun _ => RemoteAware.receiveCommandResult (Runs.delivered (VObj reply1)))
          s2 = (Ret tt, final).
Proof.
  intros Hne Hn1 Hn2 Hid1 Hid2 s2 outcome final.
  destruct s as [i rs cbs rk pr].
  assert (Hne' : cid2 <> cid1) by congruence.
  unfold s2, final, outcome, Runs.delivered, RemoteAware.registerCallbackId.
  cbn in *.
  unfold RemoteAware.with_promises, RemoteAware.with_callbacks. cbn.
  rewrite length_app. cbn [length].
  set (p1 := length pr). set (cbs2 := set cid2 (p1 + 1) (set cid1 p1 cbs)).
  assert (Hg1 : get cid1 cbs2 = Some p1).
  { unfold cbs2. rewrite get_set_other by exact Hne. apply get_set_same. }
  assert (Hg2 : get cid2 cbs2 = Some (p1 + 1)) by apply get_set_same.
  assert (Hd1 : del cid1 cbs2 = set cid2 (p1 + 1) cbs).
  { unfold cbs2. rewrite del_set_other;
      [rewrite del_set_fresh by exact Hn1; reflexivity | exact Hne |].
    rewrite get_set_other by exact Hne'. exact Hn2. }
  assert (Hd2 : del cid2 cbs2 = set cid1 p1 cbs).
  { unfold cbs2. apply del_set_fresh.
    rewrite get_set_other by exact Hne'. exact Hn2. }
  assert (Hs1 : forall o l, RemoteAware.settle_at p1 o (pr ++ RemoteAware.Pending :: l)%list
                            = (pr ++ o :: l)%list).
  { intros o l. replace p1 with (length pr + 0) by (unfold p1; lia).
    rewrite settle_at_app. reflexivity. }
  assert (Hs2 : forall o x, RemoteAware.settle_at (p1 + 1) o (pr ++ [x; RemoteAware.Pending])%list
                            = (pr ++ [x; o])%list).
  { intros o x. unfold p1. rewrite settle_at_app. destruct x; reflexivity. }
  split.
  - unfold bind.
    rewrite (receive_registered _ reply1 [] true cid1 p1 Hid1) by exact Hg1.
    cbv beta iota.
    rewrite (receive_registered _ reply2 [] true cid2 (p1 + 1) Hid2)
      by (cbn [RemoteAware.callbacks RemoteAware.with_promises
               RemoteAware.with_callbacks];
          rewrite Hd1; apply get_set_same).
    unfold RemoteAware.with_promises, RemoteAware.with_callbacks.
    cbn [RemoteAware.id RemoteAware.remotes RemoteAware.callbacks
         RemoteAware.remoteKey RemoteAware.promises].
    rewrite Hd1, del_set_fresh by exact Hn2.
    rewrite <- app_assoc. cbn [app]. rewrite Hs1, Hs2. reflexivity.
  - unfold bind.
    rewrite (receive_registered _ reply2 [] true cid2 (p1 + 1) Hid2) by exact Hg2.
    cbv beta iota.
    rewrite (receive_registered _ reply1 [] true cid1 p1 Hid1)
      by (cbn [RemoteAware.callbacks RemoteAware.with_promises
               RemoteAware.with_callbacks];
          rewrite Hd2; apply get_set_same).
    unfold RemoteAware.with_promises, RemoteAware.with_callbacks.
    cbn [RemoteAware.id RemoteAware.remotes RemoteAware.callbacks
         RemoteAware.remoteKey RemoteAware.promises].
    rewrite Hd2, del_set_fresh by exact Hn1.
    rewrite <- app_assoc. cbn [app]. rewrite Hs2, Hs1. reflexivity.
Qed.

Lemma X4_witness :
  let s : RemoteAware.t (option Port) :=
    RemoteAware.mk (VStr "1.t") [] [] 0 [] in
  let s2 := snd (RemoteAware.registerCallbackId "8.t"
                   (snd (RemoteAware.registerCallbackId "7.t" s))) in
  let reply1 := [("data", VNum 1); ("returnId", VStr "7.t")] in
  let reply2 := [("error", VStr "no"); ("returnId", VStr "8.t")] in
  bind (RemoteAware.receiveCommandResult (Runs.delivered (VObj reply2)))
       (fun _ => RemoteAware.receiveCommandResult (Runs.delivered (VObj reply1)))
       s2
  = (Ret tt,
     RemoteAware.mk (VStr "1.t") [] [] 0
       [RemoteAware.Resolved (VNum 1); RemoteAware.Rejected (VStr "no")]).
Proof.
  intros s s2 reply1 reply2.
  assert (Hne : "7.t" <> "8.t") by discriminate.
  destruct (X4_results_in_either_order s "7.t" "8.t" reply1 reply2
              Hne eq_refl eq_refl eq_refl eq_refl) as [_ H].
  exact H.
Defined.

(** ** Commands a worker sends *)

(** A message for a sibling that has a channel goes out on that channel,
    stamped with the sender's id and copied. *)
Lemma sendMessageToRemote_sibling (fuel : nat) (w : ThreadPool.t) (k : string)
  (port : Port) (payload : Obj JsVal) (transferable : JsVal) :
  k <> RemoteAware.MASTER_THREAD ->
  strict_eq (VStr k) (RemoteAware.id (ThreadPool.ra w)) = false ->
  get k (RemoteAware.remotes (ThreadPool.ra w)) = Some (Some port) ->
  ThreadPool.sendMessageToRemote fuel (VStr k) payload transferable w =
  (Ret true,
   ThreadPool.with_effects
     (ThreadPool.effects w ++
      [ThreadPool.PostToPort port
         (VObj (json_clone
                  (set "thread" (RemoteAware.id (ThreadPool.ra w)) payload)))
         transferable])%list w).
Proof.
  intros Hm Hself Hget.
  unfold ThreadPool.sendMessageToRemote, ThreadPool.sendMessageToRemote_with.
  unfold bind at 1. unfold gets at 1.
  assert (Hmaster : RemoteAware.isMasterThread (VStr k) = false).
  { unfold RemoteAware.isMasterThread. cbn. apply String.eqb_neq. exact Hm. }
  rewrite Hmaster. unfold RemoteAware.isThisThread.
  rewrite Hself, hasRemotes_always. cbn [orb negb].
  unfold ThreadPool.super_sendMessageToRemote.
  unfold bind at 1. unfold gets at 1. cbn [to_string].
  rewrite Hget. rewrite set_set_same.
  reflexivity.
Qed.

(** X5: [sendCommand] without an explicit target, in a worker whose
    round-robin cursor points at a sibling with a channel.  The request
    is posted once, on that sibling's channel; it names the command,
    carries the arguments and the new correlation id, and its thread
    field is the sender's own id.  The promise returned is pending, its
    callback is registered under the correlation id, and the cursor has
    moved on. *)
Theorem X5_sendCommand_posts_to_next_sibling
  (fuel : nat) (w : ThreadPool.t) (name : string) (args : list JsVal)
  (thread : JsVal) (k : string) (port : Port) :
  has name (ThreadPool.commands w) = true ->
  truthy thread = false ->
  nth_error (keys (RemoteAware.remotes (ThreadPool.ra w)))
    (RemoteAware.remoteKey (ThreadPool.ra w)) = Some k ->
  get k (RemoteAware.remotes (ThreadPool.ra w)) = Some (Some port) ->
  k <> RemoteAware.MASTER_THREAD ->
  strict_eq (VStr k) (RemoteAware.id (ThreadPool.ra w)) = false ->
  let callbackId := fst (Ids.getUniqueId (ThreadPool.ids w)) in
  let promise := length (RemoteAware.promises (ThreadPool.ra w)) in
  let request :=
    VObj (json_clone
            [("cmd", VStr name); ("args", VArr args);
             ("thread", RemoteAware.id (ThreadPool.ra w));
             ("callbackId", VStr callbackId)]) in
  exists w' : ThreadPool.t,
    ThreadPool.sendCommand fuel name args thread w = (Ret promise, w')
    /\ ThreadPool.effects w' =
       (ThreadPool.effects w ++ [ThreadPool.PostToPort port request VUndef])%list
    /\ RemoteAware.promises (ThreadPool.ra w') =
       (RemoteAware.promises (ThreadPool.ra w) ++ [RemoteAware.Pending])%list
    /\ RemoteAware.callbacks (ThreadPool.ra w') =
       set callbackId promise (RemoteAware.callbacks (ThreadPool.ra w))
    /\ RemoteAware.remoteKey (ThreadPool.ra w') =
       RemoteAware.next_cursor (keys (RemoteAware.remotes (ThreadPool.ra w)))
         (RemoteAware.remoteKey (ThreadPool.ra w))
    /\ RemoteAware.remotes (ThreadPool.ra w') =
       RemoteAware.remotes (ThreadPool.ra w).
Proof.
  intros Hcmd Ht Hnth Hget Hm Hself.
  enter_sendCommand w callbackId.
  cbn [RemoteAware.remoteKey RemoteAware.callbacks] in *.
  rewrite Hcmd. cbn. rewrite hasRemotes_always, Ht. cbn.
  unfold RemoteAware.key_at. unfold keys in Hnth. rewrite Hnth.
  match goal with
  | |- context [bind (ThreadPool.sendMessageToRemote _ _ ?pl _) _ ?st] =>
      rewrite (bind_ret _ _ st _ true
                 (sendMessageToRemote_sibling fuel st k port pl VUndef
                    Hm Hself Hget))
  end.
  cbn.
  eexists. split; [reflexivity|]. cbn.
  repeat split; reflexivity.
Qed.

Lemma X5_witness :
  let w := Runs.worker_with "1.t" [("2.t", Some (mkPort 0 Port2))] Runs.echo in
  exists w' : ThreadPool.t,
    ThreadPool.sendCommand 1 "echo" [VNum 42] VNull w = (Ret 0, w')
    /\ ThreadPool.effects w' =
       [ThreadPool.PostToPort (mkPort 0 Port2)
          (VObj [("cmd", VStr "echo"); ("args", VArr [VNum 42]);
                 ("thread", VStr "1.t");
                 ("callbackId", VStr "1.1700000000000.12.5.0.25")])
          VUndef].
Proof.
  intros w.
  assert (Hm : "2.t" <> RemoteAware.MASTER_THREAD) by discriminate.
  destruct (X5_sendCommand_posts_to_next_sibling 1 w "echo" [VNum 42] VNull
              "2.t" (mkPort 0 Port2) eq_refl eq_refl eq_refl eq_refl Hm eq_refl)
    as (w' & Hrun & Heff & _).
  exists w'. split; [exact Hrun | exact Heff].
Defined.

(** X6: [sendCommand] with an explicit target that is not a key of the
    sibling map, nor a name every object inherits.  The promise is
    rejected with Invalid Thread; nothing is posted, no handler runs,
    and the round-robin cursor stays where it was. *)
Theorem X6_sendCommand_refuses_unknown_target
  (fuel : nat) (w : ThreadPool.t) (name : string) (args : list JsVal)
  (thread : JsVal) :
  has name (ThreadPool.commands w) = true ->
  truthy thread = true ->
  inherited (to_string thread) = false ->
  has (to_string thread) (RemoteAware.remotes (ThreadPool.ra w)) = false ->
  let promise := length (RemoteAware.promises (ThreadPool.ra w)) in
  exists w' : ThreadPool.t,
    ThreadPool.sendCommand fuel name args thread w = (Ret promise, w')
    /\ RemoteAware.promises (ThreadPool.ra w') =
       (RemoteAware.promises (ThreadPool.ra w) ++
        [RemoteAware.Rejected (VError (Error "Invalid Thread"))])%list
    /\ ThreadPool.effects w' = ThreadPool.effects w
    /\ RemoteAware.remoteKey (ThreadPool.ra w') =
       RemoteAware.remoteKey (ThreadPool.ra w)
    /\ RemoteAware.remotes (ThreadPool.ra w') =
       RemoteAware.remotes (ThreadPool.ra w).
Proof.
  intros Hcmd Ht _ Hunknown.
  enter_sendCommand w callbackId.
  rewrite Hcmd. cbn. rewrite hasRemotes_always, Ht. cbn.
  rewrite Hunknown. cbn.
  eexists. split; [reflexivity|]. cbn.
  rewrite settle_at_last. repeat split; reflexivity.
Qed.

Lemma X6_witness :
  let w := Runs.worker_with "1.t" [("2.t", Some (mkPort 0 Port2))] Runs.echo in
  exists w' : ThreadPool.t,
    ThreadPool.sendCommand 1 "echo" [VNum 42] (VStr "9.t") w = (Ret 0, w')
    /\ RemoteAware.promises (ThreadPool.ra w') =
       [RemoteAware.Rejected (VError (Error "Invalid Thread"))]
    /\ ThreadPool.effects w' = [].
Proof.
  intros w.
  destruct (X6_sendCommand_refuses_unknown_target 1 w "echo" [VNum 42]
              (VStr "9.t") eq_refl eq_refl eq_refl eq_refl)
    as (w' & Hrun & Hp & He & _).
  exists w'. split; [exact Hrun|]. split; [exact Hp | exact He].
Defined.

(** ** Commands a worker executes *)
Lemma json_clone_cons (k : string) (x : JsVal) (o : Obj JsVal) :
  json_clone ((k, x) :: o) =
  match json_value x with
  | Some y => (k, y) :: json_clone o
  | None => json_clone o
  end.
Proof. unfold json_clone. cbn. destruct (json_value x); reflexivity. Qed.

(** A string field survives the copy. *)
Lemma prop_json_clone_str (o : Obj JsVal) (k c : string) :
  prop o k = VStr c -> prop (json_clone o) k = VStr c.
Proof.
  unfold prop. induction o as [|[k' x] o IH]; [discriminate|].
  rewrite json_clone_cons. cbn [get].
  destruct (k =? k') eqn:E.
  - intros ->. cbn. rewrite E. reflexivity.
  - intros H. destruct (json_value x); [cbn; rewrite E|]; apply IH; exact H.
Qed.

Lemma prop_set_other (o : Obj JsVal) (k k' : string) (v : JsVal) :
  k <> k' -> prop (set k' v o) k = prop o k.
Proof. intros H. unfold prop. rewrite get_set_other by exact H. reflexivity. Qed.

Lemma bind_ret_l {S A B} (a : A) (k : A -> M S B) : bind (ret a) k = k a.
Proof. reflexivity. Qed.

Lemma bind_throw_l {S A B} (e : JsError) (k : A -> M S B) :
  bind (throw e) k = throw e.
Proof. reflexivity. Qed.

Lemma bind_gets {S A B} (f : S -> A) (k : A -> M S B) (s : S) :
  bind (gets f) k s = k (f s) s.
Proof. reflexivity. Qed.

Lemma try_catch_throw {S A} (e : JsError) (h : JsError -> M S A) :
  try_catch (throw e) h = h e.
Proof. reflexivity. Qed.

Lemma bind_emit {B} (e : ThreadPool.Effect) (k : unit -> M ThreadPool.t B)
  (w : ThreadPool.t) :
  bind (ThreadPool.emit e) k w =
  k tt (ThreadPool.with_effects (ThreadPool.effects w ++ [e])%list w).
Proof. reflexivity. Qed.

Section Replies.
Variable ml : Event -> M ThreadPool.t unit.

(** A message for the controller is posted to the spawning context,
    and a string field for the correlation id arrives as it was. *)
Lemma sendMessageToRemote_master (w : ThreadPool.t) (payload : Obj JsVal)
  (transferable : JsVal) (c : string) :
  prop payload "returnId" = VStr c ->
  exists reply,
    ThreadPool.sendMessageToRemote_with ml (VStr RemoteAware.MASTER_THREAD)
      payload transferable w =
    (Ret true,
     ThreadPool.with_effects
       (ThreadPool.effects w ++
        [ThreadPool.PostToMaster (VObj reply) transferable])%list w)
    /\ prop reply "returnId" = VStr c.
Proof.
  intros Hc.
  unfold ThreadPool.sendMessageToRemote_with, ThreadPool.sendMessageToMaster.
  unfold bind, gets, ThreadPool.emit, modify, ret. cbn.
  eexists. split; [reflexivity|].
  assert (Hs : prop (set "thread" (RemoteAware.id (ThreadPool.ra w)) payload)
                 "returnId" = VStr c)
    by (rewrite prop_set_other by discriminate; exact Hc).
  destruct (negb (truthy transferable)
            || match transferable with VArr [] => true | _ => false end);
    [apply prop_json_clone_str; exact Hs | exact Hs].
Qed.

End Replies.

(** X7: a command request from the controller whose correlation id is
    a string and whose command name is not a name every object
    inherits.  Whenever the command is unknown, or its handler returns a
    value, or a promise that is fulfilled or is rejected with an Error
    object, [executeCommand] returns after posting exactly one reply to
    the spawning context, and the reply's returnId is the request's
    callbackId.  Apart from the effects the worker is unchanged. *)
Theorem X7_reply_echoes_correlation_id
  (fuel : nat) (w : ThreadPool.t) (request : Obj JsVal) (ps : list Port)
  (tr : bool) (c : string) (argv : list JsVal) :
  prop request "thread" = VStr RemoteAware.MASTER_THREAD ->
  prop request "callbackId" = VStr c ->
  iterate (prop request "args") = inr argv ->
  inherited (to_string (prop request "cmd")) = false ->
  match get (to_string (prop request "cmd")) (ThreadPool.commands w) with
  | None => True
  | Some handler =>
      match handler (VStr RemoteAware.MASTER_THREAD) argv with
      | ThreadPool.HThrow _ | ThreadPool.HPending => False
      | _ => True
      end
  end ->
  exists (reply : Obj JsVal) (transferable : JsVal)
         (invoked : list ThreadPool.Effect),
    ThreadPool.executeCommand fuel (mkEvent (VObj request) ps tr) w =
    (Ret tt,
     ThreadPool.with_effects
       (ThreadPool.effects w ++ invoked ++
        [ThreadPool.PostToMaster (VObj reply) transferable])%list w)
    /\ prop reply "returnId" = VStr c
    /\ (invoked = []
        \/ invoked = [ThreadPool.Invoke (to_string (prop request "cmd"))
                        (VStr RemoteAware.MASTER_THREAD) argv]).
Proof.
  intros Hthread Hcb Hargs _ Hsettles.
  unfold ThreadPool.executeCommand, ThreadPool.executeCommand_with.
  cbn [data].
  repeat (rewrite bind_ret_l; cbn [field lift]).
  rewrite bind_gets. rewrite Hthread, Hcb, Hargs.
  destruct (get (to_string (prop request "cmd")) (ThreadPool.commands w))
    as [handler|].
  - cbn [lift]. rewrite bind_ret_l, bind_emit.
    set (inv := ThreadPool.Invoke (to_string (prop request "cmd"))
                  (VStr RemoteAware.MASTER_THREAD) argv).
    set (w1 := ThreadPool.with_effects (ThreadPool.effects w ++ [inv])%list w).
    assert (Hrej : forall err,
               exists reply,
                 try_catch
                   (bind (ThreadPool.sendMessageToRemote_with
                            (ThreadPool.messageListener fuel)
                            (VStr RemoteAware.MASTER_THREAD)
                            [("error", VStr (ThreadPool.error_text err));
                             ("returnId", VStr c);
                             ("previousEvent",
                              event_value (mkEvent (VObj request) ps tr))]
                            VUndef)
                         (fun _ => ret tt))
                   (fun _ => ret tt) w1 =
                 (Ret tt,
                  ThreadPool.with_effects
                    (ThreadPool.effects w ++ [inv] ++
                     [ThreadPool.PostToMaster (VObj reply) VUndef])%list w)
                 /\ prop reply "returnId" = VStr c).
    { intros err.
      destruct (sendMessageToRemote_master (ThreadPool.messageListener fuel) w1
                  [("error", VStr (ThreadPool.error_text err));
                   ("returnId", VStr c);
                   ("previousEvent", event_value (mkEvent (VObj request) ps tr))]
                  VUndef c eq_refl) as (reply & Hrun & Hid).
      exists reply. split; [|exact Hid].
      unfold try_catch. rewrite (bind_ret _ _ _ _ _ Hrun).
      unfold ret. f_equal. destruct w; unfold w1, ThreadPool.with_effects; cbn.
      rewrite <- app_assoc. reflexivity. }
    assert (Hful : forall v,
               exists reply transferable,
                 try_catch
                   (try_catch
                      (bind (lift (iterate v))
                         (fun pair =>
                            bind (ThreadPool.sendMessageToRemote_with
                                    (ThreadPool.messageListener fuel)
                                    (VStr RemoteAware.MASTER_THREAD)
                                    [("data", nth 0 pair VUndef);
                                     ("returnId", VStr c)]
                                    (nth 1 pair VUndef))
                                 (fun _ => ret tt)))
                      (fun err =>
                         bind (ThreadPool.sendMessageToRemote_with
                                 (ThreadPool.messageListener fuel)
                                 (VStr RemoteAware.MASTER_THREAD)
                                 [("error", VStr (ThreadPool.error_text err));
                                  ("returnId", VStr c);
                                  ("previousEvent",
                                   event_value (mkEvent (VObj request) ps tr))]
                                 VUndef)
                              (fun _ => ret tt)))
                   (fun _ => ret tt) w1 =
                 (Ret tt,
                  ThreadPool.with_effects
                    (ThreadPool.effects w ++ [inv] ++
                     [ThreadPool.PostToMaster (VObj reply) transferable])%list w)
                 /\ prop reply "returnId" = VStr c).
    { intros v. destruct (iterate v) as [err|pair] eqn:Hit.
      - destruct (Hrej err) as (reply & Hrun & Hid).
        exists reply, VUndef. split; [|exact Hid].
        cbn [lift]. rewrite bind_throw_l, try_catch_throw. exact Hrun.
      - destruct (sendMessageToRemote_master (ThreadPool.messageListener fuel) w1
                    [("data", nth 0 pair VUndef); ("returnId", VStr c)]
                    (nth 1 pair VUndef) c eq_refl) as (reply & Hrun & Hid).
        exists reply, (nth 1 pair VUndef). split; [|exact Hid].
        unfold try_catch. cbn [lift]. rewrite bind_ret_l.
        rewrite (bind_ret _ _ _ _ _ Hrun).
        unfold ret. f_equal. destruct w; unfold w1, ThreadPool.with_effects; cbn.
        rewrite <- app_assoc. reflexivity. }
    destruct (handler (VStr RemoteAware.MASTER_THREAD) argv) as [v|v|e| |e];
      try contradiction.
    + destruct (Hful v) as (reply & t & Hrun & Hid).
      exists reply, t, [inv]. split; [exact Hrun|]. split; [exact Hid | right; reflexivity].
    + destruct (Hful v) as (reply & t & Hrun & Hid).
      exists reply, t, [inv]. split; [exact Hrun|]. split; [exact Hid | right; reflexivity].
    + destruct (Hrej e) as (reply & Hrun & Hid).
      exists reply, VUndef, [inv]. split; [exact Hrun|]. split; [exact Hid | right; reflexivity].
  - destruct (sendMessageToRemote_master (ThreadPool.messageListener fuel) w
                [("returnId", VStr c);
                 ("error", VError (Error ("Command not found: "
                                          ++ to_string (prop request "cmd"))))]
                VUndef c eq_refl) as (reply & Hrun & Hid).
    exists reply, VUndef, []. split; [|split; [exact Hid | left; reflexivity]].
    rewrite (bind_ret _ _ _ _ _ Hrun). reflexivity.
Qed.

Lemma X7_witness :
  let w := Runs.worker_with "1.t" [] Runs.echo_pair in
  let request := [("cmd", VStr "echo"); ("args", VArr [VNum 42]);
                  ("callbackId", VStr "5.t"); ("thread", VStr "master")] in
  exists (reply : Obj JsVal) (transferable : JsVal)
         (invoked : list ThreadPool.Effect),
    ThreadPool.executeCommand 1 (mkEvent (VObj request) [] true) w =
    (Ret tt,
     ThreadPool.with_effects
       (ThreadPool.effects w ++ invoked ++
        [ThreadPool.PostToMaster (VObj reply) transferable])%list w)
    /\ prop reply "returnId" = VStr "5.t".
Proof.
  intros w request.
  destruct (X7_reply_echoes_correlation_id 1 w request [] true "5.t" [VNum 42]
              eq_refl eq_refl eq_refl eq_refl I)
    as (reply & t & invoked & Hrun & Hid & _).
  exists reply, t, invoked. split; [exact Hrun | exact Hid].
Defined.

(** X8: a handler that raises, or whose promise never settles.  No
    reply is posted; the exception of the handler leaves
    [executeCommand] (and the message listener that called it), so the
    sender's promise stays pending. *)
Theorem X8_no_reply_when_handler_raises
  (fuel : nat) (w : ThreadPool.t) (request : Obj JsVal) (ps : list Port)
  (tr : bool) (handler : ThreadPool.Handler) (argv : list JsVal) :
  get (to_string (prop request "cmd")) (ThreadPool.commands w) = Some handler ->
  iterate (prop request "args") = inr argv ->
  let invoked :=
    ThreadPool.with_effects
      (ThreadPool.effects w ++
       [ThreadPool.Invoke (to_string (prop request "cmd"))
          (prop request "thread") argv])%list w in
  (forall e,
      handler (prop request "thread") argv = ThreadPool.HThrow e ->
      ThreadPool.executeCommand fuel (mkEvent (VObj request) ps tr) w =
      (Exn e, invoked))
  /\ (handler (prop request "thread") argv = ThreadPool.HPending ->
      ThreadPool.executeCommand fuel (mkEvent (VObj request) ps tr) w =
      (Ret tt, invoked)).
Proof.
  intros Hget Hargs invoked.
  assert (Hrun : ThreadPool.executeCommand fuel (mkEvent (VObj request) ps tr) w
                 = match handler (prop request "thread") argv with
                   | ThreadPool.HThrow e => (Exn e, invoked)
                   | ThreadPool.HPending => (Ret tt, invoked)
                   | _ => ThreadPool.executeCommand fuel
                            (mkEvent (VObj request) ps tr) w
                   end).
  { unfold ThreadPool.executeCommand at 1, ThreadPool.executeCommand_with.
    cbn [data].
    repeat (rewrite bind_ret_l; cbn [field lift]).
    rewrite bind_gets, Hget, Hargs. cbn [lift].
    rewrite bind_ret_l, bind_emit. fold invoked.
    destruct (handler (prop request "thread") argv) eqn:Hh;
      try reflexivity;
      unfold ThreadPool.executeCommand, ThreadPool.executeCommand_with;
      cbn [data];
      repeat (rewrite bind_ret_l; cbn [field lift]);
      rewrite bind_gets, Hget, Hargs; cbn [lift];
      rewrite bind_ret_l, bind_emit, Hh; reflexivity. }
  split.
  - intros e He. rewrite Hrun, He. reflexivity.
  - intros Hp. rewrite Hrun, Hp. reflexivity.
Qed.

Lemma X8_witness :
  let failing : ThreadPool.Handler :=
    fun _ _ => ThreadPool.HThrow (Error "boom") in
  let w := Runs.worker_with "1.t" [] failing in
  let request := [("cmd", VStr "echo"); ("args", VArr [VNum 42]);
                  ("callbackId", VStr "5.t"); ("thread", VStr "master")] in
  ThreadPool.executeCommand 1 (mkEvent (VObj request) [] true) w =
  (Exn (Error "boom"),
   ThreadPool.with_effects
     [ThreadPool.Invoke "echo" (VStr "master") [VNum 42]] w).
Proof.
  intros failing w request.
  destruct (X8_no_reply_when_handler_raises 1 w request [] true failing
              [VNum 42] eq_refl eq_refl) as [H _].
  exact (H (Error "boom") eq_refl).
Defined.

(** X9: a command request from a sibling for a name that is not
    registered here and is not a name every object inherits.  The
    handler table is not consulted further; one reply goes back on that
    sibling's channel with the request's callbackId as returnId.  Its
    error field is an empty object: the Error with the text Command not
    found does not survive the copy. *)
Theorem X9_unknown_command_reply
  (fuel : nat) (w : ThreadPool.t) (request : Obj JsVal) (ps : list Port)
  (tr : bool) (k : string) (port : Port) :
  inherited (to_string (prop request "cmd")) = false ->
  get (to_string (prop request "cmd")) (ThreadPool.commands w) = None ->
  prop request "thread" = VStr k ->
  k <> RemoteAware.MASTER_THREAD ->
  strict_eq (VStr k) (RemoteAware.id (ThreadPool.ra w)) = false ->
  get k (RemoteAware.remotes (ThreadPool.ra w)) = Some (Some port) ->
  let reply :=
    json_clone
      [("returnId", prop request "callbackId");
       ("error", VError (Error ("Command not found: "
                                ++ to_string (prop request "cmd"))));
       ("thread", RemoteAware.id (ThreadPool.ra w))] in
  ThreadPool.executeCommand fuel (mkEvent (VObj request) ps tr) w =
  (Ret tt,
   ThreadPool.with_effects
     (ThreadPool.effects w ++
      [ThreadPool.PostToPort port (VObj reply) VUndef])%list w)
  /\ prop reply "error" = VObj []
  /\ prop reply "returnId" =
     match json_value (prop request "callbackId") with
     | Some v => v
     | None => VUndef
     end.
Proof.
  intros _ Hget Hthread Hm Hself Hport reply.
  split.
  - unfold ThreadPool.executeCommand, ThreadPool.executeCommand_with.
    cbn [data].
    repeat (rewrite bind_ret_l; cbn [field lift]).
    rewrite bind_gets, Hget, Hthread.
    fold (ThreadPool.sendMessageToRemote fuel).
    rewrite (bind_ret _ _ _ _ _
               (sendMessageToRemote_sibling fuel w k port _ VUndef
                  Hm Hself Hport)).
    reflexivity.
  - unfold reply. rewrite !json_clone_cons. cbn [json_value].
    destruct (json_value (prop request "callbackId")) as [v|];
      destruct (json_value (RemoteAware.id (ThreadPool.ra w))) as [i|];
      split; reflexivity.
Qed.

Lemma X9_witness :
  let w := Runs.worker_with "2.t" [("1.t", Some (mkPort 1 Port2))] Runs.echo in
  let request := [("cmd", VStr "nope"); ("args", VArr []);
                  ("thread", VStr "1.t"); ("callbackId", VStr "5.t")] in
  ThreadPool.executeCommand 1 (mkEvent (VObj request) [] true) w =
  (Ret tt,
   ThreadPool.with_effects
     [ThreadPool.PostToPort (mkPort 1 Port2)
        (VObj [("returnId", VStr "5.t"); ("error", VObj []);
               ("thread", VStr "2.t")]) VUndef] w).
Proof.
  intros w request.
  assert (Hm : "1.t" <> RemoteAware.MASTER_THREAD) by discriminate.
  destruct (X9_unknown_command_reply 1 w request [] true "1.t" (mkPort 1 Port2)
              eq_refl eq_refl eq_refl Hm eq_refl eq_refl) as [H _].
  exact H.
Defined.

(** X10: a command request from a sibling whose handler returns (or
    whose promise is fulfilled with) something iterable.  The first
    element is the data of the reply, the second its transfer list; the
    reply goes back on that sibling's channel, with the request's
    callbackId as returnId and the executing unit's id as thread. *)
Theorem X10_result_goes_back_to_the_sender
  (fuel : nat) (w : ThreadPool.t) (request : Obj JsVal) (ps : list Port)
  (tr : bool) (k : string) (port : Port) (handler : ThreadPool.Handler)
  (argv : list JsVal) (result : JsVal) (pair : list JsVal) :
  get (to_string (prop request "cmd")) (ThreadPool.commands w) = Some handler ->
  iterate (prop request "args") = inr argv ->
  prop request "thread" = VStr k ->
  handler (VStr k) argv = ThreadPool.HReturn result
  \/ handler (VStr k) argv = ThreadPool.HFulfilled result ->
  iterate result = inr pair ->
  k <> RemoteAware.MASTER_THREAD ->
  strict_eq (VStr k) (RemoteAware.id (ThreadPool.ra w)) = false ->
  get k (RemoteAware.remotes (ThreadPool.ra w)) = Some (Some port) ->
  ThreadPool.executeCommand fuel (mkEvent (VObj request) ps tr) w =
  (Ret tt,
   ThreadPool.with_effects
     (ThreadPool.effects w ++
      [ThreadPool.Invoke (to_string (prop request "cmd")) (VStr k) argv;
       ThreadPool.PostToPort port
         (VObj (json_clone
                  [("data", nth 0 pair VUndef);
                   ("returnId", prop request "callbackId");
                   ("thread", RemoteAware.id (ThreadPool.ra w))]))
         (nth 1 pair VUndef)])%list w).
Proof.
  intros Hget Hargs Hthread Hres Hit Hm Hself Hport.
  unfold ThreadPool.executeCommand, ThreadPool.executeCommand_with.
  cbn [data].
  repeat (rewrite bind_ret_l; cbn [field lift]).
  rewrite bind_gets, Hget, Hargs, Hthread. cbn [lift].
  rewrite bind_ret_l, bind_emit.
  fold (ThreadPool.sendMessageToRemote fuel).
  set (w1 := ThreadPool.with_effects _ w).
  assert (Hsend :
    ThreadPool.sendMessageToRemote fuel (VStr k)
      [("data", nth 0 pair VUndef); ("returnId", prop request "callbackId")]
      (nth 1 pair VUndef) w1 =
    (Ret true,
     ThreadPool.with_effects
       (ThreadPool.effects w1 ++
        [ThreadPool.PostToPort port
           (VObj (json_clone
                    (set "thread" (RemoteAware.id (ThreadPool.ra w1))
                       [("data", nth 0 pair VUndef);
                        ("returnId", prop request "callbackId")])))
           (nth 1 pair VUndef)])%list w1))
    by (apply sendMessageToRemote_sibling; assumption).
  assert (Hgoal :
    try_catch
      (try_catch
         (bind (lift (iterate result))
            (fun pair0 =>
               bind (ThreadPool.sendMessageToRemote fuel (VStr k)
                       [("data", nth 0 pair0 VUndef);
                        ("returnId", prop request "callbackId")]
                       (nth 1 pair0 VUndef))
                    (fun _ => ret tt)))
         (fun err =>
            bind (ThreadPool.sendMessageToRemote fuel (VStr k)
                    [("error", VStr (ThreadPool.error_text err));
                     ("returnId", prop request "callbackId");
                     ("previousEvent",
                      event_value (mkEvent (VObj request) ps tr))]
                    VUndef)
                 (fun _ => ret tt)))
      (fun _ => ret tt) w1 =
    (Ret tt,
     ThreadPool.with_effects
       (ThreadPool.effects w ++
        [ThreadPool.Invoke (to_string (prop request "cmd")) (VStr k) argv;
         ThreadPool.PostToPort port
           (VObj (json_clone
                    [("data", nth 0 pair VUndef);
                     ("returnId", prop request "callbackId");
                     ("thread", RemoteAware.id (ThreadPool.ra w))]))
           (nth 1 pair VUndef)])%list w)).
  { rewrite Hit. cbn [lift]. rewrite bind_ret_l.
    unfold try_catch. rewrite (bind_ret _ _ _ _ _ Hsend).
    unfold ret. f_equal. destruct w; unfold w1, ThreadPool.with_effects; cbn.
    rewrite <- app_assoc. reflexivity. }
  destruct Hres as [Hres|Hres]; rewrite Hres; exact Hgoal.
Qed.

Lemma X10_witness :
  let w := Runs.worker_with "2.t" [("1.t", Some (mkPort 1 Port2))]
             Runs.echo_pair in
  let request := [("cmd", VStr "echo"); ("args", VArr [VNum 42]);
                  ("thread", VStr "1.t"); ("callbackId", VStr "5.t")] in
  ThreadPool.executeCommand 1 (mkEvent (VObj request) [] true) w =
  (Ret tt,
   ThreadPool.with_effects
     [ThreadPool.Invoke "echo" (VStr "1.t") [VNum 42];
      ThreadPool.PostToPort (mkPort 1 Port2)
        (VObj [("data", VNum 42); ("returnId", VStr "5.t");
               ("thread", VStr "2.t")]) VUndef] w).
Proof.
  intros w request.
  assert (Hm : "1.t" <> RemoteAware.MASTER_THREAD) by discriminate.
  exact (X10_result_goes_back_to_the_sender 1 w request [] true "1.t"
           (mkPort 1 Port2) Runs.echo_pair [VNum 42] (VArr [VNum 42]) [VNum 42]
           eq_refl eq_refl eq_refl (or_introl eq_refl) eq_refl Hm eq_refl
           eq_refl).
Defined.

(** ** Siblings of a worker *)

(** X11: the sibling announcement and its removal variant, as a worker
    handles them, for an id [k] that is not a name every object
    inherits.  After the announcement of [k] with a port, the port
    is started and a message for [k] goes out on it, stamped with the
    worker's id; after the removal notice a message for [k] is not sent
    and the send reports [false].  When [k] was not known before, the
    sibling map is back to what it was. *)
Theorem X11_sibling_announcement_and_removal
  (fuel : nat) (w : ThreadPool.t) (k : string) (port : Port)
  (payload : Obj JsVal) (transferable : JsVal) :
  k <> "" ->
  inherited k = false ->
  k <> RemoteAware.MASTER_THREAD ->
  strict_eq (VStr k) (RemoteAware.id (ThreadPool.ra w)) = false ->
  let announce := mkEvent (VObj [("remote", VStr k)]) [port] true in
  let removal :=
    mkEvent (VObj [("remote", VStr k); ("terminate", VBool true);
                   ("thread", VStr RemoteAware.MASTER_THREAD)]) [] true in
  let w1 :=
    ThreadPool.with_effects
      (ThreadPool.effects w ++ [ThreadPool.PortStart port])%list
      (ThreadPool.with_ra
         (RemoteAware.with_remotes
            (set k (Some port) (RemoteAware.remotes (ThreadPool.ra w)))
            (ThreadPool.ra w)) w) in
  let w2 :=
    ThreadPool.with_ra
      (RemoteAware.with_remotes
         (del k (RemoteAware.remotes (ThreadPool.ra w1))) (ThreadPool.ra w1))
      w1 in
  ThreadPool.messageListener (S fuel) announce w = (Ret tt, w1)
  /\ ThreadPool.sendMessageToRemote fuel (VStr k) payload transferable w1 =
     (Ret true,
      ThreadPool.with_effects
        (ThreadPool.effects w1 ++
         [ThreadPool.PostToPort port
            (VObj (json_clone
                     (set "thread" (RemoteAware.id (ThreadPool.ra w)) payload)))
            transferable])%list w1)
  /\ ThreadPool.messageListener (S fuel) removal w1 = (Ret tt, w2)
  /\ ThreadPool.sendMessageToRemote fuel (VStr k) payload transferable w2 =
     (Ret false, w2)
  /\ (get k (RemoteAware.remotes (ThreadPool.ra w)) = None ->
      RemoteAware.remotes (ThreadPool.ra w2) =
      RemoteAware.remotes (ThreadPool.ra w)).
Proof.
  intros Hk _ Hm Hself announce removal w1 w2.
  assert (Htruthy : negb (k =? "") = true).
  { apply String.eqb_neq in Hk. rewrite Hk. reflexivity. }
  assert (Hmaster : RemoteAware.isMasterThread (VStr k) = false).
  { unfold RemoteAware.isMasterThread. cbn. apply String.eqb_neq. exact Hm. }
  split.
  { unfold announce. cbn [ThreadPool.messageListener data typeof_object].
    cbn [field lift prop get String.eqb Ascii.eqb Bool.eqb].
    repeat (rewrite bind_ret_l; cbn [truthy]).
    rewrite Htruthy.
    unfold ThreadPool.remoteIdent. cbn [data field lift prop get String.eqb
                                          Ascii.eqb Bool.eqb].
    repeat (rewrite bind_ret_l; cbn [truthy]).
    destruct w as [[i rs cbs rk pr] ls ha hat pts cmds g effs].
    reflexivity. }
  split.
  { apply (sendMessageToRemote_sibling fuel w1 k port payload transferable).
    - exact Hm.
    - destruct w as [[i rs cbs rk pr] ls ha hat pts cmds g effs]. exact Hself.
    - destruct w as [[i rs cbs rk pr] ls ha hat pts cmds g effs]. cbn.
      apply get_set_same. }
  split.
  { unfold removal. cbn [ThreadPool.messageListener data typeof_object].
    cbn [field lift prop get String.eqb Ascii.eqb Bool.eqb].
    repeat (rewrite bind_ret_l; cbn [truthy]).
    rewrite Htruthy.
    unfold ThreadPool.remoteIdent. cbn [data field lift prop get String.eqb
                                          Ascii.eqb Bool.eqb].
    repeat (rewrite bind_ret_l; cbn [truthy]).
    reflexivity. }
  split.
  { unfold ThreadPool.sendMessageToRemote, ThreadPool.sendMessageToRemote_with.
    rewrite bind_gets, Hmaster. unfold RemoteAware.isThisThread.
    assert (Hs2 : strict_eq (VStr k) (RemoteAware.id (ThreadPool.ra w2)) = false).
    { destruct w as [[i rs cbs rk pr] ls ha hat pts cmds g effs]. exact Hself. }
    rewrite Hs2, hasRemotes_always. cbn [orb negb].
    unfold ThreadPool.super_sendMessageToRemote. rewrite bind_gets.
    cbn [to_string].
    assert (Hgone : get k (RemoteAware.remotes (ThreadPool.ra w2)) = None).
    { destruct w as [[i rs cbs rk pr] ls ha hat pts cmds g effs]. cbn.
      apply get_del_same. }
    rewrite Hgone. reflexivity. }
  intros Hnone.
  destruct w as [[i rs cbs rk pr] ls ha hat pts cmds g effs]. cbn in *.
  apply del_set_fresh. exact Hnone.
Qed.

Lemma X11_witness :
  let w := Runs.worker_with "1.t" [] Runs.echo in
  let announce := mkEvent (VObj [("remote", VStr "2.t")]) [mkPort 0 Port2] true in
  ThreadPool.messageListener 1 announce w =
  (Ret tt,
   ThreadPool.with_effects [ThreadPool.PortStart (mkPort 0 Port2)]
     (ThreadPool.with_ra
        (RemoteAware.with_remotes [("2.t", Some (mkPort 0 Port2))]
           (ThreadPool.ra w)) w)).
Proof.
  intros w announce.
  assert (Hk : "2.t" <> "") by discriminate.
  assert (Hm : "2.t" <> RemoteAware.MASTER_THREAD) by discriminate.
  destruct (X11_sibling_announcement_and_removal 0 w "2.t" (mkPort 0 Port2)
              [] VUndef Hk eq_refl Hm eq_refl) as [H _].
  exact H.
Defined.

(** X12: [postRemoteMessage] of a worker.  With an empty sibling map
    the message is neither handled by the worker itself nor sent: the
    emptiness test does not see that the map is empty, no target is
    found, and the result is [false].  With the cursor at a sibling
    that has a channel, the message goes out on that channel and the
    result is the sibling's key. *)
Theorem X12_postRemoteMessage_of_a_worker
  (fuel : nat) (w : ThreadPool.t) (payload : Obj JsVal)
  (transferable : JsVal) :
  RemoteAware.id (ThreadPool.ra w) <> VUndef ->
  (RemoteAware.remotes (ThreadPool.ra w) = [] ->
   ThreadPool.postRemoteMessage fuel payload transferable w =
   (Ret (VBool false),
    ThreadPool.with_ra (RemoteAware.with_remoteKey 0 (ThreadPool.ra w)) w))
  /\ (forall (k : string) (port : Port),
        nth_error (keys (RemoteAware.remotes (ThreadPool.ra w)))
          (RemoteAware.remoteKey (ThreadPool.ra w)) = Some k ->
        get k (RemoteAware.remotes (ThreadPool.ra w)) = Some (Some port) ->
        k <> RemoteAware.MASTER_THREAD ->
        strict_eq (VStr k) (RemoteAware.id (ThreadPool.ra w)) = false ->
        exists w',
          ThreadPool.postRemoteMessage fuel payload transferable w =
          (Ret (VStr k), w')
          /\ ThreadPool.effects w' =
             (ThreadPool.effects w ++
              [ThreadPool.PostToPort port
                 (VObj (json_clone
                          (set "thread" (RemoteAware.id (ThreadPool.ra w))
                             payload)))
                 transferable])%list
          /\ RemoteAware.remoteKey (ThreadPool.ra w') =
             RemoteAware.next_cursor
               (keys (RemoteAware.remotes (ThreadPool.ra w)))
               (RemoteAware.remoteKey (ThreadPool.ra w))).
Proof.
  intros Hid. split.
  - intros Hrs.
    unfold ThreadPool.postRemoteMessage, ThreadPool.super_postRemoteMessage.
    rewrite bind_gets, hasRemotes_always. cbn [negb].
    rewrite bind_gets, hasRemotes_always. cbn [negb].
    destruct w as [[i rs cbs rk pr] ls ha hat pts cmds g effs].
    cbn in Hrs, Hid. subst rs.
    unfold bind at 1. unfold ThreadPool.mixin_pure, RemoteAware.getNextRemoteKey.
    cbn.
    assert (Hkey : RemoteAware.key_at [] rk = VUndef)
      by (unfold RemoteAware.key_at; destruct rk; reflexivity).
    assert (Hnc : RemoteAware.next_cursor [] rk = 0).
    { unfold RemoteAware.next_cursor. cbn [length].
      destruct (Z.geb_spec (Z.of_nat rk) (Z.of_nat 0 - 1)); [reflexivity | lia]. }
    rewrite Hkey, Hnc.
    unfold ThreadPool.sendMessageToRemote, ThreadPool.sendMessageToRemote_with.
    destruct i; try contradiction; reflexivity.
  - intros k port Hnth Hget Hm Hself.
    unfold ThreadPool.postRemoteMessage, ThreadPool.super_postRemoteMessage.
    rewrite bind_gets, hasRemotes_always. cbn [negb].
    rewrite bind_gets, hasRemotes_always. cbn [negb].
    unfold bind at 1. unfold ThreadPool.mixin_pure, RemoteAware.getNextRemoteKey.
    unfold RemoteAware.key_at. rewrite Hnth.
    set (w1 := ThreadPool.with_ra _ w).
    assert (Hsend := sendMessageToRemote_sibling fuel w1 k port payload
                       transferable Hm).
    rewrite (bind_ret _ _ _ _ _ (Hsend
               ltac:(destruct w as [[? ? ? ? ?] ? ? ? ? ? ? ?]; exact Hself)
               ltac:(destruct w as [[? ? ? ? ?] ? ? ? ? ? ? ?]; exact Hget))).
    cbn [negb]. eexists. split; [reflexivity|].
    destruct w as [[i rs cbs rk pr] ls ha hat pts cmds g effs].
    split; reflexivity.
Qed.

Lemma X12_witness :
  ThreadPool.postRemoteMessage 1 [("hello", VNum 1)] VUndef
    (Runs.worker_with "1.t" [] Runs.echo)
  = (Ret (VBool false), Runs.worker_with "1.t" [] Runs.echo).
Proof.
  assert (Hid : RemoteAware.id
                  (ThreadPool.ra (Runs.worker_with "1.t" [] Runs.echo))
                <> VUndef) by discriminate.
  destruct (X12_postRemoteMessage_of_a_worker 1
              (Runs.worker_with "1.t" [] Runs.echo) [("hello", VNum 1)] VUndef
              Hid) as [H _].
  exact (H eq_refl).
Defined.

(** X13: [errorListener] of a worker.  An error that names a thread is
    sent on to that thread, its thread field replaced by the worker's
    own id.  An error that names none is not given to any listener: the
    statement meant to do so raises a ReferenceError. *)
Theorem X13_errorListener_of_a_worker
  (fuel : nat) (w : ThreadPool.t) (error : Obj JsVal) :
  (truthy (prop error "thread") = false ->
   ThreadPool.errorListener fuel error w =
   (Exn (newError "ReferenceError" "evt is not defined"), w))
  /\ (forall (k : string) (port : Port),
        prop error "thread" = VStr k ->
        k <> "" ->
        k <> RemoteAware.MASTER_THREAD ->
        strict_eq (VStr k) (RemoteAware.id (ThreadPool.ra w)) = false ->
        get k (RemoteAware.remotes (ThreadPool.ra w)) = Some (Some port) ->
        ThreadPool.errorListener fuel error w =
        (Ret tt,
         ThreadPool.with_effects
           (ThreadPool.effects w ++
            [ThreadPool.PostToPort port
               (VObj (json_clone
                        (set "thread" (RemoteAware.id (ThreadPool.ra w)) error)))
               VUndef])%list w)).
Proof.
  split.
  - intros Hf. unfold ThreadPool.errorListener. rewrite Hf. reflexivity.
  - intros k port Hthread Hk Hm Hself Hget.
    unfold ThreadPool.errorListener. rewrite Hthread.
    assert (Htruthy : truthy (VStr k) = true).
    { cbn. apply String.eqb_neq in Hk. rewrite Hk. reflexivity. }
    rewrite Htruthy.
    rewrite (bind_ret _ _ _ _ _
               (sendMessageToRemote_sibling fuel w k port error VUndef
                  Hm Hself Hget)).
    reflexivity.
Qed.

Lemma X13_witness :
  ThreadPool.errorListener 1 [("message", VStr "lost")]
    (Runs.worker_with "1.t" [] Runs.echo)
  = (Exn (newError "ReferenceError" "evt is not defined"),
     Runs.worker_with "1.t" [] Runs.echo).
Proof.
  destruct (X13_errorListener_of_a_worker 1
              (Runs.worker_with "1.t" [] Runs.echo) [("message", VStr "lost")])
    as [H _].
  exact (H eq_refl).
Defined.

(** ** The access token *)
Lemma setHttpAccessToken_posts (s : WorkerCluster.t) (token : JsVal) :
  WorkerCluster.setHttpAccessToken token s =
  (Ret tt,
   Runs.after_effects
     (map (fun h => RemoteWorker.WorkerPost h
                      (Runs.broadcast_payload
                         (RemoteAware.id (WorkerCluster.ra s))
                         [("setHttpAccessToken", token)]) [])
        (Runs.posted_handles (WorkerCluster.remotes s)))
     (WorkerCluster.with_httpAccessToken token s)).
Proof.
  unfold WorkerCluster.setHttpAccessToken, WorkerCluster.broadcast.
  unfold bind, modify, gets.
  rewrite (broadcast_to_posts [("setHttpAccessToken", token)]) by reflexivity.
  destruct s; reflexivity.
Qed.

(** X14: [setHttpAccessToken(token)] of the controller stores the token
    and posts one message to every worker whose spawn handle is live.  A
    worker that receives this message stores the token when it is not
    the empty string, and changes nothing else; the empty string is not
    recognised, the message goes to the generic listeners and the
    worker keeps the token it had. *)
Theorem X14_access_token_push
  (s : WorkerCluster.t) (token : string) :
  let push := Runs.broadcast_payload (RemoteAware.id (WorkerCluster.ra s))
                [("setHttpAccessToken", VStr token)] in
  WorkerCluster.setHttpAccessToken (VStr token) s =
    (Ret tt,
     Runs.after_effects
       (map (fun h => RemoteWorker.WorkerPost h push [])
          (Runs.posted_handles (WorkerCluster.remotes s)))
       (WorkerCluster.with_httpAccessToken (VStr token) s))
  /\ forall (fuel : nat) (w : ThreadPool.t),
       ThreadPool.messageListener (S fuel) (Runs.delivered push) w =
       if token =? ""
       then ThreadPool.executeMessageListeners (Runs.delivered push) w
       else (Ret tt, ThreadPool.with_httpAccessToken (VStr token) w).
Proof.
  intros push. split; [apply setHttpAccessToken_posts|].
  intros fuel w.
  unfold push, Runs.broadcast_payload, Runs.delivered, json_clone.
  cbn [set String.eqb Ascii.eqb Bool.eqb json_value].
  destruct (json_value (RemoteAware.id (WorkerCluster.ra s))) as [v|];
    cbn [ThreadPool.messageListener data typeof_object];
    cbn [field lift prop get String.eqb Ascii.eqb Bool.eqb];
    repeat (rewrite bind_ret_l; cbn [truthy]);
    destruct (token =? ""); reflexivity.
Qed.

(** ** Messages the controller posts *)
Section ControllerPosts.
Import WorkerCluster.

Lemma at_cursor_after_effects (c : nat) (es : list RemoteWorker.Effect) (s : t) :
  Runs.at_cursor c (Runs.after_effects es s) =
  Runs.after_effects es (Runs.at_cursor c s).
Proof. destruct s as [[? ? ? ? ?] ? ? ? ? [? ? ? ?]]. reflexivity. Qed.

Lemma at_cursor_at_cursor (c c' : nat) (s : t) :
  Runs.at_cursor c (Runs.at_cursor c' s) = Runs.at_cursor c s.
Proof. destruct s as [[? ? ? ? ?] ? ? ? ? [? ? ? ?]]. reflexivity. Qed.

Lemma at_cursor_same (s : t) :
  Runs.at_cursor (RemoteAware.remoteKey (ra s)) s = s.
Proof. destruct s as [[? ? ? ? ?] ? ? ? ? [? ? ? ?]]. reflexivity. Qed.

Lemma post_effects_at (c : nat) (es : list RemoteWorker.Effect) (s : t)
  (payload : Obj JsVal) (ks : list string) :
  Runs.post_effects (Runs.after_effects es (Runs.at_cursor c s)) payload ks =
  Runs.post_effects s payload ks.
Proof. destruct s as [[? ? ? ? ?] ? ? ? ? [? ? ? ?]]. reflexivity. Qed.

(** One [postMessage] with the cursor at the key [k]. *)
Lemma postMessage_step (s : t) (payload : Obj JsVal) (k : string) :
  nth_error (keys (remotes s)) (RemoteAware.remoteKey (ra s)) = Some k ->
  postMessage payload [] s =
  (Ret (VStr k),
   Runs.after_effects (Runs.post_effects s payload [k])
     (Runs.at_cursor
        (RemoteAware.next_cursor (keys (remotes s))
           (RemoteAware.remoteKey (ra s))) s)).
Proof.
  intros Hnth.
  assert (Hin : In k (keys (remotes s))) by (eapply nth_error_In; exact Hnth).
  destruct (in_keys_get _ _ Hin) as (remote & Hget).
  destruct s as [[i rs cbs rk pr] ls ha hat wh [g nw nc es]].
  unfold remotes in *. cbn [ra RemoteAware.remotes RemoteAware.remoteKey] in *.
  unfold postMessage, postRemoteMessage, bind, gets, mixin_pure,
    RemoteAware.getNextRemoteKey, RemoteAware.key_at, sendMessageToRemote,
    Runs.post_effects, Runs.at_cursor, remotes.
  cbn [ra RemoteAware.remotes RemoteAware.remoteKey RemoteAware.hasRemotes
       negb with_ra RemoteAware.with_remoteKey RemoteAware.id flat_map
       RemoteAware.callbacks RemoteAware.promises listeners httpAuthorization
       httpAccessToken which world].
  rewrite hasRemotes_always. cbn [negb].
  cbn [ra RemoteAware.remotes RemoteAware.remoteKey with_ra].
  rewrite Hnth.
  cbn [to_string ra RemoteAware.remotes with_ra RemoteAware.with_remoteKey
       RemoteAware.id].
  unfold call, RemoteWorker.postMessage, Runs.after_effects,
    RemoteWorker.emit, RemoteWorker.with_effects, modify, ret, gets.
  cbn -[get json_clone RemoteAware.next_cursor keys].
  rewrite !Hget.
  destruct (RemoteWorker.worker remote) as [h|];
    cbn -[get json_clone RemoteAware.next_cursor keys].
  - reflexivity.
  - rewrite ?app_nil_r. reflexivity.
Qed.

Lemma posts_app (n m : nat) (payload : Obj JsVal) (s : t) :
  Runs.posts (n + m) payload s =
  bind (Runs.posts n payload)
       (fun a => bind (Runs.posts m payload) (fun b => ret (a ++ b)%list)) s.
Proof.
  revert s. induction n as [|n IH]; intros s.
  - cbn [Nat.add Runs.posts]. rewrite bind_ret_l. unfold bind.
    destruct (Runs.posts m payload s) as [[b| |] s']; reflexivity.
  - cbn [Nat.add Runs.posts].
    generalize (postMessage payload []). intros pm.
    unfold bind, ret in IH |- *.
    destruct (pm s) as [[r| |] s1]; try reflexivity.
    rewrite IH.
    destruct (Runs.posts n payload s1) as [[a| |] s2]; try reflexivity.
    destruct (Runs.posts m payload s2) as [[b| |] s3]; reflexivity.
Qed.

(** [n] posts that do not pass the end of the key list. *)
Lemma posts_straight (n : nat) (payload : Obj JsVal) (s : t) :
  RemoteAware.remoteKey (ra s) + n <= length (keys (remotes s)) ->
  0 < n ->
  let ks := firstn n (skipn (RemoteAware.remoteKey (ra s)) (keys (remotes s))) in
  Runs.posts n payload s =
  (Ret (map VStr ks),
   Runs.after_effects (Runs.post_effects s payload ks)
     (Runs.at_cursor
        (if (RemoteAware.remoteKey (ra s) + n =? length (keys (remotes s)))%nat
         then 0 else RemoteAware.remoteKey (ra s) + n) s)).
Proof.
  revert s. induction n as [|n IH]; intros s Hle Hpos; [lia|].
  set (all := keys (remotes s)) in *.
  set (c := RemoteAware.remoteKey (ra s)) in *.
  assert (Hc : c < length all) by lia.
  destruct (nth_error all c) as [k|] eqn:Hk;
    [| apply nth_error_None in Hk; lia].
  cbn zeta. rewrite (skipn_nth_error _ _ _ Hk). cbn [firstn map].
  cbn [Runs.posts].
  rewrite (bind_ret _ _ _ _ _ (postMessage_step s payload k Hk)).
  fold all c. rewrite (next_cursor_in_range all c Hc).
  destruct n as [|n].
  - cbn [Runs.posts firstn map]. rewrite bind_ret_l.
    replace (c + 1) with (S c) by lia. reflexivity.
  - destruct (Nat.eqb_spec (c + 1) (length all)) as [E|E]; [lia|].
    set (s1 := Runs.after_effects (Runs.post_effects s payload [k])
                 (Runs.at_cursor (c + 1) s)).
    assert (Hks1 : keys (remotes s1) = all)
      by (destruct s as [[? ? ? ? ?] ? ? ? ? [? ? ? ?]]; reflexivity).
    assert (Hc1 : RemoteAware.remoteKey (ra s1) = c + 1)
      by (destruct s as [[? ? ? ? ?] ? ? ? ? [? ? ? ?]]; reflexivity).
    specialize (IH s1). rewrite Hks1, Hc1 in IH.
    rewrite (bind_ret _ _ _ _ _ (IH ltac:(lia) ltac:(lia))).
    unfold ret.
    replace (c + 1) with (S c) by lia.
    replace (S c + S n) with (c + S (S n)) by lia.
    f_equal. unfold s1.
    rewrite post_effects_at, at_cursor_after_effects, at_cursor_at_cursor.
    rewrite after_effects_app.
    change (k :: firstn (S n) (skipn (S c) all))
      with ([k] ++ firstn (S n) (skipn (S c) all))%list.
    unfold Runs.post_effects. rewrite flat_map_app. reflexivity.
Qed.

End ControllerPosts.

(** X15: the controller's [postMessage] balances over its workers.
    With [k] workers and the cursor inside the key list, [k]
    consecutive calls return every worker's key once, in key order
    starting at the cursor, each call posts its message (the data,
    stamped with the controller's id and copied) to the worker it
    names, and the cursor ends where it started. *)
Theorem X15_postMessage_round_robin
  (s : WorkerCluster.t) (payload : Obj JsVal) :
  let ks := keys (WorkerCluster.remotes s) in
  let c := RemoteAware.remoteKey (WorkerCluster.ra s) in
  c < length ks ->
  let round := (skipn c ks ++ firstn c ks)%list in
  Runs.posts (length ks) payload s =
  (Ret (map VStr round),
   Runs.after_effects (Runs.post_effects s payload round) s)
  /\ Permutation round ks.
Proof.
  intros ks c Hc round.
  split; [| unfold round; rewrite Permutation_app_comm, firstn_skipn;
            reflexivity].
  set (k := length ks) in *.
  replace k with ((k - c) + c) by lia.
  rewrite posts_app.
  rewrite (bind_ret _ _ _ _ _
             (posts_straight (k - c) payload s ltac:(fold ks c k; lia)
                ltac:(lia))).
  fold ks c k. replace (c + (k - c)) with k by lia. rewrite Nat.eqb_refl.
  rewrite (firstn_all2 (n := k - c)) by (rewrite length_skipn; fold k; lia).
  set (s1 := Runs.after_effects _ (Runs.at_cursor 0 s)).
  assert (Hks1 : keys (WorkerCluster.remotes s1) = ks)
    by (destruct s as [[? ? ? ? ?] ? ? ? ? [? ? ? ?]]; reflexivity).
  assert (Hc1 : RemoteAware.remoteKey (WorkerCluster.ra s1) = 0)
    by (destruct s as [[? ? ? ? ?] ? ? ? ? [? ? ? ?]]; reflexivity).
  assert (Hcur : Runs.at_cursor c s = s) by apply at_cursor_same.
  destruct (Nat.eq_dec c 0) as [Ec|Ec].
  - unfold round, s1. rewrite Ec in Hcur |- *.
    cbn [Runs.posts skipn firstn]. rewrite !bind_ret_l. unfold ret.
    rewrite !app_nil_r, Hcur. reflexivity.
  - pose proof (posts_straight c payload s1) as Hsecond.
    rewrite Hks1, Hc1 in Hsecond. cbn [Nat.add skipn] in Hsecond.
    rewrite (bind_ret _ _ _ _ _ (Hsecond ltac:(fold k; lia) ltac:(lia))).
    unfold ret.
    destruct (Nat.eqb_spec c (length ks)) as [E|E]; [fold k in E; lia|].
    unfold round. rewrite map_app. f_equal. unfold s1.
    rewrite post_effects_at, at_cursor_after_effects, at_cursor_at_cursor.
    rewrite after_effects_app.
    unfold Runs.post_effects. rewrite flat_map_app, Hcur. reflexivity.
Qed.

Lemma X15_witness :
  let s := Runs.cluster_with
             [("1.t", Runs.unit_with "1.t" 0 "2.t");
              ("3.t", Runs.unit_with "3.t" 1 "4.t")] 1 [] in
  Runs.posts 2 [("n", VNum 7)] s =
  (Ret [VStr "3.t"; VStr "1.t"],
   Runs.after_effects
     [RemoteWorker.WorkerPost 1
        (VObj [("n", VNum 7); ("thread", VStr RemoteAware.MASTER_THREAD)]) [];
      RemoteWorker.WorkerPost 0
        (VObj [("n", VNum 7); ("thread", VStr RemoteAware.MASTER_THREAD)]) []]
     s).
Proof.
  intros s.
  assert (Hc : RemoteAware.remoteKey (WorkerCluster.ra s)
               < length (keys (WorkerCluster.remotes s))) by (cbn; lia).
  exact (proj1 (X15_postMessage_round_robin s [("n", VNum 7)] Hc)).
Defined.

(** ** Commands the controller sends *)
Section ControllerCommands.
Import WorkerCluster.

(** [sendCommand] when the unit under the cursor is live. *)
Lemma cluster_sendCommand_sent
  (i : JsVal) (rs : Obj RemoteWorker.t) (cbs : Obj nat) (rk : nat)
  (pr : list RemoteAware.PromiseState) (ls : Obj ListenerAware.Listener)
  (ha hat : JsVal) (wh : RemoteWorker.Which) (g : IdSource) (nw nc : nat)
  (es : list RemoteWorker.Effect) (name : string) (args : list JsVal)
  (k : string) (remote : RemoteWorker.t) (h : nat) :
  nth_error (keys rs) rk = Some k ->
  get k rs = Some remote ->
  RemoteWorker.worker remote = Some h ->
  k <> "" ->
  sendCommand name args
    (mk (RemoteAware.mk i rs cbs rk pr) ls ha hat wh
        (RemoteWorker.mkWorld g nw nc es)) =
  (Ret (length pr),
   mk (RemoteAware.mk i rs
         (set (fst (Ids.getUniqueId g)) (length pr) cbs)
         (RemoteAware.next_cursor (keys rs) rk)
         (pr ++ [RemoteAware.Pending])%list)
      ls ha hat wh
      (RemoteWorker.mkWorld (snd (Ids.getUniqueId g)) nw nc
         (es ++ [RemoteWorker.WorkerPost h
                   (Runs.broadcast_payload i
                      (Runs.request name args (fst (Ids.getUniqueId g))))
                   []])%list)).
Proof.
  intros Hnth Hget Hw Hk.
  unfold sendCommand. unfold bind at 1. unfold call at 1.
  unfold RemoteWorker.getUniqueId.
  cbn [world RemoteWorker.ids RemoteWorker.next_worker
       RemoteWorker.next_channel RemoteWorker.effects].
  destruct (Ids.getUniqueId g) as [cid g'] eqn:Hid. cbn [fst snd].
  unfold bind at 1. unfold mixin_pure at 1.
  unfold RemoteAware.registerCallbackId.
  cbn [with_world ra listeners httpAuthorization httpAccessToken which world
       with_ra RemoteAware.promises RemoteAware.callbacks
       RemoteAware.with_callbacks RemoteAware.with_promises RemoteAware.id
       RemoteAware.remotes RemoteAware.remoteKey].
  erewrite bind_ret; cycle 1.
  { apply (postMessage_step _ _ k). exact Hnth. }
  assert (Ht : truthy (VStr k) = true).
  { cbn [truthy]. destruct (String.eqb_spec k ""); [contradiction|reflexivity]. }
  rewrite Ht. cbn [negb]. unfold ret. f_equal.
  unfold Runs.post_effects, Runs.after_effects, Runs.at_cursor, remotes.
  cbn -[get Runs.broadcast_payload RemoteAware.next_cursor keys set].
  rewrite Hget, Hw. reflexivity.
Qed.

(** [sendCommand] of a controller without units. *)
Lemma cluster_sendCommand_unsent
  (i : JsVal) (cbs : Obj nat) (rk : nat)
  (pr : list RemoteAware.PromiseState) (ls : Obj ListenerAware.Listener)
  (ha hat : JsVal) (wh : RemoteWorker.Which) (g : IdSource) (nw nc : nat)
  (es : list RemoteWorker.Effect) (name : string) (args : list JsVal) :
  sendCommand name args
    (mk (RemoteAware.mk i [] cbs rk pr) ls ha hat wh
        (RemoteWorker.mkWorld g nw nc es)) =
  (Exn (newError "ReferenceError" "command is not defined"),
   mk (RemoteAware.mk i []
         (set (fst (Ids.getUniqueId g)) (length pr) cbs)
         0 (pr ++ [RemoteAware.Pending])%list)
      ls ha hat wh
      (RemoteWorker.mkWorld (snd (Ids.getUniqueId g)) nw nc es)).
Proof.
  unfold sendCommand. unfold bind at 1. unfold call at 1.
  unfold RemoteWorker.getUniqueId.
  cbn [world RemoteWorker.ids RemoteWorker.next_worker
       RemoteWorker.next_channel RemoteWorker.effects].
  destruct (Ids.getUniqueId g) as [cid g'] eqn:Hid. cbn [fst snd].
  assert (Hnc : RemoteAware.next_cursor [] rk = 0).
  { unfold RemoteAware.next_cursor. cbn [length].
    destruct (Z.geb_spec (Z.of_nat rk) (Z.of_nat 0 - 1)); [reflexivity | lia]. }
  unfold bind, mixin_pure, RemoteAware.registerCallbackId, postMessage,
    postRemoteMessage, gets, RemoteAware.getNextRemoteKey, RemoteAware.key_at,
    sendMessageToRemote.
  cbn -[RemoteAware.next_cursor set].
  destruct rk; cbn -[RemoteAware.next_cursor set]; rewrite Hnc; reflexivity.
Qed.

End ControllerCommands.

(** X16: [sendCommand] of the controller.  With a live unit under the
    round-robin cursor the call returns a new pending promise, files it
    under a new correlation id and posts one request (command name,
    arguments, the correlation id and the controller's id) to that
    unit.  A controller without units files the promise all the same
    and then raises a ReferenceError: the promise is never settled and
    its entry stays in the table. *)
Theorem X16_cluster_sendCommand
  (s : WorkerCluster.t) (name : string) (args : list JsVal) :
  let cid := fst (Ids.getUniqueId (RemoteWorker.ids (WorkerCluster.world s))) in
  let promise := length (RemoteAware.promises (WorkerCluster.ra s)) in
  (forall (k : string) (remote : RemoteWorker.t) (h : nat),
      nth_error (keys (WorkerCluster.remotes s))
        (RemoteAware.remoteKey (WorkerCluster.ra s)) = Some k ->
      get k (WorkerCluster.remotes s) = Some remote ->
      RemoteWorker.worker remote = Some h ->
      k <> "" ->
      exists s' : WorkerCluster.t,
        WorkerCluster.sendCommand name args s = (Ret promise, s')
        /\ RemoteWorker.effects (WorkerCluster.world s') =
           (RemoteWorker.effects (WorkerCluster.world s) ++
            [RemoteWorker.WorkerPost h
               (Runs.broadcast_payload (RemoteAware.id (WorkerCluster.ra s))
                  (Runs.request name args cid)) []])%list
        /\ RemoteAware.callbacks (WorkerCluster.ra s') =
           set cid promise (RemoteAware.callbacks (WorkerCluster.ra s))
        /\ RemoteAware.promises (WorkerCluster.ra s') =
           (RemoteAware.promises (WorkerCluster.ra s) ++
            [RemoteAware.Pending])%list)
  /\ (WorkerCluster.remotes s = [] ->
      exists s' : WorkerCluster.t,
        WorkerCluster.sendCommand name args s =
        (Exn (newError "ReferenceError" "command is not defined"), s')
        /\ RemoteWorker.effects (WorkerCluster.world s') =
           RemoteWorker.effects (WorkerCluster.world s)
        /\ RemoteAware.callbacks (WorkerCluster.ra s') =
           set cid promise (RemoteAware.callbacks (WorkerCluster.ra s))
        /\ RemoteAware.promises (WorkerCluster.ra s') =
           (RemoteAware.promises (WorkerCluster.ra s) ++
            [RemoteAware.Pending])%list).
Proof.
  destruct s as [[i rs cbs rk pr] ls ha hat wh [g nw nc es]].
  unfold WorkerCluster.remotes.
  cbn [WorkerCluster.ra WorkerCluster.world RemoteWorker.ids
       RemoteAware.promises RemoteAware.remotes RemoteAware.remoteKey
       RemoteAware.id RemoteAware.callbacks RemoteWorker.effects].
  split.
  - intros k remote h Hnth Hget Hw Hk.
    eexists. split.
    + apply (cluster_sendCommand_sent i rs cbs rk pr ls ha hat wh g nw nc es
               name args k remote h Hnth Hget Hw Hk).
    + repeat split.
  - intros ->. eexists. split.
    + apply cluster_sendCommand_unsent.
    + repeat split.
Qed.

Lemma X16_witness :
  let s := Runs.cluster_with
             [("1.t", Runs.unit_with "1.t" 0 "2.t");
              ("3.t", Runs.unit_with "3.t" 1 "4.t")] 1 [] in
  exists s' : WorkerCluster.t,
    WorkerCluster.sendCommand "echo" [VNum 42] s = (Ret 0, s')
    /\ RemoteWorker.effects (WorkerCluster.world s') =
       [RemoteWorker.WorkerPost 1
          (VObj [("cmd", VStr "echo"); ("args", VArr [VNum 42]);
                 ("callbackId", VStr "1.1700000000000.12.5.0.25");
                 ("thread", VStr RemoteAware.MASTER_THREAD)]) []].
Proof.
  intros s.
  assert (Hk : "3.t" <> "") by discriminate.
  destruct (proj1 (X16_cluster_sendCommand s "echo" [VNum 42])
              "3.t" (Runs.unit_with "3.t" 1 "4.t") 1
              eq_refl eq_refl eq_refl Hk)
    as (s' & Hrun & Heff & _).
  exists s'. split; [exact Hrun | exact Heff].
Defined.

(** X17: a command of the controller and its result.  After
    [sendCommand] has posted the request, the result message that
    carries the request's correlation id, arriving on the handle of a
    unit, settles the promise [sendCommand] returned (rejected with the
    error field when that is set, resolved with the data field
    otherwise), leaves the callback table as it was before the command,
    and is shown to none of the controller's listeners. *)
Theorem X17_cluster_command_round_trip
  (s : WorkerCluster.t) (name : string) (args : list JsVal)
  (k : string) (remote : RemoteWorker.t) (h : nat)
  (from : RemoteWorker.t) (idx : string) (reply : Obj JsVal) :
  let cid := fst (Ids.getUniqueId (RemoteWorker.ids (WorkerCluster.world s))) in
  let promise := length (RemoteAware.promises (WorkerCluster.ra s)) in
  let evt := Runs.delivered (VObj reply) in
  nth_error (keys (WorkerCluster.remotes s))
    (RemoteAware.remoteKey (WorkerCluster.ra s)) = Some k ->
  get k (WorkerCluster.remotes s) = Some remote ->
  RemoteWorker.worker remote = Some h ->
  k <> "" ->
  get cid (RemoteAware.callbacks (WorkerCluster.ra s)) = None ->
  RemoteWorker.listeners from = [(idx, RemoteWorker.ForwardToCluster)] ->
  prop reply "returnId" = VStr cid ->
  exists s1 s2 : WorkerCluster.t,
    WorkerCluster.sendCommand name args s = (Ret promise, s1)
    /\ WorkerCluster.worker_messageListener from evt s1 =
       (Ret [ListenerAware.mkCall idx evt], s2)
    /\ RemoteAware.promises (WorkerCluster.ra s2) =
       (RemoteAware.promises (WorkerCluster.ra s) ++
        [if truthy (prop reply "error")
         then RemoteAware.Rejected (prop reply "error")
         else RemoteAware.Resolved (prop reply "data")])%list
    /\ RemoteAware.callbacks (WorkerCluster.ra s2) =
       RemoteAware.callbacks (WorkerCluster.ra s)
    /\ RemoteWorker.effects (WorkerCluster.world s2) =
       RemoteWorker.effects (WorkerCluster.world s1).
Proof.
  destruct s as [[i rs cbs rk pr] ls ha hat wh [g nw nc es]].
  unfold WorkerCluster.remotes.
  cbn [WorkerCluster.ra WorkerCluster.world RemoteWorker.ids
       RemoteAware.promises RemoteAware.remotes RemoteAware.remoteKey
       RemoteAware.id RemoteAware.callbacks RemoteWorker.effects].
  cbv zeta.
  set (cid := fst (Ids.getUniqueId g)).
  set (promise := length pr).
  set (evt := Runs.delivered (VObj reply)).
  intros Hnth Hget Hw Hk Hnone Hls Hid.
  assert (Hcid : cid <> "").
  { unfold cid, Ids.getUniqueId. cbn [fst].
    destruct (dec_of_N (uniqueId g + 1)); discriminate. }
  eexists. eexists. split.
  { apply (cluster_sendCommand_sent i rs cbs rk pr ls ha hat wh g nw nc es
             name args k remote h Hnth Hget Hw Hk). }
  fold cid.
  unfold WorkerCluster.worker_messageListener. rewrite Hls.
  cbn [WorkerCluster.worker_executeMessageListeners].
  unfold WorkerCluster.messageListener, evt, Runs.delivered.
  cbn [data field lift]. rewrite !bind_ret_l. rewrite Hid.
  assert (Ht : truthy (VStr cid) = true).
  { cbn [truthy]. destruct (String.eqb_spec cid ""); [contradiction|reflexivity]. }
  rewrite Ht.
  unfold bind, WorkerCluster.mixin. cbn [WorkerCluster.ra].
  rewrite (receive_registered _ reply [] true cid promise Hid)
    by (cbn [RemoteAware.callbacks]; apply get_set_same).
  cbn [RemoteAware.with_promises RemoteAware.with_callbacks RemoteAware.id
       RemoteAware.remotes RemoteAware.remoteKey RemoteAware.promises
       RemoteAware.callbacks WorkerCluster.with_ra WorkerCluster.ra
       WorkerCluster.listeners WorkerCluster.httpAuthorization
       WorkerCluster.httpAccessToken WorkerCluster.which WorkerCluster.world].
  unfold promise. rewrite settle_at_last, del_set_fresh by exact Hnone.
  unfold bind, ret. cbn [app].
  split; [reflexivity|]. repeat split.
Qed.

Lemma X17_witness :
  let s := Runs.cluster_with
             [("1.t", Runs.unit_with "1.t" 0 "2.t");
              ("3.t", Runs.unit_with "3.t" 1 "4.t")] 1 [] in
  let evt := Runs.delivered
               (VObj [("returnId", VStr "1.1700000000000.12.5.0.25");
                      ("data", VNum 42)]) in
  exists s1 s2 : WorkerCluster.t,
    WorkerCluster.sendCommand "echo" [VNum 42] s = (Ret 0, s1)
    /\ WorkerCluster.worker_messageListener
         (Runs.unit_with "3.t" 1 "4.t") evt s1 =
       (Ret [ListenerAware.mkCall "4.t" evt], s2)
    /\ RemoteAware.promises (WorkerCluster.ra s2) =
       [RemoteAware.Resolved (VNum 42)].
Proof.
  intros s evt.
  assert (Hk : "3.t" <> "") by discriminate.
  destruct (X17_cluster_command_round_trip s "echo" [VNum 42]
              "3.t" (Runs.unit_with "3.t" 1 "4.t") 1
              (Runs.unit_with "3.t" 1 "4.t") "4.t"
              [("returnId", VStr "1.1700000000000.12.5.0.25");
               ("data", VNum 42)]
              eq_refl eq_refl eq_refl Hk eq_refl eq_refl eq_refl)
    as (s1 & s2 & Hrun & Hreply & Hpr & _).
  exists s1, s2. split; [exact Hrun|]. split; [exact Hreply | exact Hpr].
Defined.

(** X18: what the controller's listeners see.  A message that arrives
    on a unit's handle and carries no correlation id is given to every
    listener of the controller, in registration order, as long as the
    listeners return; so is an error of the unit, wrapped as the data
    [{error}] of an untrusted event.  A message with a correlation id
    that names no pending command, and is not a name every object
    inherits, is dropped: no listener sees it and nothing changes. *)
Theorem X18_what_the_controllers_listeners_see
  (s : WorkerCluster.t) (from : RemoteWorker.t) (idx : string) :
  RemoteWorker.listeners from = [(idx, RemoteWorker.ForwardToCluster)] ->
  (forall (o : Obj JsVal) (ps : list Port) (tr : bool),
      let evt := mkEvent (VObj o) ps tr in
      truthy (prop o "returnId") = false ->
      (forall i fn, In (i, fn) (WorkerCluster.listeners s) -> fn evt = None) ->
      WorkerCluster.worker_messageListener from evt s =
      (Ret (ListenerAware.mkCall idx evt ::
            map (fun i => ListenerAware.mkCall i evt)
                (keys (WorkerCluster.listeners s))), s))
  /\ (forall error : JsVal,
      let evt := mkEvent (VObj [("error", error)]) [] false in
      (forall i fn, In (i, fn) (WorkerCluster.listeners s) -> fn evt = None) ->
      WorkerCluster.worker_errorListener from error s =
      (Ret (ListenerAware.mkCall idx evt ::
            map (fun i => ListenerAware.mkCall i evt)
                (keys (WorkerCluster.listeners s))), s))
  /\ (forall (o : Obj JsVal) (ps : list Port) (tr : bool),
      let evt := mkEvent (VObj o) ps tr in
      truthy (prop o "returnId") = true ->
      inherited (to_string (prop o "returnId")) = false ->
      get (to_string (prop o "returnId"))
        (RemoteAware.callbacks (WorkerCluster.ra s)) = None ->
      WorkerCluster.worker_messageListener from evt s =
      (Ret [ListenerAware.mkCall idx evt], s)).
Proof.
  intros Hls.
  assert (Hplain : forall (o : Obj JsVal) (ps : list Port) (tr : bool),
             truthy (prop o "returnId") = false ->
             (forall i fn, In (i, fn) (WorkerCluster.listeners s) ->
                           fn (mkEvent (VObj o) ps tr) = None) ->
             WorkerCluster.worker_executeMessageListeners
               (mkEvent (VObj o) ps tr)
               [(idx, RemoteWorker.ForwardToCluster)] s =
             (Ret (ListenerAware.mkCall idx (mkEvent (VObj o) ps tr) ::
                   map (fun i => ListenerAware.mkCall i (mkEvent (VObj o) ps tr))
                       (keys (WorkerCluster.listeners s))), s)).
  { intros o ps tr Hid Hall.
    cbn [WorkerCluster.worker_executeMessageListeners].
    unfold WorkerCluster.messageListener.
    cbn [data field lift]. rewrite !bind_ret_l. rewrite Hid.
    unfold bind at 1. unfold WorkerCluster.executeMessageListeners.
    rewrite (dispatch_all_return _ _ Hall).
    rewrite bind_ret_l. unfold ret. rewrite app_nil_r. reflexivity. }
  split; [|split].
  - intros o ps tr evt Hid Hall.
    unfold WorkerCluster.worker_messageListener. rewrite Hls.
    apply Hplain; assumption.
  - intros error evt Hall.
    unfold WorkerCluster.worker_errorListener. rewrite Hls.
    apply Hplain; [reflexivity | exact Hall].
  - intros o ps tr evt Hid _ Hnone.
    unfold WorkerCluster.worker_messageListener. rewrite Hls.
    cbn [WorkerCluster.worker_executeMessageListeners].
    unfold WorkerCluster.messageListener, evt.
    cbn [data field lift]. rewrite !bind_ret_l. rewrite Hid.
    unfold bind, WorkerCluster.mixin.
    rewrite (receiveCommandResult_unknown _ o ps tr Hnone).
    destruct s as [[? ? ? ? ?] ? ? ? ? [? ? ? ?]]. reflexivity.
Qed.

Lemma X18_witness :
  let s := Runs.cluster_with [] 0 [("5.t", fun _ => None); ("6.t", fun _ => None)] in
  let evt := mkEvent (VObj [("error", VStr "boom")]) [] false in
  WorkerCluster.worker_errorListener (Runs.unit_with "3.t" 1 "4.t")
    (VStr "boom") s =
  (Ret [ListenerAware.mkCall "4.t" evt; ListenerAware.mkCall "5.t" evt;
        ListenerAware.mkCall "6.t" evt], s).
Proof.
  intros s evt.
  assert (Hall : forall i fn, In (i, fn) (WorkerCluster.listeners s) ->
                              fn evt = None).
  { intros i fn [E|[E|[]]]; inversion E; reflexivity. }
  exact (proj1 (proj2 (X18_what_the_controllers_listeners_see s
                         (Runs.unit_with "3.t" 1 "4.t") "4.t" eq_refl))
           (VStr "boom") Hall).
Defined.

(** ** Spawning and terminating *)

Lemma spawn_one_invalid (s : WorkerCluster.t) :
  WorkerCluster.which s = RemoteWorker.NotAWorker ->
  WorkerCluster.spawn_one s = (Exn (Error "Invalid Argument"), s).
Proof.
  intros H. destruct s as [r l a k w [g nw nc es]]. cbn in H. subst w.
  reflexivity.
Qed.

(** X19: a controller built from something that is neither a script URL
    nor a worker class.  [spawn], with any count, raises Invalid
    Argument in its first round: no worker is requested from the host,
    no identifier is used up, and no unit is registered. *)
Theorem X19_spawn_refuses_an_invalid_source (n : Z) (s : WorkerCluster.t) :
  WorkerCluster.which s = RemoteWorker.NotAWorker ->
  WorkerCluster.spawn n s = (Exn (Error "Invalid Argument"), s).
Proof.
  revert n s.
  apply (WorkerCluster.spawn_elim
           (fun n s res =>
              WorkerCluster.which s = RemoteWorker.NotAWorker ->
              res = (Exn (Error "Invalid Argument"), s))).
  - intros n s e s1 Hone H. rewrite (spawn_one_invalid s H) in Hone.
    symmetry. exact Hone.
  - intros n s s1 Hone H. rewrite (spawn_one_invalid s H) in Hone.
    discriminate.
  - intros n Hlt s a s1 _ _ Hone H. rewrite (spawn_one_invalid s H) in Hone.
    discriminate.
  - intros n Hge s a s1 _ Hone H. rewrite (spawn_one_invalid s H) in Hone.
    discriminate.
Qed.

Lemma X19_witness :
  WorkerCluster.constructor RemoteWorker.NotAWorker 3
    (mkIdSource 0 Runs.still_clock) =
  (Exn (Error "Invalid Argument"),
   WorkerCluster.create RemoteWorker.NotAWorker (mkIdSource 0 Runs.still_clock)).
Proof.
  exact (X19_spawn_refuses_an_invalid_source 3
           (WorkerCluster.create RemoteWorker.NotAWorker
              (mkIdSource 0 Runs.still_clock)) eq_refl).
Defined.

(** X20: [terminate] of the controller changes nothing.  Whatever the
    state, and for every argument that is not a name every object
    inherits, the call leaves the controller as it was: no unit is
    released, no entry is removed from the sibling map and no removal
    notice is posted.  It returns only when there is nothing to
    terminate (an id that is no key of the map, or no id and an empty
    map) and raises otherwise. *)
Theorem X20_cluster_terminate_changes_nothing
  (id : JsVal) (s : WorkerCluster.t) :
  inherited (to_string id) = false ->
  exists o : Outcome unit,
    WorkerCluster.terminate id s = (o, s)
    /\ (o = Ret tt <->
        if truthy id then has (to_string id) (WorkerCluster.remotes s) = false
        else WorkerCluster.remotes s = []).
Proof.
  intros _. unfold WorkerCluster.terminate.
  destruct (truthy id); cbn [negb].
  - unfold has.
    destruct (get (to_string id) (WorkerCluster.remotes s)) as [remote|] eqn:Hget.
    + rewrite (cluster_terminate_raises _ remote s Hget).
      eexists. split; [reflexivity|]. split; discriminate.
    + unfold WorkerCluster.terminate_one. rewrite bind_gets, Hget.
      eexists. split; [reflexivity|]. split; reflexivity.
  - rewrite bind_gets.
    destruct (WorkerCluster.remotes s) as [|[k r] rest] eqn:Hrs.
    + eexists. split; [reflexivity|]. split; reflexivity.
    + cbn [keys map fst WorkerCluster.terminate_each].
      destruct (k =? "") eqn:Hk.
      * eexists. split; [reflexivity|]. split; discriminate.
      * assert (Hget : get k (WorkerCluster.remotes s) = Some r)
          by (rewrite Hrs; cbn [get]; rewrite String.eqb_refl; reflexivity).
        unfold bind. rewrite (cluster_terminate_raises k r s Hget).
        eexists. split; [reflexivity|]. split; discriminate.
Qed.

Lemma X20_witness :
  let s := Runs.cluster_with
             [("1.t", Runs.unit_with "1.t" 0 "2.t");
              ("3.t", Runs.unit_with "3.t" 1 "4.t")] 0 [] in
  (exists o : Outcome unit,
     WorkerCluster.terminate (VStr "3.t") s = (o, s) /\ o <> Ret tt)
  /\ WorkerCluster.terminate (VStr "9.t") s = (Ret tt, s).
Proof.
  intros s. split.
  - destruct (X20_cluster_terminate_changes_nothing (VStr "3.t") s eq_refl)
      as (o & Hrun & Hiff).
    exists o. split; [exact Hrun|].
    intros Ho. apply Hiff in Ho. discriminate Ho.
  - destruct (X20_cluster_terminate_changes_nothing (VStr "9.t") s eq_refl)
      as (o & Hrun & Hiff).
    rewrite Hrun. f_equal. apply Hiff. reflexivity.
Defined.

(** X21: a channel between two unit handles.  Registering [other] with
    [this] opens one channel, starts both of its ports, hands the first
    port to [other] (with the id to listen to) and the second to [this]
    (with the id of the new remote), and files the channel under the id
    of [other].  Registering a handle with the same id again raises and
    does nothing. *)
Theorem X21_registerRemoteThread_once
  (this other : RemoteWorker.t) (x : RemoteWorker.World) (h h' : nat) :
  has (RemoteWorker.id other) (RemoteWorker.threads this) = false ->
  RemoteWorker.worker this = Some h ->
  RemoteWorker.worker other = Some h' ->
  let c := RemoteWorker.next_channel x in
  exists (this' : RemoteWorker.t) (x' : RemoteWorker.World),
    RemoteWorker.registerRemoteThread this other x = (Ret this', x')
    /\ RemoteWorker.threads this' =
       set (RemoteWorker.id other) c (RemoteWorker.threads this)
    /\ RemoteWorker.next_channel x' = S c
    /\ RemoteWorker.effects x' =
       (RemoteWorker.effects x ++
        [RemoteWorker.ChannelOpen c;
         RemoteWorker.PortStart (mkPort c Port1);
         RemoteWorker.PortStart (mkPort c Port2);
         RemoteWorker.WorkerPost h'
           (VObj [("listen", VStr (RemoteWorker.id this))]) [mkPort c Port1];
         RemoteWorker.WorkerPost h
           (VObj [("remote", VStr (RemoteWorker.id other))]) [mkPort c Port2]])%list
    /\ forall (again : RemoteWorker.t) (y : RemoteWorker.World),
         RemoteWorker.id again = RemoteWorker.id other ->
         RemoteWorker.registerRemoteThread this' again y =
         (Exn (Error ("Worker thread, " ++ RemoteWorker.id other ++
                      ", is already registered")), y).
Proof.
  intros Hfresh Hw Hw' c.
  unfold RemoteWorker.registerRemoteThread at 1. rewrite Hfresh.
  unfold RemoteWorker.new_channel, RemoteWorker.postMessage.
  cbn [RemoteWorker.worker]. rewrite Hw, Hw'.
  unfold bind, gets, modify, RemoteWorker.emit, ret.
  eexists. eexists. split; [reflexivity|].
  cbn [RemoteWorker.threads RemoteWorker.next_channel RemoteWorker.effects
       RemoteWorker.with_effects].
  split; [reflexivity|]. split; [reflexivity|].
  split; [rewrite <- !app_assoc; reflexivity|].
  intros again y Hid. unfold RemoteWorker.registerRemoteThread.
  cbn [RemoteWorker.threads]. rewrite Hid. unfold has.
  rewrite get_set_same. reflexivity.
Qed.

Lemma X21_witness :
  exists (this' : RemoteWorker.t) (x' : RemoteWorker.World),
    RemoteWorker.registerRemoteThread
      (Runs.unit_with "1.t" 0 "2.t") (Runs.unit_with "3.t" 1 "4.t")
      (RemoteWorker.mkWorld (mkIdSource 4 Runs.still_clock) 2 0 []) =
    (Ret this', x')
    /\ RemoteWorker.threads this' = [("3.t", 0)]
    /\ RemoteWorker.registerRemoteThread this'
         (Runs.unit_with "3.t" 1 "4.t") x' =
       (Exn (Error "Worker thread, 3.t, is already registered"), x').
Proof.
  destruct (X21_registerRemoteThread_once
              (Runs.unit_with "1.t" 0 "2.t") (Runs.unit_with "3.t" 1 "4.t")
              (RemoteWorker.mkWorld (mkIdSource 4 Runs.still_clock) 2 0 [])
              0 1 eq_refl eq_refl eq_refl)
    as (this' & x' & Hrun & Hth & _ & _ & Hagain).
  exists this', x'. split; [exact Hrun|]. split; [exact Hth|].
  exact (Hagain (Runs.unit_with "3.t" 1 "4.t") x' eq_refl).
Defined.

(** ** The mesh of channels *)
Section Mesh.
Import WorkerCluster.

Lemma in_get_nodup {A} (k : string) (v : A) (o : Obj A) :
  NoDup (keys o) -> In (k, v) o -> get k o = Some v.
Proof.
  induction o as [|[k' v'] o IH]; simpl; [intros _ []|].
  intros Hnd [H|H].
  - injection H as -> ->. rewrite String.eqb_refl. reflexivity.
  - inversion Hnd as [|? ? Hnotin Hnd']; subst.
    destruct (String.eqb_spec k k') as [->|Hne].
    + exfalso. apply Hnotin. change (In (fst (k', v)) (map fst o)).
      apply in_map. exact H.
    + apply IH; assumption.
Qed.

Lemma filter_others_fresh (k : string) (l : list string) :
  ~ In k l -> filter (fun k' => negb (k' =? k)) l = l.
Proof.
  induction l as [|a l IH]; simpl; [reflexivity|].
  intros H. destruct (String.eqb_spec a k) as [->|Hne].
  - exfalso. apply H. left. reflexivity.
  - cbn [negb]. f_equal. apply IH. intros Hin. apply H. right. exact Hin.
Qed.

(** The loop of [registerRemoteThread], for the channel maps: every
    unit visited gains the new unit's id at the end of its map, and the
    units not visited stay as they are. *)
Lemma cross_wire_mesh (ks : list string) :
  forall (w : RemoteWorker.t) (s : t) (w' : RemoteWorker.t) (s' : t),
    NoDup ks ->
    (forall k, In k ks ->
       exists r, get k (remotes s) = Some r /\ RemoteWorker.id r = k
                 /\ has (RemoteWorker.id w) (RemoteWorker.threads r) = false) ->
    (forall k, In k ks -> has k (RemoteWorker.threads w) = false) ->
    cross_wire ks w s = (Ret w', s') ->
    (forall k, In k ks ->
       exists r r', get k (remotes s) = Some r
                    /\ get k (remotes s') = Some r'
                    /\ keys (RemoteWorker.threads r') =
                       (keys (RemoteWorker.threads r) ++ [RemoteWorker.id w])%list)
    /\ (forall k, ~ In k ks -> get k (remotes s') = get k (remotes s)).
Proof.
  induction ks as [|k rest IH]; intros w s w' s' Hnd Hrem Hw Hrun.
  - cbn in Hrun. injection Hrun as _ <-.
    split; [intros k [] | reflexivity].
  - inversion Hnd as [|? ? Hnotin Hnd']; subst.
    destruct (Hrem k (or_introl eq_refl)) as (r & Hget & Hid & Hfresh).
    destruct (registerRemoteThread_ok r w (world s) Hfresh)
      as (c & x1 & Hreg1 & _).
    set (r' := RemoteWorker.mk (RemoteWorker.id r) (RemoteWorker.worker r)
                 (set (RemoteWorker.id w) c (RemoteWorker.threads r))
                 (RemoteWorker.listeners r)) in *.
    set (s1 := with_world x1 s).
    set (s2 := with_remotes (set k r' (remotes s1)) s1).
    assert (Hwk : has (RemoteWorker.id r') (RemoteWorker.threads w) = false).
    { cbn [r' RemoteWorker.id]. rewrite Hid. apply Hw. left. reflexivity. }
    destruct (registerRemoteThread_ok w r' (world s2) Hwk)
      as (c' & x3 & Hreg2 & _).
    set (w1 := RemoteWorker.mk (RemoteWorker.id w) (RemoteWorker.worker w)
                 (set (RemoteWorker.id r') c' (RemoteWorker.threads w))
                 (RemoteWorker.listeners w)) in *.
    set (s3 := with_world x3 s2).
    assert (Hrs3 : remotes s3 = set k r' (remotes s)) by reflexivity.
    assert (Hstep : cross_wire (k :: rest) w s = cross_wire rest w1 s3).
    { cbn [cross_wire].
      rewrite (bind_ret _ _ s s (remotes s)) by reflexivity.
      rewrite Hget.
      rewrite (bind_ret _ _ s s1 r') by (apply call_ret; exact Hreg1).
      rewrite (bind_ret _ _ s1 s2 tt) by reflexivity.
      rewrite (bind_ret _ _ s2 s3 w1) by (apply call_ret; exact Hreg2).
      reflexivity. }
    rewrite Hstep in Hrun.
    destruct (IH w1 s3 w' s' Hnd') as (Hin_rest & Hout_rest).
    + intros k' Hin. assert (Hne : k' <> k) by (intros ->; contradiction).
      destruct (Hrem k' (or_intror Hin)) as (r0 & Hget0 & Hid0 & Hfresh0).
      exists r0. rewrite Hrs3, (get_set_other _ _ _ _ Hne). auto.
    + intros k' Hin. assert (Hne : k' <> k) by (intros ->; contradiction).
      cbn [w1 RemoteWorker.threads r' RemoteWorker.id]. rewrite Hid.
      unfold has. rewrite (get_set_other _ _ _ _ Hne).
      apply (Hw k'). right. exact Hin.
    + exact Hrun.
    + split.
      * intros k0 [<-|Hin].
        -- exists r, r'. split; [exact Hget|]. split.
           ++ rewrite (Hout_rest k Hnotin), Hrs3. apply get_set_same.
           ++ cbn [r' RemoteWorker.threads]. apply keys_set_fresh.
              apply get_none_not_in, has_false_not_in. exact Hfresh.
        -- assert (Hne : k0 <> k) by (intros ->; contradiction).
           destruct (Hin_rest k0 Hin) as (r0 & r0' & Hget0 & Hget0' & Hkeys0).
           exists r0, r0'.
           rewrite Hrs3, (get_set_other _ _ _ _ Hne) in Hget0.
           split; [exact Hget0|]. split; [exact Hget0'|]. exact Hkeys0.
      * intros k0 Hnot.
        assert (Hne : k0 <> k) by (intros ->; apply Hnot; left; reflexivity).
        rewrite (Hout_rest k0) by (intros Hin; apply Hnot; right; exact Hin).
        rewrite Hrs3. apply get_set_other. exact Hne.
Qed.

(** One round of [spawn] keeps the mesh complete. *)
Lemma spawn_one_mesh (s s' : t) :
  well_formed s -> meshed s ->
  spawn_one s = (Ret tt, s') ->
  meshed s'.
Proof.
  intros (Hwh & Hnd & Hok) Hmesh Hspawn.
  unfold counter in Hok.
  set (g := RemoteWorker.ids (world s)) in *.
  set (u := uniqueId g) in *.
  set (i := fst (Ids.getUniqueId g)).
  assert (Hi : i = mint (u + 1) (clock g (u + 1))) by reflexivity.
  destruct (create_ok (which s) (world s) Hwh) as (xA & HrunA & HidsA & HnwA).
  fold g i in HrunA, HidsA.
  set (w0 := RemoteWorker.mk i (Some (RemoteWorker.next_worker (world s))) [] [])
    in *.
  set (sA := with_world xA s).
  destruct (initializeWorker_ok w0 sA)
    as (sB & HrunB & HraB & HwhB & HidsB & HnwB).
  cbn [w0 RemoteWorker.id RemoteWorker.worker RemoteWorker.threads
       RemoteWorker.listeners] in HrunB.
  set (w1 := RemoteWorker.mk i (Some (RemoteWorker.next_worker (world s))) []
               (set (fst (Ids.getUniqueId (RemoteWorker.ids (world sA))))
                  RemoteWorker.ForwardToCluster [])) in *.
  assert (HrsB : remotes sB = remotes s)
    by (unfold remotes; rewrite HraB; reflexivity).
  assert (Hfresh : forall k, minted_upto u k -> i <> k).
  { intros k Hk. apply getUniqueId_fresh. exact Hk. }
  assert (Hmi : minted_upto (u + 2) i).
  { exists (u + 1)%N, (clock g (u + 1)). split; [lia | exact Hi]. }
  assert (Hpre : forall k, In k (keys (remotes sB)) ->
            exists r, get k (remotes sB) = Some r /\ RemoteWorker.id r = k
                      /\ has (RemoteWorker.id w1) (RemoteWorker.threads r) = false).
  { intros k Hin. rewrite HrsB in *.
    destruct (in_keys_get _ _ Hin) as (r & Hget). exists r.
    destruct (Hok k r (get_in _ _ _ Hget)) as (Hrid & _ & Hthr).
    split; [exact Hget|]. split; [exact Hrid|].
    apply has_false_not_in. intros Hin'.
    apply (Hfresh i); [apply Hthr; exact Hin' | reflexivity]. }
  assert (HndB : NoDup (keys (remotes sB))) by (rewrite HrsB; exact Hnd).
  destruct (cross_wire_ok (u + 2) (keys (remotes sB)) w1 sB HndB Hpre)
    as (w' & sC & HrunC & Hid' & Hwk' & Hth' & Hks' & _).
  - intros k _. reflexivity.
  - intros k r Hin. rewrite HrsB in Hin.
    destruct (Hok k r Hin) as (Hrid & Hmk & Hthr).
    split; [exact Hrid|].
    split; [apply (minted_upto_mono u); [lia | exact Hmk]|].
    intros k' Hin'. apply (minted_upto_mono u); [lia | apply Hthr; exact Hin'].
  - exact Hmi.
  - destruct (cross_wire_mesh (keys (remotes sB)) w1 sB w' sC HndB Hpre
                (fun k _ => eq_refl) HrunC) as (Hvisited & _).
    cbn [w1 RemoteWorker.id RemoteWorker.worker RemoteWorker.threads]
      in Hid', Hwk', Hth', Hvisited. cbn [app] in Hth'.
    rewrite HrsB in Hks', Hth', Hvisited.
    assert (Hnotin : ~ In i (keys (remotes s))).
    { intros Hin. destruct (in_keys_get _ _ Hin) as (r & Hget).
      destruct (Hok i r (get_in _ _ _ Hget)) as (_ & Hmk & _).
      apply (Hfresh i Hmk). reflexivity. }
    assert (Hnone : get i (remotes sC) = None).
    { apply get_none_not_in. rewrite Hks'. exact Hnotin. }
    assert (Hrun : spawn_one s =
                   (Ret tt, with_remotes (set (RemoteWorker.id w') w' (remotes sC)) sC)).
    { unfold spawn_one.
      rewrite (bind_ret _ _ s s (which s)) by reflexivity.
      rewrite (bind_ret _ _ s sA w0) by (apply call_ret; exact HrunA).
      rewrite (bind_ret _ _ _ _ _ HrunB).
      unfold registerRemoteThread.
      rewrite (bind_ret _ _ sB sB (keys (remotes sB))) by reflexivity.
      rewrite (bind_ret _ _ _ _ _ HrunC).
      reflexivity. }
    rewrite Hrun in Hspawn. injection Hspawn as <-.
    assert (Hrs' : remotes (with_remotes (set (RemoteWorker.id w') w' (remotes sC)) sC)
                   = set i w' (remotes sC)).
    { rewrite Hid'. reflexivity. }
    assert (Hkeys' : keys (set i w' (remotes sC)) = (keys (remotes s) ++ [i])%list).
    { rewrite keys_set_fresh by exact Hnone. rewrite Hks'. reflexivity. }
    assert (HndC : NoDup (keys (remotes sC))) by (rewrite Hks'; exact Hnd).
    unfold meshed. rewrite Hrs', Hkeys'.
    intros k r Hin. rewrite filter_app. cbn [filter].
    destruct (in_set _ _ _ _ _ Hin) as [[-> ->]|Hin0].
    + rewrite String.eqb_refl. cbn [negb]. rewrite app_nil_r.
      rewrite Hth'. symmetry. apply filter_others_fresh. exact Hnotin.
    + assert (Hk : In k (keys (remotes s))).
      { rewrite <- Hks'. change (In (fst (k, r)) (map fst (remotes sC))).
        apply in_map. exact Hin0. }
      assert (Hne : i <> k) by (intros ->; contradiction).
      destruct (String.eqb_spec i k) as [E|_]; [contradiction|]. cbn [negb].
      destruct (Hvisited k Hk) as (r0 & r0' & Hget0 & Hget0' & Hkeys0).
      rewrite (in_get_nodup k r _ HndC Hin0) in Hget0'.
      injection Hget0' as <-.
      rewrite Hkeys0. f_equal.
      apply (Hmesh k r0). apply get_in. exact Hget0.
Qed.

End Mesh.

(** X22: [spawn] keeps the mesh of channels complete.  Starting from a
    controller in which every unit holds exactly one channel entry for
    every other unit and none for itself, [spawn(n)] returns, and the
    same holds for the units it leaves, old and new: the channel map of
    each has the ids of all the others, in spawn order. *)
Theorem X22_spawn_keeps_the_mesh_complete (n : Z) (s : WorkerCluster.t) :
  well_formed s -> meshed s ->
  exists s' : WorkerCluster.t,
    WorkerCluster.spawn n s = (Ret tt, s')
    /\ well_formed s' /\ meshed s'.
Proof.
  revert n s.
  apply (WorkerCluster.spawn_elim
           (fun n s res =>
              well_formed s -> meshed s ->
              exists s', res = (Ret tt, s') /\ well_formed s' /\ meshed s')).
  - intros n s e s1 Hone Hwf _.
    destruct (spawn_one_ok s Hwf) as (s' & Hrun & _). congruence.
  - intros n s s1 Hone Hwf _.
    destruct (spawn_one_ok s Hwf) as (s' & Hrun & _). congruence.
  - intros n Hlt s a s1 IH _ Hone Hwf Hmesh.
    destruct (spawn_one_ok s Hwf) as (s' & Hrun & Hwf' & _).
    pose proof (spawn_one_mesh s s' Hwf Hmesh Hrun) as Hmesh'.
    rewrite Hrun in Hone. injection Hone as _ <-.
    exact (IH Hwf' Hmesh').
  - intros n Hge s a s1 _ Hone Hwf Hmesh.
    destruct (spawn_one_ok s Hwf) as (s' & Hrun & Hwf' & _).
    pose proof (spawn_one_mesh s s' Hwf Hmesh Hrun) as Hmesh'.
    rewrite Hrun in Hone. injection Hone as _ <-.
    exists s'. split; [reflexivity|]. split; assumption.
Qed.

Lemma X22_witness :
  exists s' : WorkerCluster.t,
    WorkerCluster.constructor RemoteWorker.WorkerClass 3
      (mkIdSource 0 Runs.still_clock) = (Ret tt, s')
    /\ meshed s'.
Proof.
  assert (Hwf : well_formed (WorkerCluster.create RemoteWorker.WorkerClass
                               (mkIdSource 0 Runs.still_clock))).
  { apply create_well_formed. discriminate. }
  assert (Hmesh : meshed (WorkerCluster.create RemoteWorker.WorkerClass
                            (mkIdSource 0 Runs.still_clock))).
  { intros k r []. }
  destruct (X22_spawn_keeps_the_mesh_complete 3 _ Hwf Hmesh)
    as (s' & Hrun & _ & Hm).
  exists s'. split; [exact Hrun | exact Hm].
Defined.

(** ** Handshakes, as a worker receives them *)

Lemma getUniqueId_nonempty (g : IdSource) : fst (Ids.getUniqueId g) <> "".
Proof.
  unfold Ids.getUniqueId. cbn [fst].
  destruct (dec_of_N (uniqueId g + 1)); discriminate.
Qed.

(** X23: the identity handshake.  A message whose [ident] field is set
    gives the worker its id and does nothing else, whatever other
    fields it carries: no command runs, no listener is called, nothing
    is posted.  The message a new unit handle posts to its worker is
    such a message, and it carries the id under which the controller
    will list the unit. *)
Theorem X23_identity_handshake
  (fuel : nat) (w : ThreadPool.t) (wh : RemoteWorker.Which)
  (x : RemoteWorker.World) :
  wh <> RemoteWorker.NotAWorker ->
  (forall (o : Obj JsVal) (ps : list Port) (tr : bool),
      truthy (prop o "ident") = true ->
      ThreadPool.messageListener (S fuel) (mkEvent (VObj o) ps tr) w =
      (Ret tt,
       ThreadPool.with_ra
         (RemoteAware.with_id (prop o "ident") (ThreadPool.ra w)) w))
  /\ exists (this : RemoteWorker.t) (x' : RemoteWorker.World)
            (greeting : JsVal),
       RemoteWorker.create wh x = (Ret this, x')
       /\ RemoteWorker.effects x' =
          (RemoteWorker.effects x ++
           [RemoteWorker.Spawn (RemoteWorker.next_worker x) wh;
            RemoteWorker.WorkerPost (RemoteWorker.next_worker x) greeting []])%list
       /\ ThreadPool.messageListener (S fuel) (Runs.delivered greeting) w =
          (Ret tt,
           ThreadPool.with_ra
             (RemoteAware.with_id (VStr (RemoteWorker.id this))
                (ThreadPool.ra w)) w).
Proof.
  intros Hwh.
  assert (Hident : forall (o : Obj JsVal) (ps : list Port) (tr : bool),
             truthy (prop o "ident") = true ->
             ThreadPool.messageListener (S fuel) (mkEvent (VObj o) ps tr) w =
             (Ret tt,
              ThreadPool.with_ra
                (RemoteAware.with_id (prop o "ident") (ThreadPool.ra w)) w)).
  { intros o ps tr Ht.
    cbn [ThreadPool.messageListener data typeof_object field lift].
    rewrite bind_ret_l, Ht. unfold ThreadPool.ident.
    cbn [data field lift]. rewrite bind_ret_l. reflexivity. }
  split; [exact Hident|].
  set (i := fst (Ids.getUniqueId (RemoteWorker.ids x))).
  exists (RemoteWorker.mk i (Some (RemoteWorker.next_worker x)) [] []).
  eexists. exists (VObj [("ident", VStr i)]).
  split; [|split].
  - unfold RemoteWorker.create.
    destruct wh; try contradiction; reflexivity.
  - cbn [RemoteWorker.effects RemoteWorker.with_effects].
    rewrite <- app_assoc. reflexivity.
  - unfold Runs.delivered. rewrite Hident.
    + reflexivity.
    + change (prop [("ident", VStr i)] "ident") with (VStr i).
      cbn [truthy]. pose proof (getUniqueId_nonempty (RemoteWorker.ids x)) as Hne.
      fold i in Hne. destruct (String.eqb_spec i ""); [contradiction|reflexivity].
Qed.

Lemma X23_witness :
  ThreadPool.messageListener 1
    (mkEvent (VObj [("ident", VStr "1.t"); ("cmd", VStr "echo")]) [] true)
    (Runs.worker_with "0.t" [] Runs.echo) =
  (Ret tt, Runs.worker_with "1.t" [] Runs.echo).
Proof.
  assert (Hwh : RemoteWorker.WorkerClass <> RemoteWorker.NotAWorker)
    by discriminate.
  exact (proj1 (X23_identity_handshake 0 (Runs.worker_with "0.t" [] Runs.echo)
                  RemoteWorker.WorkerClass
                  (RemoteWorker.mkWorld (mkIdSource 0 Runs.still_clock) 0 0 [])
                  Hwh)
           [("ident", VStr "1.t"); ("cmd", VStr "echo")] [] true eq_refl).
Defined.



(** ** Initialising a unit *)

(** X25: [initializeWorker].  The unit gains one listener, filed under
    a new identifier after the listeners it had, and receives the
    credentials the controller holds at that moment: first the
    authorization, then the access token, each only when it is set, and
    nothing else.  The controller's own fields are untouched.  A worker
    that receives the access-token message stores the token. *)
Theorem X25_initializeWorker_hands_over_credentials
  (s : WorkerCluster.t) (unit : RemoteWorker.t) (h : nat) :
  RemoteWorker.worker unit = Some h ->
  get (fst (Ids.getUniqueId (RemoteWorker.ids (WorkerCluster.world s))))
      (RemoteWorker.listeners unit) = None ->
  let idx := fst (Ids.getUniqueId (RemoteWorker.ids (WorkerCluster.world s))) in
  let auth := WorkerCluster.httpAuthorization s in
  let token := WorkerCluster.httpAccessToken s in
  exists (unit' : RemoteWorker.t) (s' : WorkerCluster.t),
    WorkerCluster.initializeWorker unit s = (Ret unit', s')
    /\ RemoteWorker.listeners unit' =
       (RemoteWorker.listeners unit ++ [(idx, RemoteWorker.ForwardToCluster)])%list
    /\ RemoteWorker.effects (WorkerCluster.world s') =
       (RemoteWorker.effects (WorkerCluster.world s) ++
        (if truthy auth
         then [RemoteWorker.WorkerPost h
                 (VObj [("setHttpAuthorization", auth)]) []]
         else []) ++
        (if truthy token
         then [RemoteWorker.WorkerPost h
                 (VObj [("setHttpAccessToken", token)]) []]
         else []))%list
    /\ WorkerCluster.ra s' = WorkerCluster.ra s
    /\ WorkerCluster.listeners s' = WorkerCluster.listeners s
    /\ (truthy token = true ->
        forall (fuel : nat) (w : ThreadPool.t),
          ThreadPool.messageListener (S fuel)
            (Runs.delivered (VObj [("setHttpAccessToken", token)])) w =
          (Ret tt, ThreadPool.with_httpAccessToken token w)).
Proof.
  intros Hw Hfresh idx auth token.
  assert (Hset : forall (o : Obj RemoteWorker.WorkerListener),
             get idx o = None ->
             set idx RemoteWorker.ForwardToCluster o =
             (o ++ [(idx, RemoteWorker.ForwardToCluster)])%list).
  { induction o as [|[k' v'] o IH]; cbn [get set]; [reflexivity|].
    destruct (idx =? k'); [discriminate|].
    intros H. cbn [app]. f_equal. apply IH. exact H. }
  unfold WorkerCluster.initializeWorker, WorkerCluster.call,
    RemoteWorker.addMessageListener, RemoteWorker.postMessage.
  unfold bind, gets, RemoteWorker.getUniqueId, ret, RemoteWorker.emit, modify.
  cbn [RemoteWorker.worker snd fst]. rewrite Hw.
  fold auth token.
  destruct s as [r l a k wh [g nw nc es]].
  cbn [WorkerCluster.world WorkerCluster.httpAuthorization
       WorkerCluster.httpAccessToken RemoteWorker.ids] in *.
  subst auth token.
  destruct (Ids.getUniqueId g) as [i g'] eqn:Hid. cbn [fst snd] in *.
  subst idx.
  cbn -[set truthy ThreadPool.messageListener].
  destruct (truthy a) eqn:Ha; cbn -[set truthy ThreadPool.messageListener];
    destruct (truthy k) eqn:Hk; cbn -[set truthy ThreadPool.messageListener];
    (eexists; eexists; split; [reflexivity|]);
    cbn [RemoteWorker.listeners WorkerCluster.world RemoteWorker.effects
         WorkerCluster.ra WorkerCluster.listeners];
    (split; [apply Hset; exact Hfresh|]);
    (split; [rewrite <- ?app_assoc, ?app_nil_r; reflexivity|]);
    (split; [reflexivity|]); (split; [reflexivity|]);
    try discriminate.
  all: intros _ fuel w; unfold Runs.delivered;
    cbn [ThreadPool.messageListener data typeof_object];
    cbn [field lift prop get String.eqb Ascii.eqb Bool.eqb];
    repeat (rewrite bind_ret_l; cbn [truthy]);
    rewrite Hk; reflexivity.
Qed.

Lemma X25_witness :
  let s := WorkerCluster.with_httpAccessToken (VStr "secret")
             (Runs.cluster_with [] 0 []) in
  exists (unit' : RemoteWorker.t) (s' : WorkerCluster.t),
    WorkerCluster.initializeWorker (RemoteWorker.mk "1.t" (Some 0) [] []) s =
    (Ret unit', s')
    /\ RemoteWorker.listeners unit' =
       [("1.1700000000000.12.5.0.25", RemoteWorker.ForwardToCluster)]
    /\ RemoteWorker.effects (WorkerCluster.world s') =
       [RemoteWorker.WorkerPost 0
          (VObj [("setHttpAccessToken", VStr "secret")]) []].
Proof.
  intros s.
  destruct (X25_initializeWorker_hands_over_credentials s
              (RemoteWorker.mk "1.t" (Some 0) [] []) 0 eq_refl eq_refl)
    as (unit' & s' & Hrun & Hls & Heff & _).
  exists unit', s'. split; [exact Hrun|]. split; [exact Hls | exact Heff].
Defined.
